(** * scb-credit-simulator-backend: routes and e-mail service

    A shallow embedding of [src/routes/sample.routes.ts] (the request
    handlers and [formatAnswers]), [src/services/email.service.ts]
    ([EmailService]) and [src/services/mongo.service.ts] ([MongoService]),
    with the properties the specification states about them.

    Conventions of the embedding.
    - JavaScript values that travel in request bodies and in the e-mail
      data bag are plain data ([Val]): no functions, no symbols.  Numbers
      are the integers and [NaN], an integer standing for the double
      nearest to it; strings are byte strings.
    - Converting a value to text is partial, as in the language: an
      object that has an own [toString] property cannot be converted,
      and the template literal, [join] or [parseInt] that asks for its
      text throws.
    - A handler is a computation in the monad [M]: it threads the [World]
      (collection, clock, environment, mail transport) and either returns
      or throws; [try_catch] is the [try { } catch { }] of the source.
    - [await] is sequencing: one handler runs to completion before the
      next one starts.
    - The BSON driver's [ObjectId], [parseInt] and the locale formatting
      of dates are not part of the repository; they are the fields of
      [Platform], and what is assumed of them is [PlatformLaws]. *)

From Stdlib Require Import ZArith NArith List String Ascii Bool Lia.
From Stdlib Require Import DecimalString DecimalPos DecimalN.
Import ListNotations.
Local Open Scope string_scope.

(** ** Characters the source writes inside its literals *)

Definition dq : string := String (ascii_of_nat 34) EmptyString.
Definition nl : string := String (ascii_of_nat 10) EmptyString.
Definition newline : ascii := ascii_of_nat 10.

(** ** Plain JavaScript data *)

Module Js.

Inductive Number : Type :=
| NaN
| Int (z : Z).

#[warnings="-register-all"]
Inductive Val : Type :=
| VUndefined
| VNull
| VBool (b : bool)
| VNum (n : Number)
| VStr (s : string)
| VArr (items : list Val)
| VObj (fields : list (string * Val)).

(** Thrown values are [Error] objects; only their [message] is kept. *)
Definition Exn : Type := string.

Inductive Outcome (A : Type) : Type :=
| Return (a : A)
| Throw (e : Exn).
Arguments Return {A} a.
Arguments Throw {A} e.

(** [!v] is [negb (truthy v)]. *)
Definition truthy (v : Val) : bool :=
  match v with
  | VUndefined | VNull => false
  | VBool b => b
  | VNum NaN => false
  | VNum (Int z) => negb (Z.eqb z 0)
  | VStr s => negb (String.eqb s "")
  | VArr _ | VObj _ => true
  end.

(** The decimal digits of an integer. *)
Definition digitsOf (z : Z) : string := NilZero.string_of_int (Z.to_int z).

(** The double nearest to a positive integer, ties to even: what a
    number of a JSON text is once parsed. *)
Definition roundToDouble (n : Z) : Z :=
  let bits := (Z.log2 n + 1)%Z in
  if (bits <=? 53)%Z then n
  else
    let shift := (bits - 53)%Z in
    let q := Z.shiftr n shift in
    let r := (n - Z.shiftl q shift)%Z in
    let half := Z.shiftl 1 (shift - 1) in
    let q' := if (half <? r)%Z || ((r =? half)%Z && Z.odd q) then (q + 1)%Z else q in
    Z.shiftl q' shift.

(** Number::toString picks the decimal with the fewest significant
    digits that still reads back as the double [d], the closest one when
    there are two: [k] significant digits are tried before [k + 1]. *)
Fixpoint shortest (fuel : nat) (k digits d : Z) : Z :=
  match fuel with
  | O => d
  | S fuel' =>
      if (digits <=? k)%Z then d
      else
        let scale := (10 ^ (digits - k))%Z in
        let lo := (d / scale * scale)%Z in
        let hi := (lo + scale)%Z in
        let okLo := (roundToDouble lo =? d)%Z in
        let okHi := (roundToDouble hi =? d)%Z in
        if okLo && okHi
        then (if (d - lo <? hi - d)%Z then lo
              else if (hi - d <? d - lo)%Z then hi
              else if Z.even (lo / scale) then lo else hi)
        else if okLo then lo
        else if okHi then hi
        else shortest fuel' (k + 1)%Z digits d
  end.

(** [s] without its trailing zeros. *)
Fixpoint trimZeros (s : string) : string :=
  match s with
  | EmptyString => EmptyString
  | String c rest =>
      match trimZeros rest with
      | EmptyString => if Ascii.eqb c "0" then EmptyString else String c EmptyString
      | t => String c t
      end
  end.

(** Number::toString of a positive integer.  Up to 2^53 every integer
    is a double and prints in its digits; above, the nearest double
    prints with its shortest digits, padded with zeros below 10^21 and
    in exponent form from 10^21 on; from 2^1024 on it is [Infinity]. *)
Definition printPositive (a : Z) : string :=
  if (a <=? 9007199254740992)%Z then digitsOf a
  else
    let d := roundToDouble a in
    if (2 ^ 1024 <=? d)%Z then "Infinity"
    else
      let c := shortest 17 1 (Z.of_nat (String.length (digitsOf d))) d in
      let ds := digitsOf c in
      let n := Z.of_nat (String.length ds) in
      if (n <=? 21)%Z then ds
      else
        match trimZeros ds with
        | String first EmptyString =>
            String first EmptyString ++ "e+" ++ digitsOf (n - 1)
        | String first rest =>
            String first EmptyString ++ "." ++ rest ++ "e+" ++ digitsOf (n - 1)
        | EmptyString => ds
        end.

(** Number::toString on the integers and [NaN]. *)
Definition numToString (n : Number) : string :=
  match n with
  | NaN => "NaN"
  | Int z =>
      if (z =? 0)%Z then "0"
      else if (z <? 0)%Z then "-" ++ printPositive (- z)
      else printPositive z
  end.

(** [sep]-separated concatenation of already rendered elements. *)
Fixpoint joinStrings (sep : string) (l : list string) : string :=
  match l with
  | [] => ""
  | [x] => x
  | x :: rest => x ++ sep ++ joinStrings sep rest
  end.

(** Own-property lookup in an object literal or a parsed JSON object:
    the first binding of the key. *)
Fixpoint lookup {A : Type} (k : string) (fields : list (string * A)) : option A :=
  match fields with
  | [] => None
  | (k', v) :: rest => if String.eqb k k' then Some v else lookup k rest
  end.

Definition notPrimitive : Exn := "Cannot convert object to primitive value".

(** The abstract operation ToString on plain data, as a template
    literal, [parseInt] and [Array.prototype.join] apply it.  An array
    renders as its elements joined with a comma, [null] and [undefined]
    elements as the empty string.  An object renders through the
    [toString] it finds: the one of [Object.prototype], unless it has an
    own property of that name; in plain data such a property is no
    function, and the conversion throws a [TypeError]. *)
Fixpoint toString (v : Val) : Outcome string :=
  match v with
  | VUndefined => Return "undefined"
  | VNull => Return "null"
  | VBool true => Return "true"
  | VBool false => Return "false"
  | VNum n => Return (numToString n)
  | VStr s => Return s
  | VArr items =>
      match
        (fix each (l : list Val) : Outcome (list string) :=
           match l with
           | [] => Return []
           | x :: r =>
               match
                 match x with
                 | VUndefined | VNull => Return ""
                 | _ => toString x
                 end
               with
               | Throw e => Throw e
               | Return t =>
                   match each r with
                   | Throw e => Throw e
                   | Return ts => Return (t :: ts)
                   end
               end
           end) items
      with
      | Throw e => Throw e
      | Return ts => Return (joinStrings "," ts)
      end
  | VObj fields =>
      match lookup "toString" fields with
      | Some _ => Throw notPrimitive
      | None => Return "[object Object]"
      end
  end.

(** The text of one element in [join]. *)
Definition elementText (v : Val) : Outcome string :=
  match v with
  | VUndefined | VNull => Return ""
  | _ => toString v
  end.

Fixpoint elementTexts (items : list Val) : Outcome (list string) :=
  match items with
  | [] => Return []
  | x :: rest =>
      match elementText x with
      | Throw e => Throw e
      | Return t =>
          match elementTexts rest with
          | Throw e => Throw e
          | Return ts => Return (t :: ts)
          end
      end
  end.

(** [items.join(sep)] *)
Definition join (sep : string) (items : list Val) : Outcome string :=
  match elementTexts items with
  | Throw e => Throw e
  | Return ts => Return (joinStrings sep ts)
  end.

(** Assignment [obj[k] = v]: an existing key keeps its place. *)
Fixpoint set {A : Type} (k : string) (v : A) (fields : list (string * A)) : list (string * A) :=
  match fields with
  | [] => [(k, v)]
  | (k', v') :: rest =>
      if String.eqb k k' then (k', v) :: rest else (k', v') :: set k v rest
  end.

(** [v.k] and the destructuring [const { k } = v], for the keys the
    source reads ([name], [email], [age], [answers], [label], [value],
    [subject], [message]).  None of them is defined by [Object.prototype],
    [Array.prototype] or the wrappers of the primitives, so a key that is
    not an own property reads as [undefined]; reading from [undefined] or
    [null] throws a [TypeError]. *)
Definition getProp (v : Val) (k : string) : Outcome Val :=
  match v with
  | VUndefined => Throw ("Cannot read properties of undefined (reading '" ++ k ++ "')")
  | VNull => Throw ("Cannot read properties of null (reading '" ++ k ++ "')")
  | VObj fields =>
      match lookup k fields with
      | Some x => Return x
      | None => Return VUndefined
      end
  | _ => Return VUndefined
  end.

(** [for (const x of v)]: arrays yield their elements, strings their
    characters; nothing else among plain data is iterable. *)
Definition iterate (v : Val) : Outcome (list Val) :=
  match v with
  | VArr items => Return items
  | VStr s => Return (map (fun c => VStr (String c EmptyString)) (list_ascii_of_string s))
  | _ => Throw "answers is not iterable"
  end.

(** [a || b] *)
Definition or_else (a b : Val) : Val := if truthy a then a else b.

End Js.
Import Js.

(** ** [formatAnswers] (sample.routes.ts) *)

Definition greeting : string :=
  "📋 Bonjour SCB Cameroun, J'ai rempli les questionnaires du simulateur et voici *Mes réponses au questionnaire* : <br /> <ul>".

Definition signoff : string :=
  "<br /> </ul> J'aimerais en savoir plus s'il vous plait".

(** The text appended for one surviving entry. *)
Definition answerLine (label val : string) : string :=
  "<li> <span style=" ++ dq ++ "font-weight: bold" ++ dq ++ "> " ++ label
  ++ " </span>  :  <i> " ++ val ++ " </i> </li>  <br />".

(** [Array.isArray(value) ? value.join(", ") : value] *)
Definition joined (value : Val) : Outcome Val :=
  match value with
  | VArr items =>
      match join ", " items with
      | Throw e => Throw e
      | Return s => Return (VStr s)
      end
  | _ => Return value
  end.

(** The template literal of the loop, with its two substitutions. *)
Definition renderLine (label val : Val) : Outcome string :=
  match toString label with
  | Throw e => Throw e
  | Return l =>
      match toString val with
      | Throw e => Throw e
      | Return v => Return (answerLine l v)
      end
  end.

(** The body of the [for ... of] loop, with the message built so far. *)
Fixpoint formatLoop (answers : list Val) (message : string) : Outcome string :=
  match answers with
  | [] => Return message
  | a :: rest =>
      match getProp a "label" with
      | Throw e => Throw e
      | Return label =>
          match getProp a "value" with
          | Throw e => Throw e
          | Return value =>
              if negb (truthy label) || negb (truthy value)
              then formatLoop rest message
              else
                match joined value with
                | Throw e => Throw e
                | Return val =>
                    match renderLine label val with
                    | Throw e => Throw e
                    | Return line => formatLoop rest (message ++ line)
                    end
                end
          end
      end
  end.

Definition formatAnswers (answers : Val) : Outcome string :=
  match iterate answers with
  | Throw e => Throw e
  | Return items =>
      match formatLoop items greeting with
      | Throw e => Throw e
      | Return message => Return (message ++ signoff)
      end
  end.

Definition answer (label value : Val) : Val :=
  VObj [("label", label); ("value", value)].

(** ** What the repository takes from its platform *)

Class Platform : Type := {
  (** [ObjectId] of the BSON driver *)
  ObjectId : Type;
  oid_eqb : ObjectId -> ObjectId -> bool;
  (** [new ObjectId(s)]; [None] when the constructor throws *)
  oid_of_string : string -> option ObjectId;
  (** [oid.toString()] *)
  oid_to_string : ObjectId -> string;
  (** the [k]-th identifier the driver's primary-key factory hands out *)
  createPk : N -> ObjectId;
  (** the global [parseInt], applied to a string *)
  parseInt : string -> Number;
  (** [Date.prototype.toString], [toLocaleString] and
      [toLocaleDateString] *)
  dateToString : Z -> string;
  toLocaleString : Z -> string;
  toLocaleDateString : Z -> string;
}.

Class PlatformLaws (P : Platform) : Prop := {
  oid_eqb_eq : forall a b : ObjectId, oid_eqb a b = true <-> a = b;
  oid_of_to_string : forall o : ObjectId, oid_of_string (oid_to_string o) = Some o;
  createPk_inj : forall i j : N, createPk i = createPk j -> i = j;
}.

(** ** Messages handed to the mail transport *)

Module Mail.

(** What [mailOptions] holds; a field that may be [undefined] is a [Val]. *)
Record MailOptions : Type := mkMailOptions {
  from : string;
  to : Val;
  subject : Val;
  text : Val;
  html : Val;
}.

(** How [transporter.sendMail] settles: with an [info] object, of which
    the source reads [messageId] and [nodemailer.getTestMessageUrl(info)]
    ([None] for [false]), or rejected with an [Error]. *)
Inductive SendOutcome : Type :=
| Sent (messageId : string) (testMessageUrl : option string)
| Rejected (message : string).

End Mail.

(** ** Stored documents, the world and the monad of handlers *)

Section Embedding.
Context {P : Platform}.

(** A stored field is plain data from a request body, a [Date], or an
    [ObjectId]. *)
Inductive Bson : Type :=
| BVal (v : Val)
| BDate (t : Z)
| BObjectId (o : ObjectId).

Definition Doc : Type := list (string * Bson).

Record World : Type := mkWorld {
  (** [MongoService.collection] is bound *)
  connected : bool;
  (** the database answers the driver *)
  online : bool;
  (** the [users] collection, in insertion order *)
  docs : list Doc;
  (** identifiers handed out so far by the primary-key factory *)
  pkCount : N;
  (** [new Date()] *)
  now : Z;
  (** [process.env] *)
  env : string -> option string;
  (** [EmailService.isConfigured] *)
  isConfigured : bool;
  (** [EmailService.transporter.sendMail] *)
  transport : Mail.MailOptions -> Mail.SendOutcome;
  (** the messages handed to the transport, latest last *)
  outbox : list Mail.MailOptions;
}.

Definition with_docs (ds : list Doc) (w : World) : World :=
  mkWorld (connected w) (online w) ds (pkCount w) (now w) (env w)
          (isConfigured w) (transport w) (outbox w).

Definition with_pkCount (n : N) (w : World) : World :=
  mkWorld (connected w) (online w) (docs w) n (now w) (env w)
          (isConfigured w) (transport w) (outbox w).

Definition with_outbox (o : list Mail.MailOptions) (w : World) : World :=
  mkWorld (connected w) (online w) (docs w) (pkCount w) (now w) (env w)
          (isConfigured w) (transport w) o.

Definition M (A : Type) : Type := World -> Outcome A * World.

Definition ret {A : Type} (a : A) : M A := fun w => (Return a, w).

Definition throw {A : Type} (e : Exn) : M A := fun w => (Throw e, w).

Definition bind {A B : Type} (c : M A) (k : A -> M B) : M B :=
  fun w =>
    match c w with
    | (Return a, w') => k a w'
    | (Throw e, w') => (Throw e, w')
    end.

(** [try { body } catch (error) { handler }]: what [body] did to the
    world before it threw stays done. *)
Definition try_catch {A : Type} (body : M A) (handler : Exn -> M A) : M A :=
  fun w =>
    match body w with
    | (Return a, w') => (Return a, w')
    | (Throw e, w') => handler e w'
    end.

(** A pure step that may throw. *)
Definition lift {A : Type} (o : Outcome A) : M A := fun w => (o, w).

Definition gets {A : Type} (f : World -> A) : M A := fun w => (Return (f w), w).

Definition modify (f : World -> World) : M unit := fun w => (Return tt, f w).

End Embedding.

Declare Scope js_scope.
Delimit Scope js_scope with js.
Notation "x <- c ;; k" := (bind c (fun x => k))
  (at level 61, c at next level, right associativity) : js_scope.
Notation "c ;;; k" := (bind c (fun _ => k))
  (at level 61, right associativity) : js_scope.
Local Open Scope js_scope.

(** ** [EmailService] (email.service.ts) *)

Module EmailService.

Record EmailTemplate : Type := mkTemplate {
  subject : Val;
  html : string;
  text : string;
}.

(** The object literal [templates] of [generateEmailTemplate]. *)
Record Templates : Type := mkTemplates {
  welcome : EmailTemplate;
  notification : EmailTemplate;
  custom : EmailTemplate;
}.

(** The value of [templates[type] || templates.custom]: one of the three
    own properties, or, since [templates] is an object literal, a member
    it inherits from [Object.prototype].  Such a member is a function or
    an object, hence truthy, and has no [subject], [text] or [html]. *)
Inductive TemplateValue : Type :=
| OwnTemplate (t : EmailTemplate)
| PrototypeMember (key : string).

Definition objectPrototypeKeys : list string :=
  ["constructor"; "__defineGetter__"; "__defineSetter__"; "hasOwnProperty";
   "__lookupGetter__"; "__lookupSetter__"; "isPrototypeOf";
   "propertyIsEnumerable"; "toString"; "valueOf"; "__proto__";
   "toLocaleString"].

Definition isPrototypeKey (k : string) : bool :=
  existsb (String.eqb k) objectPrototypeKeys.

Record SendResult : Type := mkResult {
  success : bool;
  messageId : option string;
  previewUrl : option string;
  error : option string;
}.

(** [s.replace(/\n/g, '<br>')] *)
Fixpoint replaceNewlines (s : string) : string :=
  match s with
  | EmptyString => EmptyString
  | String c rest =>
      if Ascii.eqb c newline
      then "<br>" ++ replaceNewlines rest
      else String c (replaceNewlines rest)
  end.

(** [data.message.replace(/\n/g, '<br>')]: only a string has a
    [replace] method among plain data. *)
Definition messageReplace (message : Val) : Outcome string :=
  match message with
  | VStr s => Return (replaceNewlines s)
  | VUndefined => Throw "Cannot read properties of undefined (reading 'replace')"
  | VNull => Throw "Cannot read properties of null (reading 'replace')"
  | _ => Throw "data.message.replace is not a function"
  end.

Definition divOpen : string :=
  "
          <div style=" ++ dq ++ "font-family: Arial, sans-serif; max-width: 600px; margin: 0 auto;" ++ dq ++ ">
            <h2 style=" ++ dq ++ "color: #333;" ++ dq ++ ">".

Definition welcomeHtml (name email age joined : string) : string :=
  divOpen ++ "Welcome to Our Service!</h2>
            <p>Hi <strong>" ++ name ++ "</strong>,</p>
            <p>Thank you for joining our service. We're excited to have you on board!</p>
            <div style=" ++ dq ++ "background-color: #f5f5f5; padding: 15px; margin: 20px 0; border-radius: 5px;" ++ dq ++ ">
              <p><strong>Your Details:</strong></p>
              <ul>
                <li>Name: " ++ name ++ "</li>
                <li>Email: " ++ email ++ "</li>
                <li>Age: " ++ age ++ "</li>
                <li>Joined: " ++ joined ++ "</li>
              </ul>
            </div>
            <p>If you have any questions, feel free to contact our support team.</p>
            <p>Best regards,<br>The Team</p>
          </div>
        ".

Definition welcomeText (name email age joined : string) : string :=
  "Welcome " ++ name ++ "!" ++ nl ++ nl
  ++ "Thank you for joining our service. We're excited to have you on board!" ++ nl ++ nl
  ++ "Your Details:" ++ nl ++ "- Name: " ++ name ++ nl ++ "- Email: " ++ email ++ nl
  ++ "- Age: " ++ age ++ nl ++ "- Joined: " ++ joined ++ nl ++ nl
  ++ "If you have any questions, feel free to contact our support team." ++ nl ++ nl
  ++ "Best regards," ++ nl ++ "The Team".

Definition notificationHtml (message sentOn : string) : string :=
  divOpen ++ "Notification</h2>
            <p>Hi there,</p>
            <p>" ++ message ++ "</p>
            <p>This notification was sent on " ++ sentOn ++ "</p>
            <p>Best regards,<br>The Team</p>
          </div>
        ".

Definition notificationText (message sentOn : string) : string :=
  "Notification" ++ nl ++ nl ++ "Hi there," ++ nl ++ nl ++ message ++ nl ++ nl
  ++ "This notification was sent on " ++ sentOn ++ nl ++ nl
  ++ "Best regards," ++ nl ++ "The Team".

Definition customHtmlOpen : string :=
  divOpen ++ "Message</h2>
            <p>".

Definition customHtmlClose (sentOn : string) : string :=
  "</p>
            <p>Sent on " ++ sentOn ++ "</p>
          </div>
        ".

Definition customHtml (converted sentOn : string) : string :=
  customHtmlOpen ++ converted ++ customHtmlClose sentOn.

Definition customTextClose (sentOn : string) : string :=
  nl ++ nl ++ "Sent on " ++ sentOn.

Definition customText (message sentOn : string) : string :=
  message ++ customTextClose sentOn.

Section WithPlatform.
Context {P : Platform}.

(** [isReady()] *)
Definition isReady : M bool := gets isConfigured.

(** The object literal [templates]: all three entries are evaluated,
    whatever [type] is, the template literals in the order of the
    source: those of the welcome entry convert [name], [email] and
    [age], those of the notification entry [subject || 'Update'] and
    [message], and the custom entry calls [message.replace].  A
    conversion that throws leaves [generateEmailTemplate] with the
    exception. *)
Definition buildTemplates (data : Val) : M Templates :=
  name <- lift (getProp data "name") ;;
  email <- lift (getProp data "email") ;;
  age <- lift (getProp data "age") ;;
  date <- gets now ;;
  subj <- lift (getProp data "subject") ;;
  message <- lift (getProp data "message") ;;
  nameText <- lift (toString name) ;;
  emailText <- lift (toString email) ;;
  ageText <- lift (toString age) ;;
  subjectText <- lift (toString (or_else subj (VStr "Update"))) ;;
  messageText <- lift (toString message) ;;
  converted <- lift (messageReplace message) ;;
  ret (mkTemplates
         (mkTemplate (VStr ("Welcome " ++ nameText ++ "!"))
            (welcomeHtml nameText emailText ageText (toLocaleDateString date))
            (welcomeText nameText emailText ageText (toLocaleDateString date)))
         (mkTemplate
            (VStr ("Notification: " ++ subjectText))
            (notificationHtml messageText (toLocaleString date))
            (notificationText messageText (toLocaleString date)))
         (mkTemplate (or_else subj (VStr "Message from Our Service"))
            (customHtml converted (toLocaleString date))
            (customText messageText (toLocaleString date)))).

(** [templates[type as keyof typeof templates] || templates.custom] *)
Definition selectTemplate (templates : Templates) (type : string) : TemplateValue :=
  if String.eqb type "welcome" then OwnTemplate (welcome templates)
  else if String.eqb type "notification" then OwnTemplate (notification templates)
  else if String.eqb type "custom" then OwnTemplate (custom templates)
  else if isPrototypeKey type then PrototypeMember type
  else OwnTemplate (custom templates).

Definition generateEmailTemplate (type : string) (data : Val) : M TemplateValue :=
  templates <- buildTemplates data ;;
  ret (selectTemplate templates type).

(** [template.subject], [template.text], [template.html] *)
Definition templateSubject (t : TemplateValue) : Val :=
  match t with OwnTemplate e => subject e | PrototypeMember _ => VUndefined end.

Definition templateText (t : TemplateValue) : Val :=
  match t with OwnTemplate e => VStr (text e) | PrototypeMember _ => VUndefined end.

Definition templateHtml (t : TemplateValue) : Val :=
  match t with OwnTemplate e => VStr (html e) | PrototypeMember _ => VUndefined end.

(** [process.env[k]] *)
Definition envVal (e : string -> option string) (k : string) : Val :=
  match e k with
  | Some s => VStr s
  | None => VUndefined
  end.

(** [await this.transporter.sendMail(mailOptions)] *)
Definition sendMail (mailOptions : Mail.MailOptions) : M (string * option string) :=
  fun w =>
    let w' := with_outbox (outbox w ++ [mailOptions]) w in
    match transport w mailOptions with
    | Mail.Sent id url => (Return (id, url), w')
    | Mail.Rejected m => (Throw m, w')
    end.

Definition notConfigured : SendResult :=
  mkResult false None None (Some "Email service not configured").

Definition sendEmail (to : Val) (type : string) (data : Val) : M SendResult :=
  configured <- gets isConfigured ;;
  if negb configured then ret notConfigured
  else
    try_catch
      (template <- generateEmailTemplate type data ;;
       e <- gets env ;;
       fromName <-
         lift (toString (or_else (envVal e "SMTP_FROM_NAME") (VStr "Your Service"))) ;;
       fromEmail <-
         lift (toString (or_else (envVal e "SMTP_FROM_EMAIL") (envVal e "SMTP_USER"))) ;;
       let mailOptions :=
         Mail.mkMailOptions
           (dq ++ fromName ++ dq ++ " <" ++ fromEmail ++ ">")
           to (templateSubject template) (templateText template)
           (templateHtml template) in
       info <- sendMail mailOptions ;;
       let production :=
         match e "NODE_ENV" with
         | Some v => String.eqb v "production"
         | None => false
         end in
       let previewUrl := if production then None else snd info in
       (* console.log(`Email sent to ${to}: ${info.messageId}`) *)
       lift (toString to) ;;;
       ret (mkResult true (Some (fst info))
              (match previewUrl with
               | Some u => if String.eqb u "" then None else Some u
               | None => None
               end)
              None))
      (fun error => ret (mkResult false None None (Some error))).

(** [emailConfig] of [setupTransporter], and the options of the test
    transport. *)
Record EmailConfig : Type := mkConfig {
  host : Val;
  port : Number;
  secure : bool;
  user : Val;
  pass : Val;
}.

Definition emailConfig (e : string -> option string) : EmailConfig :=
  mkConfig (envVal e "SMTP_HOST")
    (parseInt (match e "SMTP_PORT" with
               | Some s => if String.eqb s "" then "587" else s
               | None => "587"
               end))
    (match e "SMTP_SECURE" with
     | Some v => String.eqb v "true"
     | None => false
     end)
    (envVal e "SMTP_USER") (envVal e "SMTP_PASS").

(** [this.transporter = t; this.isConfigured = true] *)
Definition configure (t : Mail.MailOptions -> Mail.SendOutcome) (w : World) : World :=
  mkWorld (connected w) (online w) (docs w) (pkCount w) (now w) (env w)
          true t (outbox w).

(** [setupTransporter()], up to the point where it returns;
    [createTransport] is nodemailer's.  With an incomplete configuration
    it starts [createTestTransporter()] and does not wait for it. *)
Definition setupTransporter
    (createTransport : EmailConfig -> Mail.MailOptions -> Mail.SendOutcome) : M unit :=
  e <- gets env ;;
  let c := emailConfig e in
  if truthy (host c) && truthy (user c) && truthy (pass c)
  then modify (configure (createTransport c))
  else ret tt.

(** [createTestTransporter()] once [nodemailer.createTestAccount()] has
    settled, with the account's user and password or with an error; the
    error is logged, not thrown. *)
Definition createTestTransporter
    (createTransport : EmailConfig -> Mail.MailOptions -> Mail.SendOutcome)
    (testAccount : Outcome (string * string)) : M unit :=
  try_catch
    (account <- lift testAccount ;;
     modify (configure (createTransport
                          (mkConfig (VStr "smtp.ethereal.email") (Int 587) false
                             (VStr (fst account)) (VStr (snd account))))))
    (fun _ => ret tt).

(** [verifyConnection()], with how [transporter.verify()] settles. *)
Definition verifyConnection (verify : Outcome unit) : M bool :=
  configured <- gets isConfigured ;;
  if negb configured then ret false
  else try_catch (lift verify ;;; ret true) (fun _ => ret false).

End WithPlatform.

End EmailService.

(** ** [MongoService] and the collection it hands out (mongo.service.ts) *)

Module MongoService.
Section WithPlatform.
Context {P : Platform}.

(** [getCollection()] *)
Definition getCollection : M unit :=
  fun w =>
    if connected w then (Return tt, w)
    else (Throw "Database not connected", w).

(** Every call on the collection is a round trip that fails when the
    database does not answer. *)
Definition roundTrip : M unit :=
  fun w =>
    if online w then (Return tt, w)
    else (Throw "MongoNetworkError", w).

Fixpoint val_eqb (a b : Val) : bool :=
  match a, b with
  | VUndefined, VUndefined => true
  | VNull, VNull => true
  | VBool x, VBool y => Bool.eqb x y
  | VNum NaN, VNum NaN => true
  | VNum (Int x), VNum (Int y) => Z.eqb x y
  | VStr x, VStr y => String.eqb x y
  | VArr xs, VArr ys =>
      (fix all2 (l : list Val) (r : list Val) : bool :=
         match l, r with
         | [], [] => true
         | x :: l', y :: r' => val_eqb x y && all2 l' r'
         | _, _ => false
         end) xs ys
  | VObj fs, VObj gs =>
      (fix all2 (l : list (string * Val)) (r : list (string * Val)) : bool :=
         match l, r with
         | [], [] => true
         | (k, x) :: l', (k', y) :: r' =>
             String.eqb k k' && val_eqb x y && all2 l' r'
         | _, _ => false
         end) fs gs
  | _, _ => false
  end.

Definition bson_eqb (a b : Bson) : bool :=
  match a, b with
  | BVal x, BVal y => val_eqb x y
  | BDate x, BDate y => Z.eqb x y
  | BObjectId x, BObjectId y => oid_eqb x y
  | _, _ => false
  end.

(** The filter [{ _id: oid }] *)
Definition matches (oid : ObjectId) (d : Doc) : bool :=
  match lookup "_id" d with
  | Some (BObjectId o) => oid_eqb oid o
  | _ => false
  end.

Definition hasId (id : Bson) (d : Doc) : bool :=
  match lookup "_id" d with
  | Some x => bson_eqb id x
  | None => false
  end.

(** [find({}).toArray()] *)
Definition findAll : M (list Doc) :=
  roundTrip ;;; gets docs.

(** [findOne({ _id: oid })]; [None] is [null]. *)
Definition findOne (oid : ObjectId) : M (option Doc) :=
  roundTrip ;;; ds <- gets docs ;; ret (find (matches oid) ds).

(** The driver gives a document whose [_id] is [null] or missing a new
    [ObjectId] before it sends it. *)
Definition assignPk (doc : Doc) : M (Bson * Doc) :=
  match lookup "_id" doc with
  | None | Some (BVal VNull) | Some (BVal VUndefined) =>
      k <- gets pkCount ;;
      modify (with_pkCount (N.succ k)) ;;;
      ret (BObjectId (createPk k), set "_id" (BObjectId (createPk k)) doc)
  | Some id => ret (id, doc)
  end.

(** The round trip of an insertion.  The [_id] index is unique and an
    array is refused as [_id]; the collection keeps insertion order. *)
Definition insertPrepared (id : Bson) (doc : Doc) : M Bson :=
  roundTrip ;;;
  ds <- gets docs ;;
  match id with
  | BVal (VArr _) => throw "The '_id' value cannot be of type array"
  | _ =>
      if existsb (hasId id) ds then throw "E11000 duplicate key error"
      else modify (with_docs (ds ++ [doc])) ;;; ret id
  end.

(** [insertOne(doc)], returning [insertedId]. *)
Definition insertOne (doc : Doc) : M Bson :=
  p <- assignPk doc ;;
  insertPrepared (fst p) (snd p).

(** [insertMany(docs)], ordered, returning [insertedCount]. *)
Fixpoint insertMany (ds : list Doc) : M nat :=
  match ds with
  | [] => ret 0
  | d :: rest =>
      insertOne d ;;; n <- insertMany rest ;; ret (S n)
  end.

(** [$set]: each field of the update document is assigned. *)
Definition applySet (update : Doc) (d : Doc) : Doc :=
  fold_left (fun acc kv => set (fst kv) (snd kv) acc) update d.

(** The first document that matches is replaced; [None] when none does. *)
Fixpoint updateFirst (oid : ObjectId) (update : Doc) (ds : list Doc) : option (list Doc) :=
  match ds with
  | [] => None
  | d :: rest =>
      if matches oid d then Some (applySet update d :: rest)
      else match updateFirst oid update rest with
           | Some rest' => Some (d :: rest')
           | None => None
           end
  end.

(** [updateOne({ _id: oid }, { $set: update })], returning
    [matchedCount].  An empty [$set] is accepted and changes nothing
    (MongoDB 5.0 and later). *)
Definition updateOne (oid : ObjectId) (update : Doc) : M nat :=
  roundTrip ;;;
  ds <- gets docs ;;
  match updateFirst oid update ds with
  | Some ds' => modify (with_docs ds') ;;; ret 1
  | None => ret 0
  end.

Fixpoint deleteFirst (oid : ObjectId) (ds : list Doc) : option (list Doc) :=
  match ds with
  | [] => None
  | d :: rest =>
      if matches oid d then Some rest
      else match deleteFirst oid rest with
           | Some rest' => Some (d :: rest')
           | None => None
           end
  end.

(** [deleteOne({ _id: oid })], returning [deletedCount]. *)
Definition deleteOne (oid : ObjectId) : M nat :=
  roundTrip ;;;
  ds <- gets docs ;;
  match deleteFirst oid ds with
  | Some ds' => modify (with_docs ds') ;;; ret 1
  | None => ret 0
  end.

(** [new ObjectId(id)] *)
Definition newObjectId (id : string) : M ObjectId :=
  match oid_of_string id with
  | Some oid => ret oid
  | None => throw "input must be a 24 character hex string, 12 byte Uint8Array, or an integer"
  end.

Definition with_connected (b : bool) (w : World) : World :=
  mkWorld b (online w) (docs w) (pkCount w) (now w) (env w)
          (isConfigured w) (transport w) (outbox w).

(** [connect()]: [client.connect()] is a round trip; after it the
    collection is bound; an error is logged and thrown again. *)
Definition connect : M unit :=
  try_catch
    (roundTrip ;;; modify (with_connected true))
    (fun error => throw error).

End WithPlatform.
End MongoService.

(** ** The request handlers (sample.routes.ts) *)

Module Routes.

Section WithPlatform.
Context {P : Platform}.

(** The [data] of an envelope, by handler. *)
Inductive Payload : Type :=
| DocList (l : list Doc)
| OneDoc (d : Doc)
| NewId (id : string)
| InsertedCount (n : nat).

(** [ApiResponse<T>]; [None] is an absent field. *)
Record ApiResponse : Type := mkApi {
  success : bool;
  data : option Payload;
  message : option string;
}.

(** [res.status(status).json(body)] *)
Record Response : Type := mkResponse {
  status : nat;
  body : ApiResponse;
}.

Definition failure (code : nat) (msg : string) : Response :=
  mkResponse code (mkApi false None (Some msg)).

Definition indexKey (i : nat) : string :=
  NilZero.string_of_uint (Nat.to_uint i).

Fixpoint indexed {A : Type} (i : nat) (l : list A) : list (string * A) :=
  match l with
  | [] => []
  | x :: rest => (indexKey i, x) :: indexed (S i) rest
  end.

(** The own enumerable properties [{ ...v }] copies. *)
Definition spread (v : Val) : list (string * Val) :=
  match v with
  | VObj fields => fields
  | VArr items => indexed 0 items
  | VStr s => indexed 0 (map (fun c => VStr (String c EmptyString)) (list_ascii_of_string s))
  | _ => []
  end.

(** [{ ...req.body, createdAt: new Date() }] *)
Definition newData (reqBody : Val) (createdAt : Z) : Doc :=
  set "createdAt" (BDate createdAt)
      (map (fun kv => (fst kv, BVal (snd kv))) (spread reqBody)).

(** [insertedId.toString()]: the method of the [ObjectId], or, for an
    [_id] the client chose, the one its value finds; an object with an
    own [toString] property has no such method, and the call throws. *)
Definition bsonToString (b : Bson) : Outcome string :=
  match b with
  | BVal v => toString v
  | BDate t => Return (dateToString t)
  | BObjectId o => Return (oid_to_string o)
  end.

(** [GET /api/data] *)
Definition getAll : M Response :=
  try_catch
    (MongoService.getCollection ;;;
     found <- MongoService.findAll ;;
     ret (mkResponse 200 (mkApi true (Some (DocList found)) None)))
    (fun _ => ret (failure 500 "Failed to fetch data")).

(** [GET /api/data/:id] *)
Definition getById (id : string) : M Response :=
  try_catch
    (MongoService.getCollection ;;;
     oid <- MongoService.newObjectId id ;;
     found <- MongoService.findOne oid ;;
     match found with
     | None => ret (failure 404 "Data not found")
     | Some d => ret (mkResponse 200 (mkApi true (Some (OneDoc d)) None))
     end)
    (fun _ => ret (failure 500 "Failed to fetch data")).

(** [POST /api/data] *)
Definition create (reqBody : Val) : M Response :=
  try_catch
    (createdAt <- gets now ;;
     MongoService.getCollection ;;;
     insertedId <- MongoService.insertOne (newData reqBody createdAt) ;;
     answers <- lift (getProp reqBody "answers") ;;
     formatted <- lift (formatAnswers (or_else answers (VArr []))) ;;
     let mailContent :=
       VObj [("subject", VStr "Data Retrieved From Simulator");
             ("message", VStr formatted)] in
     ready <- EmailService.isReady ;;
     (if ready
      then e <- gets env ;;
           EmailService.sendEmail (EmailService.envVal e "RECIPIENT_EMAIL")
             "custom" mailContent ;;;
           ret tt
      else ret tt) ;;;
     id <- lift (bsonToString insertedId) ;;
     ret (mkResponse 201
            (mkApi true (Some (NewId id))
               (Some "Data created successfully"))))
    (fun _ => ret (failure 500 "Failed to create data")).

(** [parseInt(age)]: the argument is converted to a string first. *)
Definition parseIntOf (age : Val) : Outcome Number :=
  match toString age with
  | Throw e => Throw e
  | Return s => Return (parseInt s)
  end.

(** [updateData], built from the destructured body. *)
Definition updateData (name email age : Val) : Outcome Doc :=
  let u0 : Doc := [] in
  let u1 := if truthy name then set "name" (BVal name) u0 else u0 in
  let u2 := if truthy email then set "email" (BVal email) u1 else u1 in
  if truthy age
  then match parseIntOf age with
       | Throw e => Throw e
       | Return n => Return (set "age" (BVal (VNum n)) u2)
       end
  else Return u2.

(** [PUT /api/data/:id] *)
Definition update (id : string) (reqBody : Val) : M Response :=
  try_catch
    (name <- lift (getProp reqBody "name") ;;
     email <- lift (getProp reqBody "email") ;;
     age <- lift (getProp reqBody "age") ;;
     fields <- lift (updateData name email age) ;;
     MongoService.getCollection ;;;
     oid <- MongoService.newObjectId id ;;
     matchedCount <- MongoService.updateOne oid fields ;;
     if Nat.eqb matchedCount 0
     then ret (failure 404 "Data not found")
     else ret (mkResponse 200 (mkApi true None (Some "Data updated successfully"))))
    (fun _ => ret (failure 500 "Failed to update data")).

(** [DELETE /api/data/:id] *)
Definition delete (id : string) : M Response :=
  try_catch
    (MongoService.getCollection ;;;
     oid <- MongoService.newObjectId id ;;
     deletedCount <- MongoService.deleteOne oid ;;
     if Nat.eqb deletedCount 0
     then ret (failure 404 "Data not found")
     else ret (mkResponse 200 (mkApi true None (Some "Data deleted successfully"))))
    (fun _ => ret (failure 500 "Failed to delete data")).

Definition sampleData (createdAt : Z) : list Doc :=
  [ [("name", BVal (VStr "John Doe")); ("email", BVal (VStr "john@example.com"));
     ("age", BVal (VNum (Int 30))); ("createdAt", BDate createdAt)];
    [("name", BVal (VStr "Jane Smith")); ("email", BVal (VStr "jane@example.com"));
     ("age", BVal (VNum (Int 25))); ("createdAt", BDate createdAt)];
    [("name", BVal (VStr "Bob Johnson")); ("email", BVal (VStr "bob@example.com"));
     ("age", BVal (VNum (Int 35))); ("createdAt", BDate createdAt)] ].

(** [POST /api/seed] *)
Definition seed : M Response :=
  try_catch
    (createdAt <- gets now ;;
     MongoService.getCollection ;;;
     insertedCount <- MongoService.insertMany (sampleData createdAt) ;;
     ret (mkResponse 201
            (mkApi true (Some (InsertedCount insertedCount))
               (Some "Sample data seeded successfully"))))
    (fun _ => ret (failure 500 "Failed to seed data")).

(** The requests the six handlers serve. *)
Inductive Request : Type :=
| GetAll
| GetById (id : string)
| Create (reqBody : Val)
| Update (id : string) (reqBody : Val)
| Delete (id : string)
| Seed.

Definition handle (r : Request) : M Response :=
  match r with
  | GetAll => getAll
  | GetById id => getById id
  | Create b => create b
  | Update id b => update id b
  | Delete id => delete id
  | Seed => seed
  end.

(** The world after a sequence of requests, each served to completion. *)
Fixpoint serveAll (rs : list Request) (w : World) : World :=
  match rs with
  | [] => w
  | r :: rest => serveAll rest (snd (handle r w))
  end.

End WithPlatform.
End Routes.

(** ** Notions the properties are stated with *)

(** [sub] occurs in [s]. *)
Definition contains (s sub : string) : Prop :=
  exists pre post, s = pre ++ sub ++ post.

(** Number of positions of [s] at which [sub] starts. *)
Fixpoint occurrences (sub s : string) : nat :=
  match s with
  | EmptyString => 0
  | String _ rest =>
      (if String.prefix sub s then 1 else 0) + occurrences sub rest
  end.

(** The first [n] characters of [s], and what follows them. *)
Fixpoint take (n : nat) (s : string) : string :=
  match n, s with
  | S n', String c rest => String c (take n' rest)
  | _, _ => EmptyString
  end.

Fixpoint drop (n : nat) (s : string) : string :=
  match n, s with
  | S n', String _ rest => drop n' rest
  | _, _ => s
  end.

(** [s] ends with [suffix]. *)
Definition endsWith (s suffix : string) : bool :=
  String.eqb (drop (String.length s - String.length suffix) s) suffix.

Definition hasNewline (s : string) : bool :=
  existsb (Ascii.eqb newline) (list_ascii_of_string s).

(** An entry of [answers] that the loop can destructure. *)
Definition destructurable (a : Val) : bool :=
  match a with
  | VUndefined | VNull => false
  | _ => true
  end.

(** The property [k] of an entry, [undefined] when it is missing. *)
Definition prop (a : Val) (k : string) : Val :=
  match a with
  | VObj fields =>
      match lookup k fields with
      | Some x => x
      | None => VUndefined
      end
  | _ => VUndefined
  end.

Definition missing (a : Val) (k : string) : Prop :=
  match a with
  | VObj fields => lookup k fields = None
  | _ => True
  end.

(** The texts the welcome and the notification entries of [templates]
    substitute from the data bag: those of [name], [email], [age] and
    [subject || 'Update']. *)
Definition bagTexts (data : Val) (name email age subj : string) : Prop :=
  toString (prop data "name") = Return name
  /\ toString (prop data "email") = Return email
  /\ toString (prop data "age") = Return age
  /\ toString (or_else (prop data "subject") (VStr "Update")) = Return subj.

(** An entry survives when both its label and its value are truthy. *)
Definition survives (a : Val) : bool :=
  truthy (prop a "label") && truthy (prop a "value").

(** The text of the value of an entry in its line: an array is joined
    with a comma and a space, anything else is converted as it is. *)
Definition valueText (value : Val) : Outcome string :=
  match value with
  | VArr items => join ", " items
  | _ => toString value
  end.

(** [texts] holds, for each entry of [answers] in order, the text of
    its label and the text of its value. *)
Definition textsOf (answers : list Val) (texts : list (string * string)) : Prop :=
  Forall2 (fun a t => toString (prop a "label") = Return (fst t)
                      /\ valueText (prop a "value") = Return (snd t))
          answers texts.

Definition flat (l : list string) : string :=
  fold_right String.append EmptyString l.

(** The lines of the surviving entries, from their texts. *)
Definition lines (texts : list (string * string)) : string :=
  flat (map (fun t => answerLine (fst t) (snd t)) texts).

(** The sample of the specification. *)
Definition sampleAnswers : list Val :=
  [answer (VStr "A") (VStr "b");
   answer (VStr "") (VStr "c");
   answer (VStr "D") (VArr [VStr "e"; VStr "f"])].

(** The data bag has no string under [message]. *)
Definition lacksStringMessage (data : Val) : Prop :=
  forall s, getProp data "message" <> Return (VStr s).

(** A Record input: name, email and age, nothing else. *)
Definition recordInput (name email : string) (age : Z) : Val :=
  VObj [("name", VStr name); ("email", VStr email); ("age", VNum (Int age))].

Section Invariant.
Context {P : Platform}.

(** Every [ObjectId] in the collection was handed out by the primary-key
    factory. *)
Definition storeOk (w : World) : Prop :=
  forall d o,
    In d (docs w) ->
    lookup "_id" d = Some (BObjectId o) ->
    exists k, (k < pkCount w)%N /\ o = createPk k.

(** Two worlds that differ at most in the mail side: readiness,
    transport, environment and outbox. *)
Definition sameStore (w w' : World) : Prop :=
  connected w = connected w' /\ online w = online w' /\ docs w = docs w'
  /\ pkCount w = pkCount w' /\ now w = now w'.

Definition stateChanging (r : Routes.Request) : bool :=
  match r with
  | Routes.Create _ | Routes.Update _ _ | Routes.Delete _ => true
  | _ => false
  end.

(** The invariant of the response envelope, for the response [r] to the
    request [req]: no payload on failure, a message on every error
    (an envelope that says failure, or a status from 400 on), and a
    message on every success of a state-changing request. *)
Definition envelopeOk (req : Routes.Request) (r : Routes.Response) : Prop :=
  let b := Routes.body r in
  (Routes.success b = false -> Routes.data b = None)
  /\ (Routes.success b = false \/ 400 <= Routes.status r -> Routes.message b <> None)
  /\ (stateChanging req = true -> Routes.success b = true ->
      Routes.message b <> None).

(** A computation whose results, when it returns, all satisfy [Q]. *)
Definition always {A : Type} (Q : A -> Prop) (c : M A) : Prop :=
  forall w, match fst (c w) with
            | Return a => Q a
            | Throw _ => True
            end.

(** A computation that takes every world to one related to it by [R],
    whether it returns or throws. *)
Definition preserves (R : World -> World -> Prop) {A : Type} (c : M A) : Prop :=
  forall w, R w (snd (c w)).

(** A computation that leaves the store side of the world alone. *)
Definition keepsStore {A : Type} (c : M A) : Prop := preserves sameStore c.

(** The primary-key factory only moves forward. *)
Definition pkGrows (w w' : World) : Prop := (pkCount w <= pkCount w')%N.

(** [storeOk] is kept. *)
Definition keepsOk (w w' : World) : Prop := storeOk w -> storeOk w'.

(** A computation that never throws. *)
Definition returns {A : Type} (c : M A) : Prop :=
  forall w, exists a, fst (c w) = Return a.

(** A computation whose result and whose effect on the store are
    determined by the store side of the world. *)
Definition storeDetermined {A : Type} (c : M A) : Prop :=
  forall w w',
    sameStore w w' ->
    fst (c w) = fst (c w') /\ sameStore (snd (c w)) (snd (c w')).

(** The store step of the create handler. *)
Definition insertStep (doc : Doc) : M Bson :=
  bind MongoService.getCollection (fun _ => MongoService.insertOne doc).

(** The notification text of a create request:
    [formatAnswers(req.body.answers || [])]. *)
Definition answersMessage (reqBody : Val) : Outcome string :=
  match getProp reqBody "answers" with
  | Throw e => Throw e
  | Return answers => formatAnswers (or_else answers (VArr []))
  end.

(** [mailContent] of the create handler. *)
Definition mailContent (formatted : string) : Val :=
  VObj [("subject", VStr "Data Retrieved From Simulator");
        ("message", VStr formatted)].

(** The envelope of a successful create. *)
Definition created (id : string) : Routes.Response :=
  Routes.mkResponse 201
    (Routes.mkApi true (Some (Routes.NewId id))
       (Some "Data created successfully")).

End Invariant.

(** ** A platform and worlds to run the handlers on *)

Module Demo.

Definition decimal (n : N) : string := NilZero.string_of_uint (N.to_uint n).

Definition isWhite (c : ascii) : bool :=
  let n := nat_of_ascii c in
  Nat.eqb n 32 || (Nat.leb 9 n && Nat.leb n 13).

Fixpoint trimStart (s : string) : string :=
  match s with
  | String c rest => if isWhite c then trimStart rest else s
  | EmptyString => EmptyString
  end.

Definition digitValue (c : ascii) : option Z :=
  let n := nat_of_ascii c in
  if Nat.leb 48 n && Nat.leb n 57 then Some (Z.of_nat (n - 48)) else None.

(** The value of the longest prefix of digits, after [acc]; [seen] tells
    whether a digit has been read. *)
Fixpoint digitsPrefix (s : string) (acc : Z) (seen : bool) : option Z :=
  match s with
  | EmptyString => if seen then Some acc else None
  | String c rest =>
      match digitValue c with
      | Some d => digitsPrefix rest (10 * acc + d)%Z true
      | None => if seen then Some acc else None
      end
  end.

Definition hexValue (c : ascii) : option Z :=
  let n := nat_of_ascii c in
  if Nat.leb 48 n && Nat.leb n 57 then Some (Z.of_nat (n - 48))
  else if Nat.leb 65 n && Nat.leb n 70 then Some (Z.of_nat (n - 55))
  else if Nat.leb 97 n && Nat.leb n 102 then Some (Z.of_nat (n - 87))
  else None.

Fixpoint hexPrefix (s : string) (acc : Z) (seen : bool) : option Z :=
  match s with
  | EmptyString => if seen then Some acc else None
  | String c rest =>
      match hexValue c with
      | Some d => hexPrefix rest (16 * acc + d)%Z true
      | None => if seen then Some acc else None
      end
  end.

(** The digits of [parseInt] without a radix: hexadecimal after [0x]
    or [0X], decimal otherwise; the value is the nearest double. *)
Definition magnitude (s : string) : option Z :=
  option_map roundToDouble
    match s with
    | String "0" (String "x" rest) => hexPrefix rest 0 false
    | String "0" (String "X" rest) => hexPrefix rest 0 false
    | _ => digitsPrefix s 0 false
    end.

(** [parseInt] on ASCII text that denotes a number below 2^1024:
    leading white space is skipped, a sign is read, then the longest
    run of digits; [NaN] when there is none. *)
Definition parseIntText (s : string) : Number :=
  match trimStart s with
  | String "-" rest =>
      match magnitude rest with
      | Some z => Int (- z)
      | None => NaN
      end
  | String "+" rest =>
      match magnitude rest with
      | Some z => Int z
      | None => NaN
      end
  | t =>
      match magnitude t with
      | Some z => Int z
      | None => NaN
      end
  end.

Definition platform : Platform := {|
  ObjectId := N;
  oid_eqb := N.eqb;
  oid_of_string := fun s => option_map N.of_uint (NilZero.uint_of_string s);
  oid_to_string := decimal;
  createPk := fun k => (1000 + k)%N;
  parseInt := parseIntText;
  dateToString := fun t => NilZero.string_of_int (Z.to_int t);
  toLocaleString := fun t => NilZero.string_of_int (Z.to_int t);
  toLocaleDateString := fun t => NilZero.string_of_int (Z.to_int t);
|}.

#[local] Existing Instance platform.

Definition noEnv : string -> option string := fun _ => None.

Definition delivering : Mail.MailOptions -> Mail.SendOutcome :=
  fun _ => Mail.Sent "<1@scb>" (Some "https://ethereal.email/message/1").

Definition rejecting : Mail.MailOptions -> Mail.SendOutcome :=
  fun _ => Mail.Rejected "connect ECONNREFUSED".

(** A connected, empty collection at time 1700000000000; the mail
    service is set by the arguments. *)
Definition world (configured : bool) (t : Mail.MailOptions -> Mail.SendOutcome) : World :=
  mkWorld true true [] 0%N 1700000000000%Z noEnv configured t [].

(** John Doe, stored under the first identifier. *)
Definition john : Doc :=
  [("name", BVal (VStr "John Doe")); ("email", BVal (VStr "john@example.com"));
   ("age", BVal (VNum (Int 30))); ("createdAt", BDate 1700000000000%Z);
   ("_id", BObjectId 1000%N)].

Definition jane : Doc :=
  [("name", BVal (VStr "Jane Smith")); ("email", BVal (VStr "jane@example.com"));
   ("age", BVal (VNum (Int 25))); ("createdAt", BDate 1700000000000%Z);
   ("_id", BObjectId 1001%N)].

Definition seeded : World :=
  mkWorld true true [john; jane] 2%N 1700000000500%Z noEnv false rejecting [].

(** A Record input, and the same with an [answers] array whose only
    entry is [null]. *)
Definition ada : Val := recordInput "Ada" "ada@example.com" 36.

Definition adaNullAnswer : Val :=
  VObj [("name", VStr "Ada"); ("email", VStr "ada@example.com");
        ("age", VNum (Int 36)); ("answers", VArr [VNull])].

(** A data bag whose message has two lines, and one without message. *)
Definition twoLines : Val := VObj [("message", VStr ("a" ++ nl ++ "b"))].

Definition subjectOnly : Val := VObj [("subject", VStr "Hello")].

End Demo.

(** ** The CORS origin check (app.ts) *)

Module App.

(** [s.split(sep)] for a one-character separator. *)
Fixpoint split (sep : ascii) (s : string) : list string :=
  match s with
  | EmptyString => [EmptyString]
  | String c rest =>
      if Ascii.eqb c sep then EmptyString :: split sep rest
      else match split sep rest with
           | piece :: pieces => String c piece :: pieces
           | [] => [String c EmptyString]
           end
  end.

(** How the [origin] function calls back: [callback(null, true)] or
    [callback(new Error(message))]. *)
Inductive CorsDecision : Type :=
| Allowed
| Refused (message : string).

(** [process.env['ALLOWED_ORIGINS']?.split(',') || ['http://localhost']] *)
Definition allowedOrigins (e : string -> option string) : list string :=
  match e "ALLOWED_ORIGINS" with
  | Some v => split "," v
  | None => ["http://localhost"]
  end.

(** The [origin] function of [corsOptions]; [None] is a request that
    carries no [Origin] header. *)
Definition corsOrigin (e : string -> option string) (origin : option string) : CorsDecision :=
  match origin with
  | None => Allowed
  | Some o =>
      if negb (truthy (VStr o)) then Allowed
      else if existsb (String.eqb o) (allowedOrigins e) then Allowed
      else Refused "Not allowed by CORS"
  end.

End App.

(** ** More notions the properties are stated with *)

Section MoreNotions.
Context {P : Platform}.

(** The [ObjectId]s of a collection, in order. *)
Definition oidsOf (ds : list Doc) : list ObjectId :=
  flat_map (fun d => match lookup "_id" d with
                     | Some (BObjectId o) => [o]
                     | _ => []
                     end) ds.

(** No two documents carry the same [ObjectId]. *)
Definition uniqueIds (w : World) : Prop := NoDup (oidsOf (docs w)).

Definition keepsUnique (w w' : World) : Prop := uniqueIds w -> uniqueIds w'.

(** The mail side is as it was: same readiness, same outbox. *)
Definition sameMail (w w' : World) : Prop :=
  isConfigured w = isConfigured w' /\ outbox w = outbox w'
  /\ env w = env w' /\ transport w = transport w' /\ now w = now w'.

(** The message of the [catch] of each handler. *)
Definition failureMessage (req : Routes.Request) : string :=
  match req with
  | Routes.GetAll | Routes.GetById _ => "Failed to fetch data"
  | Routes.Create _ => "Failed to create data"
  | Routes.Update _ _ => "Failed to update data"
  | Routes.Delete _ => "Failed to delete data"
  | Routes.Seed => "Failed to seed data"
  end.

(** The update document of a request whose age has the text [t]. *)
Definition updateDoc (name email age : Val) (t : string) : Doc :=
  let u0 : Doc := [] in
  let u1 := if truthy name then set "name" (BVal name) u0 else u0 in
  let u2 := if truthy email then set "email" (BVal email) u1 else u1 in
  if truthy age then set "age" (BVal (VNum (parseInt t))) u2 else u2.

(** [process.env[k] || fallback] *)
Definition envOr (e : string -> option string) (k fallback : string) : string :=
  match e k with
  | Some s => if String.eqb s "" then fallback else s
  | None => fallback
  end.

(** The [from] header of [mailOptions]: the name, or 'Your Service',
    between quotes, then the address, or the user, or the text of
    [undefined], between angle brackets. *)
Definition fromHeader (e : string -> option string) : string :=
  dq ++ envOr e "SMTP_FROM_NAME" "Your Service" ++ dq ++ " <"
  ++ envOr e "SMTP_FROM_EMAIL"
       (match e "SMTP_USER" with
        | Some s => s
        | None => "undefined"
        end)
  ++ ">".

(** The message a send with the custom template hands to the transport. *)
Definition customMail (w : World) (to subj : Val) (msg : string) : Mail.MailOptions :=
  Mail.mkMailOptions (fromHeader (env w)) to
    (or_else subj (VStr "Message from Our Service"))
    (VStr (EmailService.customText msg (toLocaleString (now w))))
    (VStr (EmailService.customHtml (EmailService.replaceNewlines msg)
             (toLocaleString (now w)))).

(** What [sendEmail] returns after the transport has settled. *)
Definition resultOf (e : string -> option string) (o : Mail.SendOutcome) : EmailService.SendResult :=
  match o with
  | Mail.Sent id url =>
      EmailService.mkResult true (Some id)
        (match e "NODE_ENV", url with
         | Some "production", _ => None
         | _, Some "" => None
         | _, u => u
         end)
        None
  | Mail.Rejected m => EmailService.mkResult false None None (Some m)
  end.

(** The documents [ds] with the identifiers the factory hands out from
    the [k]-th on, in order. *)
Fixpoint assignIds (k : N) (ds : list Doc) : list Doc :=
  match ds with
  | [] => []
  | d :: rest => set "_id" (BObjectId (createPk k)) d :: assignIds (N.succ k) rest
  end.

(** A type for which [templates[type] || templates.custom] is the
    custom template. *)
Definition customType (type : string) : bool :=
  negb (String.eqb type "welcome") && negb (String.eqb type "notification")
  && negb (EmailService.isPrototypeKey type).

End MoreNotions.

Module Demo2.

#[local] Existing Instance Demo.platform.

Definition smtpEnv : string -> option string :=
  fun k =>
    if String.eqb k "SMTP_HOST" then Some "smtp.scb.cm"
    else if String.eqb k "SMTP_USER" then Some "mailer"
    else if String.eqb k "SMTP_PASS" then Some "secret"
    else if String.eqb k "RECIPIENT_EMAIL" then Some "ops@scb.cm"
    else if String.eqb k "ALLOWED_ORIGINS" then Some "https://scb.cm,https://sim.scb.cm"
    else None.

(** The seeded collection with a ready mail service. *)
Definition ready (t : Mail.MailOptions -> Mail.SendOutcome) : World :=
  mkWorld true true [Demo.john; Demo.jane] 2%N 1700000000500%Z smtpEnv true t [].

(** A world whose database is bound to nothing yet. *)
Definition unbound : World :=
  mkWorld false true [] 0%N 1700000000000%Z Demo.noEnv false Demo.rejecting [].

Definition anyTransport : EmailService.EmailConfig -> Mail.MailOptions -> Mail.SendOutcome :=
  fun _ => Demo.delivering.

End Demo2.

(** * Properties *)

(** ** Strings *)

Lemma append_nil_r (s : string) : s ++ "" = s.
Proof. induction s as [|c s IH]; simpl; [reflexivity | now rewrite IH]. Qed.

Lemma append_assoc (a b c : string) : (a ++ b) ++ c = a ++ b ++ c.
Proof. induction a as [|x a IH]; simpl; [reflexivity | now rewrite IH]. Qed.

Lemma contains_refl (s : string) : contains s s.
Proof. exists "", "". simpl. now rewrite append_nil_r. Qed.

Lemma contains_append_l (s sub pre : string) :
  contains s sub -> contains (pre ++ s) sub.
Proof.
  intros (a & b & ->). exists (pre ++ a), b. now rewrite append_assoc.
Qed.

Lemma contains_append_r (s sub post : string) :
  contains s sub -> contains (s ++ post) sub.
Proof.
  intros (a & b & ->). exists a, (b ++ post). now rewrite !append_assoc.
Qed.

Lemma take_drop (n : nat) (s : string) : s = take n s ++ drop n s.
Proof.
  revert s. induction n as [|n IH]; intros s; [reflexivity|].
  destruct s as [|c s]; [reflexivity|]. cbn [take drop append]. now rewrite <- IH.
Qed.

Lemma endsWith_split (s suffix : string) :
  endsWith s suffix = true -> exists p, s = p ++ suffix.
Proof.
  unfold endsWith. intros H. apply String.eqb_eq in H.
  exists (take (String.length s - String.length suffix) s).
  rewrite <- H at 2. apply take_drop.
Qed.

Lemma prefix_split (p s : string) :
  String.prefix p s = true -> exists q, s = p ++ q.
Proof.
  revert s. induction p as [|a p IH]; intros s H.
  - exists s. reflexivity.
  - destruct s as [|b s]; [discriminate|]. cbn [String.prefix] in H.
    destruct (ascii_dec a b) as [<- | _]; [|discriminate].
    destruct (IH s H) as [q ->]. exists q. reflexivity.
Qed.

(** A variable text between two literals: the end of the literal before
    it and the start of the literal after it surround it. *)
Lemma contains_around (l x r rest before after : string) :
  endsWith l before = true -> String.prefix after r = true ->
  contains (l ++ x ++ r ++ rest) (before ++ x ++ after).
Proof.
  intros Hl Hr. destruct (endsWith_split l before Hl) as [p ->].
  destruct (prefix_split after r Hr) as [q ->].
  exists p, (q ++ rest). now rewrite !append_assoc.
Qed.

Lemma contains_around_end (l x r before after : string) :
  endsWith l before = true -> String.prefix after r = true ->
  contains (l ++ x ++ r) (before ++ x ++ after).
Proof.
  intros Hl Hr. rewrite <- (append_nil_r r).
  now apply contains_around.
Qed.

Lemma flat_app (l r : list string) : flat (l ++ r) = flat l ++ flat r.
Proof.
  induction l as [|x l IH]; [reflexivity|].
  change (x ++ flat (l ++ r) = (x ++ flat l) ++ flat r).
  now rewrite IH, append_assoc.
Qed.

(** ** [formatAnswers] *)

Example formatAnswers_sample :
  formatAnswers (VArr [answer (VStr "A") (VStr "b");
                       answer (VStr "") (VStr "c");
                       answer (VStr "D") (VArr [VStr "e"; VStr "f"])])
  = Return (greeting ++ answerLine "A" "b" ++ answerLine "D" "e, f" ++ signoff).
Proof. reflexivity. Qed.

Example numToString_samples :
  numToString (Int 0) = "0" /\ numToString (Int (-12)) = "-12"
  /\ numToString (Int 30) = "30"
  /\ numToString (Int 9007199254740993) = "9007199254740992"
  /\ numToString (Int 123456789012345678901) = "123456789012345680000"
  /\ numToString (Int (10 ^ 21)) = "1e+21"
  /\ numToString (Int (- 123456789012345678901234567890)) = "-1.2345678901234568e+29"
  /\ numToString (Int (2 ^ 1024)) = "Infinity".
Proof. repeat split; vm_compute; reflexivity. Qed.

Example toString_samples :
  toString (VObj [("a", VNull)]) = Return "[object Object]"
  /\ toString (VObj [("toString", VNum (Int 1))]) = Throw notPrimitive
  /\ toString (VArr [VNum (Int 1); VNull; VArr [VStr "a"; VStr "b"]]) = Return "1,,a,b"
  /\ toString (VArr [VStr "a"; VObj [("toString", VNull)]]) = Throw notPrimitive.
Proof. repeat split; reflexivity. Qed.

Lemma toString_array (items : list Val) :
  toString (VArr items) = join "," items.
Proof.
  unfold join. cbn [toString].
  match goal with
  | |- match ?f items with _ => _ end = _ =>
      assert (E : f items = elementTexts items)
  end.
  { induction items as [|x rest IH]; [reflexivity|].
    cbn [elementTexts]. rewrite <- IH. destruct x; reflexivity. }
  now rewrite E.
Qed.

(** A falsy value converts: only an object or an array can throw. *)
Lemma toString_falsy (v : Val) :
  truthy v = false -> exists t, toString v = Return t.
Proof.
  destruct v as [| |b|n|s|items|fields]; simpl; try discriminate; eauto.
  destruct b; eauto.
Qed.

Lemma getProp_destructurable (a : Val) (k : string) :
  destructurable a = true -> getProp a k = Return (prop a k).
Proof.
  destruct a; simpl; try discriminate; try reflexivity.
  intros _. now destruct (lookup k fields).
Qed.

(** The two steps of the loop body make the line from the two texts. *)
Lemma renderLine_texts (label value : Val) (l v : string) :
  toString label = Return l ->
  valueText value = Return v ->
  exists val,
    joined value = Return val /\ renderLine label val = Return (answerLine l v).
Proof.
  intros Hl Hv.
  destruct value; cbn [joined valueText] in *;
    try (eexists; split; [reflexivity|];
         unfold renderLine; rewrite Hl, Hv; reflexivity).
  rewrite Hv. eexists. split; [reflexivity|].
  unfold renderLine. rewrite Hl. reflexivity.
Qed.

(** An entry the loop can destructure and that does not survive leaves
    the message as it is. *)
Lemma formatLoop_skip (pre post : list Val) (a : Val) :
  destructurable a = true -> survives a = false ->
  forall message,
    formatLoop (pre ++ a :: post) message = formatLoop (pre ++ post) message.
Proof.
  intros Ha Hs. induction pre as [|x pre IH]; intros message.
  - cbn [app formatLoop]. rewrite !(getProp_destructurable a) by exact Ha.
    unfold survives in Hs.
    destruct (truthy (prop a "label")); cbn [negb orb andb] in *;
      [rewrite Hs|]; reflexivity.
  - cbn [app formatLoop].
    destruct (getProp x "label"); [|reflexivity].
    destruct (getProp x "value"); [|reflexivity].
    destruct (negb (truthy a0) || negb (truthy a1)); [apply IH|].
    destruct (joined a1); [|reflexivity].
    destruct (renderLine a0 a2); [apply IH | reflexivity].
Qed.

(** The loop appends to the message the lines of the surviving entries. *)
Lemma formatLoop_lines (answers : list Val) :
  Forall (fun a => destructurable a = true) answers ->
  forall texts,
    textsOf (filter survives answers) texts ->
    forall message, formatLoop answers message = Return (message ++ lines texts).
Proof.
  induction 1 as [|a rest Ha _ IH]; intros texts Ht message.
  - inversion Ht; subst. simpl. now rewrite append_nil_r.
  - cbn [formatLoop]. rewrite !(getProp_destructurable a) by exact Ha.
    cbn [filter] in Ht. unfold survives in Ht at 1.
    destruct (truthy (prop a "label")); cbn [negb orb andb] in *.
    + destruct (truthy (prop a "value")); cbn [negb orb andb] in *.
      * inversion Ht as [|? t ? texts' [Hl Hv] Hrest]; subst.
        destruct (renderLine_texts _ _ _ _ Hl Hv) as (val & -> & ->).
        rewrite (IH texts' Hrest). unfold lines. cbn [map flat fold_right].
        now rewrite append_assoc.
      * apply (IH texts Ht).
    + apply (IH texts Ht).
Qed.

Lemma formatAnswers_lines (answers : list Val) (texts : list (string * string)) :
  Forall (fun a => destructurable a = true) answers ->
  textsOf (filter survives answers) texts ->
  formatAnswers (VArr answers) = Return (greeting ++ lines texts ++ signoff).
Proof.
  intros H Ht. unfold formatAnswers, iterate.
  rewrite (formatLoop_lines answers H texts Ht). now rewrite append_assoc.
Qed.

(** The message built so far is a prefix the loop never looks at. *)
Lemma formatLoop_prefix (answers : list Val) (message : string) :
  formatLoop answers message
  = match formatLoop answers "" with
    | Return body => Return (message ++ body)
    | Throw e => Throw e
    end.
Proof.
  revert message.
  assert (G : forall acc message,
             formatLoop answers (message ++ acc)
             = match formatLoop answers acc with
               | Return body => Return (message ++ body)
               | Throw e => Throw e
               end).
  { induction answers as [|a rest IH]; intros acc message; [reflexivity|].
    cbn [formatLoop].
    destruct (getProp a "label"); [|reflexivity].
    destruct (getProp a "value"); [|reflexivity].
    destruct (negb (truthy a0) || negb (truthy a1)); [apply IH|].
    destruct (joined a1); [|reflexivity].
    destruct (renderLine a0 a2); [|reflexivity].
    rewrite append_assoc. apply IH. }
  intros message. rewrite <- (G "" message). now rewrite append_nil_r.
Qed.

Lemma formatLoop_app (pre post : list Val) (message : string) :
  formatLoop (pre ++ post) message
  = match formatLoop pre message with
    | Return m => formatLoop post m
    | Throw e => Throw e
    end.
Proof.
  revert message. induction pre as [|a pre IH]; intros message; [reflexivity|].
  cbn [app formatLoop].
  destruct (getProp a "label"); [|reflexivity].
  destruct (getProp a "value"); [|reflexivity].
  destruct (negb (truthy a0) || negb (truthy a1)); [apply IH|].
  destruct (joined a1); [|reflexivity].
  destruct (renderLine a0 a2); [apply IH | reflexivity].
Qed.

(** A surviving entry whose label or value has no text makes
    [formatAnswers] throw, whatever the entries around it. *)
Lemma formatAnswers_unconvertible (pre post : list Val) (a : Val) :
  destructurable a = true -> survives a = true ->
  (exists e, toString (prop a "label") = Throw e)
  \/ (exists e, valueText (prop a "value") = Throw e) ->
  exists e, formatAnswers (VArr (pre ++ a :: post)) = Throw e.
Proof.
  intros Ha Hs Hno. unfold formatAnswers, iterate. rewrite formatLoop_app.
  destruct (formatLoop pre greeting) as [m | e]; [|eauto].
  cbn [formatLoop]. rewrite !(getProp_destructurable a) by exact Ha.
  unfold survives in Hs. apply andb_prop in Hs. destruct Hs as [Hl Hv].
  rewrite Hl, Hv. cbn [negb orb]. unfold renderLine.
  destruct Hno as [[e He] | [e He]].
  - destruct (joined (prop a "value")); [|eauto]. rewrite He. eauto.
  - destruct (prop a "value") as [| |b|n|s|items|fields];
      cbn [joined valueText] in *;
      rewrite He; try destruct (toString (prop a "label")); eauto.
Qed.

Lemma missing_not_survives (a : Val) :
  missing a "label" \/ missing a "value" -> survives a = false.
Proof.
  unfold survives, missing, prop.
  destruct a; try reflexivity.
  intros [H | H]; rewrite H; simpl; [reflexivity | apply andb_false_r].
Qed.

Lemma survives_answer (label value : Val) :
  survives (answer label value) = truthy label && truthy value.
Proof. reflexivity. Qed.

(** C4.  For every sequence of label/value entries, where [texts] are
    the texts of the labels and of the values of the surviving entries,
    [formatAnswers] returns the greeting, then one list line per
    surviving entry in order, which carries the text of its label in
    bold and the text of its value in italics, then the sign-off; an
    entry whose label or value is missing does not survive; the text of
    a value that is an array is its elements joined with a comma and a
    space, and the text of a string is the string.  For the sample of
    the specification the message is the greeting, the line of A and b,
    the line of D and e, f, and the sign-off: exactly two lines, and
    none whose value is c. *)
Theorem formatAnswers_pairs :
  forall (answers : list Val) (texts : list (string * string)),
    Forall (fun a => destructurable a = true) answers ->
    textsOf (filter survives answers) texts ->
    formatAnswers (VArr answers)
      = Return (greeting
                ++ flat (map (fun t =>
                                "<li> <span style=" ++ dq ++ "font-weight: bold" ++ dq
                                ++ "> " ++ fst t ++ " </span>  :  <i> " ++ snd t
                                ++ " </i> </li>  <br />") texts)
                ++ signoff)
    /\ (forall a, missing a "label" \/ missing a "value" -> survives a = false)
    /\ (forall items ts,
          elementTexts items = Return ts ->
          valueText (VArr items) = Return (joinStrings ", " ts))
    /\ (forall s, valueText (VStr s) = Return s)
    /\ (exists out,
          formatAnswers (VArr sampleAnswers) = Return out
          /\ out = "📋 Bonjour SCB Cameroun, J'ai rempli les questionnaires du simulateur et voici *Mes réponses au questionnaire* : <br /> <ul>"
                   ++ "<li> <span style=" ++ dq ++ "font-weight: bold" ++ dq
                   ++ "> A </span>  :  <i> b </i> </li>  <br />"
                   ++ "<li> <span style=" ++ dq ++ "font-weight: bold" ++ dq
                   ++ "> D </span>  :  <i> e, f </i> </li>  <br />"
                   ++ "<br /> </ul> J'aimerais en savoir plus s'il vous plait"
          /\ occurrences "<li>" out = 2
          /\ occurrences "<i> c </i>" out = 0).
Proof.
  intros answers texts H Ht. split; [|split; [|split; [|split]]].
  - exact (formatAnswers_lines answers texts H Ht).
  - exact missing_not_survives.
  - intros items ts E. unfold valueText, join. now rewrite E.
  - reflexivity.
  - eexists. split; [reflexivity|]. split; [reflexivity|].
    split; vm_compute; reflexivity.
Qed.

Lemma formatAnswers_pairs_witness :
  formatAnswers (VArr sampleAnswers)
  = Return (greeting
            ++ flat (map (fun t =>
                            "<li> <span style=" ++ dq ++ "font-weight: bold" ++ dq
                            ++ "> " ++ fst t ++ " </span>  :  <i> " ++ snd t
                            ++ " </i> </li>  <br />") [("A", "b"); ("D", "e, f")])
            ++ signoff).
Proof.
  apply (formatAnswers_pairs sampleAnswers [("A", "b"); ("D", "e, f")]).
  - repeat constructor.
  - repeat constructor.
Defined.

(** C9.  An entry is dropped whenever its label or its value is falsy:
    the outcome is the one of the sequence without it.  The values 0,
    false and the empty string are falsy, so an entry that carries one
    of them is dropped although the value is present.  An entry with a
    truthy label whose value is the empty array is kept: where [before]
    and [after] are the lines of the entries around it and [text] is
    the text of its label, the message has, between them, a line with
    that label and nothing as value, which the message of the sequence
    without the entry does not have. *)
Theorem formatAnswers_falsy :
  forall (pre post : list Val) (label : Val) (text before after : string),
    (forall a,
        destructurable a = true ->
        truthy (prop a "label") = false \/ truthy (prop a "value") = false ->
        formatAnswers (VArr (pre ++ a :: post)) = formatAnswers (VArr (pre ++ post)))
    /\ (forall value,
          In value [VNum (Int 0); VBool false; VStr ""] ->
          formatAnswers (VArr (pre ++ answer label value :: post))
          = formatAnswers (VArr (pre ++ post)))
    /\ (truthy label = true ->
        toString label = Return text ->
        formatLoop pre "" = Return before ->
        formatLoop post "" = Return after ->
        formatAnswers (VArr (pre ++ answer label (VArr []) :: post))
        = Return (greeting ++ before
                  ++ "<li> <span style=" ++ dq ++ "font-weight: bold" ++ dq
                  ++ "> " ++ text ++ " </span>  :  <i>  </i> </li>  <br />"
                  ++ after ++ signoff)
        /\ formatAnswers (VArr (pre ++ post))
           = Return (greeting ++ before ++ after ++ signoff)).
Proof.
  intros pre post label text before after.
  assert (Hdrop : forall a,
             destructurable a = true -> survives a = false ->
             formatAnswers (VArr (pre ++ a :: post))
             = formatAnswers (VArr (pre ++ post))).
  { intros a Ha Hs. unfold formatAnswers, iterate.
    now rewrite (formatLoop_skip pre post a Ha Hs). }
  split; [|split].
  - intros a Ha [Hl | Hv]; apply (Hdrop a Ha); unfold survives.
    + now rewrite Hl.
    + rewrite Hv. apply andb_false_r.
  - intros value Hin. apply Hdrop; [reflexivity|].
    rewrite survives_answer.
    destruct Hin as [<- | [<- | [<- | []]]]; apply andb_false_r.
  - intros Hl Ht Hpre Hpost. unfold formatAnswers, iterate.
    rewrite !formatLoop_app.
    rewrite (formatLoop_prefix pre greeting), Hpre.
    cbn [formatLoop answer getProp lookup String.eqb Ascii.eqb Bool.eqb].
    rewrite Hl. cbn [truthy negb orb joined join elementTexts joinStrings].
    unfold renderLine. rewrite Ht. cbn [toString].
    rewrite (formatLoop_prefix post (greeting ++ before)).
    rewrite (formatLoop_prefix post ((greeting ++ before) ++ _)).
    rewrite Hpost. unfold answerLine.
    split; f_equal; rewrite !append_assoc; reflexivity.
Qed.

Lemma formatAnswers_falsy_witness :
  formatAnswers
    (VArr ([answer (VStr "A") (VStr "b")]
           ++ answer (VStr "Z") (VArr []) :: [answer (VStr "D") (VStr "e")]))
  = Return (greeting ++ answerLine "A" "b"
            ++ "<li> <span style=" ++ dq ++ "font-weight: bold" ++ dq
            ++ "> " ++ "Z" ++ " </span>  :  <i>  </i> </li>  <br />"
            ++ answerLine "D" "e" ++ signoff)
  /\ formatAnswers
       (VArr ([answer (VStr "A") (VStr "b")]
              ++ answer (VStr "Z") (VNum (Int 0)) :: [answer (VStr "D") (VStr "e")]))
     = formatAnswers
         (VArr ([answer (VStr "A") (VStr "b")] ++ [answer (VStr "D") (VStr "e")])).
Proof.
  destruct (formatAnswers_falsy [answer (VStr "A") (VStr "b")]
              [answer (VStr "D") (VStr "e")] (VStr "Z") "Z"
              (answerLine "A" "b") (answerLine "D" "e")) as (_ & Hdrop & Hkeep).
  split.
  - exact (proj1 (Hkeep eq_refl eq_refl eq_refl eq_refl)).
  - apply Hdrop. simpl. left. reflexivity.
Defined.

(** When the notification text of a create request can be formatted:
    always when [answers] is absent or falsy; for an array, when the
    loop can destructure every entry and make the texts of those that
    survive. *)
Lemma answersMessage_absent (fields : list (string * Val)) :
  truthy (prop (VObj fields) "answers") = false ->
  answersMessage (VObj fields) = Return (greeting ++ signoff).
Proof.
  intros H. unfold answersMessage.
  rewrite getProp_destructurable by reflexivity.
  unfold or_else. rewrite H. reflexivity.
Qed.

Lemma answersMessage_array (fields : list (string * Val)) (items : list Val)
    (texts : list (string * string)) :
  lookup "answers" fields = Some (VArr items) ->
  Forall (fun a => destructurable a = true) items ->
  textsOf (filter survives items) texts ->
  answersMessage (VObj fields) = Return (greeting ++ lines texts ++ signoff).
Proof.
  intros Hl Hitems Ht. unfold answersMessage, getProp. rewrite Hl.
  unfold or_else. cbn [truthy]. exact (formatAnswers_lines items texts Hitems Ht).
Qed.

Lemma formatLoop_null_entry (pre post : list Val) (message : string) :
  Forall (fun a => destructurable a = true) pre ->
  exists e, formatLoop (pre ++ VNull :: post) message = Throw e.
Proof.
  intros Hpre. revert message.
  induction Hpre as [|a pre Ha _ IH]; intros message.
  - eexists. reflexivity.
  - cbn [app formatLoop]. rewrite !(getProp_destructurable a) by exact Ha.
    destruct (negb (truthy (prop a "label")) || negb (truthy (prop a "value")));
      [apply IH|].
    destruct (joined (prop a "value")); [|eauto].
    destruct (renderLine (prop a "label") a0); [apply IH | eauto].
Qed.

Lemma answersMessage_null_entry (fields : list (string * Val)) (pre post : list Val) :
  lookup "answers" fields = Some (VArr (pre ++ VNull :: post)) ->
  Forall (fun a => destructurable a = true) pre ->
  exists e, answersMessage (VObj fields) = Throw e.
Proof.
  intros Hl Hpre. unfold answersMessage, getProp. rewrite Hl.
  unfold or_else, formatAnswers, iterate. cbn [truthy].
  destruct (formatLoop_null_entry pre post greeting Hpre) as [e He].
  exists e. now rewrite He.
Qed.

(** ** [EmailService] *)

Section EmailProperties.
Context {P : Platform}.

(** C3.  When the service is not configured, [sendEmail] returns, for
    every recipient, type and data bag, the failure result whose error
    is the not-configured message; it does not throw and hands nothing
    to the transport. *)
Theorem sendEmail_not_configured :
  forall (w : World) (to : Val) (type : string) (data : Val),
    isConfigured w = false ->
    EmailService.sendEmail to type data w
    = (Return (EmailService.mkResult false None None
                 (Some "Email service not configured")), w).
Proof.
  intros w to type data H.
  unfold EmailService.sendEmail, bind, gets. rewrite H. reflexivity.
Qed.

Lemma buildTemplates_throws (data : Val) (w : World) :
  lacksStringMessage data ->
  exists e, EmailService.buildTemplates data w = (Throw e, w).
Proof.
  intros H. unfold EmailService.buildTemplates, bind, lift, gets.
  destruct (destructurable data) eqn:Hd.
  - rewrite !(getProp_destructurable data) by exact Hd.
    assert (Hm : forall s, prop data "message" <> VStr s).
    { intros s E. apply (H s).
      rewrite (getProp_destructurable data) by exact Hd. now rewrite E. }
    destruct (toString (prop data "name")); [|eauto].
    destruct (toString (prop data "email")); [|eauto].
    destruct (toString (prop data "age")); [|eauto].
    destruct (toString (or_else (prop data "subject") (VStr "Update"))); [|eauto].
    destruct (toString (prop data "message")); [|eauto].
    destruct (prop data "message") as [| | | |s| |] eqn:E; simpl; eauto.
    exfalso. now apply (Hm s).
  - destruct data; try discriminate; simpl; eauto.
Qed.

(** C10.  When the service is configured and the data bag has no string
    under [message], [sendEmail] returns a failure result that carries
    an error string, for type custom and for every other type; it does
    not throw, and the world, hence the outbox, is as before: no message
    was handed to the transport. *)
Theorem sendEmail_without_message :
  forall (w : World) (to : Val) (type : string) (data : Val),
    isConfigured w = true ->
    lacksStringMessage data ->
    exists e,
      EmailService.sendEmail to type data w
      = (Return (EmailService.mkResult false None None (Some e)), w).
Proof.
  intros w to type data Hc Hm.
  destruct (buildTemplates_throws data w Hm) as [e He].
  exists e.
  unfold EmailService.sendEmail, EmailService.generateEmailTemplate.
  unfold bind at 1. unfold gets at 1. rewrite Hc. cbn [negb].
  unfold try_catch, bind. rewrite He. reflexivity.
Qed.

(** Replacing newlines leaves none, distributes over concatenation,
    turns a newline into a line break and keeps newline-free text. *)
Lemma replaceNewlines_no_newline (s : string) :
  hasNewline (EmailService.replaceNewlines s) = false.
Proof.
  induction s as [|c s IH]; [reflexivity|].
  cbn [EmailService.replaceNewlines].
  destruct (Ascii.eqb c newline) eqn:E.
  - exact IH.
  - unfold hasNewline in *. cbn [list_ascii_of_string existsb].
    rewrite IH. rewrite Ascii.eqb_sym, E. reflexivity.
Qed.

Lemma replaceNewlines_app (a b : string) :
  EmailService.replaceNewlines (a ++ b)
  = EmailService.replaceNewlines a ++ EmailService.replaceNewlines b.
Proof.
  induction a as [|c a IH]; [reflexivity|].
  cbn [append EmailService.replaceNewlines].
  destruct (Ascii.eqb c newline); rewrite IH; reflexivity.
Qed.

Lemma replaceNewlines_id (s : string) :
  hasNewline s = false -> EmailService.replaceNewlines s = s.
Proof.
  unfold hasNewline.
  induction s as [|c s IH]; [reflexivity|].
  cbn [list_ascii_of_string existsb EmailService.replaceNewlines].
  intros H. apply orb_false_elim in H. destruct H as [Hc Hs].
  rewrite Ascii.eqb_sym, Hc. now rewrite (IH Hs).
Qed.

(** The custom template, for type custom and for every type that is
    neither one of the other two own keys of [templates] nor a member of
    [Object.prototype]: the HTML body is the message with its newlines
    replaced between the fixed opening and closing, the text body is the
    message itself followed by the fixed closing. *)
Lemma generateEmailTemplate_custom :
  forall (w : World) (type : string) (data : Val) (msg name email age subj : string),
    getProp data "message" = Return (VStr msg) ->
    bagTexts data name email age subj ->
    type <> "welcome" -> type <> "notification" ->
    EmailService.isPrototypeKey type = false ->
    exists t,
      EmailService.generateEmailTemplate type data w
      = (Return (EmailService.OwnTemplate t), w)
      /\ EmailService.html t
         = EmailService.customHtmlOpen ++ EmailService.replaceNewlines msg
           ++ EmailService.customHtmlClose (toLocaleString (now w))
      /\ EmailService.text t
         = msg ++ EmailService.customTextClose (toLocaleString (now w))
      /\ hasNewline (EmailService.replaceNewlines msg) = false.
Proof.
  intros w type data msg name email age subj Hm (Tn & Te & Ta & Ts) Hw Hn Hp.
  assert (Hd : destructurable data = true).
  { destruct data; try reflexivity; discriminate. }
  assert (Hmsg : prop data "message" = VStr msg).
  { rewrite (getProp_destructurable data) in Hm by exact Hd. now inversion Hm. }
  unfold EmailService.generateEmailTemplate, EmailService.buildTemplates.
  unfold bind, lift, gets, ret.
  rewrite !(getProp_destructurable data) by exact Hd.
  rewrite Tn, Te, Ta, Ts, Hmsg. cbn [toString EmailService.messageReplace].
  unfold EmailService.selectTemplate.
  apply String.eqb_neq in Hw. apply String.eqb_neq in Hn.
  rewrite Hw, Hn, Hp.
  eexists. split.
  - destruct (String.eqb type "custom"); reflexivity.
  - cbn [EmailService.html EmailService.text toString].
    unfold EmailService.customHtml, EmailService.customText.
    repeat split. apply replaceNewlines_no_newline.
Qed.

End EmailProperties.

(** ** The handlers: what every response looks like *)

Section HandlerEnvelope.
Context {P : Platform}.

Lemma always_ret {A : Type} (Q : A -> Prop) (a : A) : Q a -> always Q (ret a).
Proof. intros H w. exact H. Qed.

Lemma always_bind {A B : Type} (Q : B -> Prop) (c : M A) (k : A -> M B) :
  (forall a, always Q (k a)) -> always Q (bind c k).
Proof.
  intros H w. unfold bind. destruct (c w) as [[a | e] w'].
  - apply H.
  - exact I.
Qed.

(** A guarded handler always answers: with what its body returned, or
    with the envelope of its [catch]. *)
Lemma guarded (Q : Routes.Response -> Prop) (c : M Routes.Response)
      (fallback : Routes.Response) :
  always Q c -> Q fallback ->
  forall w, exists r,
    fst (try_catch c (fun _ => ret fallback) w) = Return r /\ Q r.
Proof.
  intros Hc Hf w. unfold try_catch. specialize (Hc w).
  destruct (c w) as [[r | e] w']; simpl in *.
  - exists r. split; [reflexivity | exact Hc].
  - exists fallback. split; [reflexivity | exact Hf].
Qed.

Lemma envelopeOk_failure (req : Routes.Request) (code : nat) (msg : string) :
  envelopeOk req (Routes.failure code msg).
Proof.
  unfold envelopeOk. simpl. repeat split; intros; discriminate.
Qed.

Lemma envelopeOk_read (req : Routes.Request) (p : Routes.Payload) :
  stateChanging req = false ->
  envelopeOk req (Routes.mkResponse 200 (Routes.mkApi true (Some p) None)).
Proof.
  intros Hreq. unfold envelopeOk. simpl. repeat split.
  - discriminate.
  - intros [H | H]; [discriminate | lia].
  - rewrite Hreq. discriminate.
Qed.

Lemma envelopeOk_message (req : Routes.Request) (code : nat)
      (p : option Routes.Payload) (msg : string) :
  envelopeOk req (Routes.mkResponse code (Routes.mkApi true p (Some msg))).
Proof.
  unfold envelopeOk. simpl. repeat split; intros; discriminate.
Qed.

(** C7.  Every handler answers every request, in every world, with an
    envelope that has no payload when it says failure, has a message
    when it is an error, and has a message when it is the success of a
    create, update or delete. *)
Theorem handlers_envelope :
  forall (req : Routes.Request) (w : World),
  exists r, fst (Routes.handle req w) = Return r /\ envelopeOk req r.
Proof.
  intros req w. destruct req as [| id | reqBody | id reqBody | id |];
    cbn [Routes.handle];
    apply guarded; try apply envelopeOk_failure;
    repeat (apply always_bind; intros).
  all: try match goal with
           | |- always _ (match ?found with _ => _ end) => destruct found
           end.
  all: apply always_ret.
  all: first [ apply envelopeOk_failure
             | apply envelopeOk_message
             | apply envelopeOk_read; reflexivity ].
Qed.

End HandlerEnvelope.

(** ** The create handler and the notification *)

Section CreateAndMail.
Context {P : Platform}.

Lemma sameStore_refl (w : World) : sameStore w w.
Proof. unfold sameStore. repeat split. Qed.

Lemma sameStore_trans (a b c : World) :
  sameStore a b -> sameStore b c -> sameStore a c.
Proof.
  unfold sameStore. intros (H1 & H2 & H3 & H4 & H5) (K1 & K2 & K3 & K4 & K5).
  repeat split; congruence.
Qed.

Lemma sameStore_sym (a b : World) : sameStore a b -> sameStore b a.
Proof.
  unfold sameStore. intros (H1 & H2 & H3 & H4 & H5). repeat split; congruence.
Qed.

End CreateAndMail.

Section Preserves.
Context {P : Platform}.
Variable R : World -> World -> Prop.
Hypothesis R_refl : forall w, R w w.
Hypothesis R_trans : forall a b c, R a b -> R b c -> R a c.

Lemma preserves_ret {A : Type} (a : A) : preserves R (ret a).
Proof. intros w. apply R_refl. Qed.

Lemma preserves_throw {A : Type} (e : Exn) : preserves R (@throw _ A e).
Proof. intros w. apply R_refl. Qed.

Lemma preserves_lift {A : Type} (o : Outcome A) : preserves R (lift o).
Proof. intros w. apply R_refl. Qed.

Lemma preserves_gets {A : Type} (f : World -> A) : preserves R (gets f).
Proof. intros w. apply R_refl. Qed.

Lemma preserves_bind {A B : Type} (c : M A) (k : A -> M B) :
  preserves R c -> (forall a, preserves R (k a)) -> preserves R (bind c k).
Proof.
  intros Hc Hk w. unfold bind. specialize (Hc w).
  destruct (c w) as [[a | e] w']; simpl in *.
  - apply (R_trans w w'); [exact Hc | apply Hk].
  - exact Hc.
Qed.

(** After a pure step only what it returned matters. *)
Lemma preserves_bind_lift {A B : Type} (o : Outcome A) (k : A -> M B) :
  (forall a, o = Return a -> preserves R (k a)) -> preserves R (bind (lift o) k).
Proof.
  intros H w. unfold bind, lift. destruct o as [a | e].
  - apply (H a eq_refl).
  - apply R_refl.
Qed.

Lemma preserves_try_catch {A : Type} (c : M A) (h : Exn -> M A) :
  preserves R c -> (forall e, preserves R (h e)) -> preserves R (try_catch c h).
Proof.
  intros Hc Hh w. unfold try_catch. specialize (Hc w).
  destruct (c w) as [[a | e] w']; simpl in *.
  - exact Hc.
  - apply (R_trans w w'); [exact Hc | apply Hh].
Qed.

End Preserves.

Lemma preserves_weaken {P : Platform} (R R' : World -> World -> Prop)
      {A : Type} (c : M A) :
  (forall w w', R w w' -> R' w w') -> preserves R c -> preserves R' c.
Proof. intros H Hc w. apply H, Hc. Qed.

Section MailKeepsStore.
Context {P : Platform}.

Lemma keepsStore_ret {A : Type} (a : A) : keepsStore (ret a).
Proof. apply preserves_ret, sameStore_refl. Qed.

Lemma keepsStore_lift {A : Type} (o : Outcome A) : keepsStore (lift o).
Proof. apply preserves_lift, sameStore_refl. Qed.

Lemma keepsStore_gets {A : Type} (f : World -> A) : keepsStore (gets f).
Proof. apply preserves_gets, sameStore_refl. Qed.

Lemma keepsStore_bind {A B : Type} (c : M A) (k : A -> M B) :
  keepsStore c -> (forall a, keepsStore (k a)) -> keepsStore (bind c k).
Proof. apply preserves_bind, sameStore_trans. Qed.

Lemma keepsStore_try_catch {A : Type} (c : M A) (h : Exn -> M A) :
  keepsStore c -> (forall e, keepsStore (h e)) -> keepsStore (try_catch c h).
Proof. apply preserves_try_catch, sameStore_trans. Qed.

Lemma keepsStore_sendMail (m : Mail.MailOptions) :
  keepsStore (EmailService.sendMail m).
Proof.
  intros w. unfold EmailService.sendMail.
  destruct (transport w m); simpl; unfold sameStore; simpl; repeat split.
Qed.

Lemma keepsStore_sendEmail (to : Val) (type : string) (data : Val) :
  keepsStore (EmailService.sendEmail to type data).
Proof.
  unfold EmailService.sendEmail.
  apply keepsStore_bind; [apply keepsStore_gets|]. intros configured.
  destruct (negb configured); [apply keepsStore_ret|].
  apply keepsStore_try_catch; [|intros e; apply keepsStore_ret].
  unfold EmailService.generateEmailTemplate, EmailService.buildTemplates.
  repeat (apply keepsStore_bind;
          [first [apply keepsStore_gets | apply keepsStore_lift
                 | apply keepsStore_sendMail | idtac] | intros ?]);
    try apply keepsStore_ret.
Qed.

(** [sendEmail] never throws: whatever fails inside is turned into a
    failure result. *)
Lemma returns_sendEmail (to : Val) (type : string) (data : Val) :
  returns (EmailService.sendEmail to type data).
Proof.
  intros w. unfold EmailService.sendEmail, bind at 1. unfold gets at 1.
  destruct (negb (isConfigured w)).
  - eexists. reflexivity.
  - unfold try_catch.
    match goal with |- context [match ?c w with _ => _ end] =>
      destruct (c w) as [[r | e] w'] end; eexists; reflexivity.
Qed.

(** The world after the notification step of the create handler. *)
Lemma create_unfold (reqBody : Val) (w : World) :
  Routes.create reqBody w =
  match insertStep (Routes.newData reqBody (now w)) w with
  | (Throw _, w1) => (Return (Routes.failure 500 "Failed to create data"), w1)
  | (Return insertedId, w1) =>
      match answersMessage reqBody with
      | Throw _ => (Return (Routes.failure 500 "Failed to create data"), w1)
      | Return formatted =>
          (match Routes.bsonToString insertedId with
           | Return id => Return (created id)
           | Throw _ => Return (Routes.failure 500 "Failed to create data")
           end,
           if isConfigured w1
           then snd (EmailService.sendEmail
                       (EmailService.envVal (env w1) "RECIPIENT_EMAIL")
                       "custom" (mailContent formatted) w1)
           else w1)
      end
  end.
Proof.
  assert (E : insertStep (Routes.newData reqBody (now w)) w
              = match MongoService.getCollection w with
                | (Return _, w0) =>
                    MongoService.insertOne (Routes.newData reqBody (now w)) w0
                | (Throw e, w0) => (Throw e, w0)
                end) by reflexivity.
  rewrite E. clear E.
  unfold Routes.create, try_catch, EmailService.isReady, answersMessage.
  fold mailContent.
  unfold bind, gets, lift, ret.
  destruct (MongoService.getCollection w) as [[[] | e] w0]; [|reflexivity].
  destruct (MongoService.insertOne (Routes.newData reqBody (now w)) w0)
    as [[insertedId | e] w1]; [|reflexivity].
  destruct (getProp reqBody "answers") as [answers | e]; [|reflexivity].
  destruct (formatAnswers (or_else answers (VArr []))) as [formatted | e];
    [|reflexivity].
  fold (mailContent formatted).
  destruct (isConfigured w1).
  - destruct (returns_sendEmail (EmailService.envVal (env w1) "RECIPIENT_EMAIL")
                "custom" (mailContent formatted) w1) as [r Hr].
    destruct (EmailService.sendEmail _ _ _ w1) as [o w2]. simpl in Hr. subst o.
    cbn [snd]. destruct (Routes.bsonToString insertedId); reflexivity.
  - destruct (Routes.bsonToString insertedId); reflexivity.
Qed.

End MailKeepsStore.

(** ** What the store operations depend on *)

Section StoreDetermined.
Context {P : Platform}.

Lemma storeDetermined_ret {A : Type} (a : A) : storeDetermined (ret a).
Proof. intros w w' H. split; [reflexivity | exact H]. Qed.

Lemma storeDetermined_throw {A : Type} (e : Exn) : storeDetermined (@throw _ A e).
Proof. intros w w' H. split; [reflexivity | exact H]. Qed.

Lemma storeDetermined_bind {A B : Type} (c : M A) (k : A -> M B) :
  storeDetermined c -> (forall a, storeDetermined (k a)) ->
  storeDetermined (bind c k).
Proof.
  intros Hc Hk w w' H. unfold bind. destruct (Hc w w' H) as [E S].
  destruct (c w) as [[a | e] w1], (c w') as [[a' | e'] w1'];
    simpl in *; try discriminate.
  - inversion E; subst. apply Hk, S.
  - inversion E; subst. split; [reflexivity | exact S].
Qed.

Lemma storeDetermined_docs : storeDetermined (gets docs).
Proof.
  intros w w' H. split; [|exact H]. unfold gets. simpl.
  destruct H as (_ & _ & -> & _). reflexivity.
Qed.

Lemma storeDetermined_pkCount : storeDetermined (gets pkCount).
Proof.
  intros w w' H. split; [|exact H]. unfold gets. simpl.
  destruct H as (_ & _ & _ & -> & _). reflexivity.
Qed.

Lemma storeDetermined_with_docs (ds : list Doc) :
  storeDetermined (modify (with_docs ds)).
Proof.
  intros w w' (H1 & H2 & H3 & H4 & H5). split; [reflexivity|].
  unfold sameStore. simpl. repeat split; assumption.
Qed.

Lemma storeDetermined_with_pkCount (n : N) :
  storeDetermined (modify (with_pkCount n)).
Proof.
  intros w w' (H1 & H2 & H3 & H4 & H5). split; [reflexivity|].
  unfold sameStore. simpl. repeat split; assumption.
Qed.

Lemma storeDetermined_getCollection : storeDetermined MongoService.getCollection.
Proof.
  intros w w' H. unfold MongoService.getCollection.
  pose proof H as (H1 & _). rewrite <- H1.
  destruct (connected w); (split; [reflexivity | exact H]).
Qed.

Lemma storeDetermined_roundTrip : storeDetermined MongoService.roundTrip.
Proof.
  intros w w' H. unfold MongoService.roundTrip.
  pose proof H as (_ & H2 & _). rewrite <- H2.
  destruct (online w); (split; [reflexivity | exact H]).
Qed.

Lemma storeDetermined_insertPrepared (id : Bson) (doc : Doc) :
  storeDetermined (MongoService.insertPrepared id doc).
Proof.
  unfold MongoService.insertPrepared.
  apply storeDetermined_bind; [apply storeDetermined_roundTrip|]. intros _.
  apply storeDetermined_bind; [apply storeDetermined_docs|]. intros ds.
  assert (Hgo : storeDetermined
                  (if existsb (MongoService.hasId id) ds
                   then throw "E11000 duplicate key error"
                   else bind (modify (with_docs (ds ++ [doc]))) (fun _ => ret id))).
  { destruct (existsb (MongoService.hasId id) ds).
    - apply storeDetermined_throw.
    - apply storeDetermined_bind; [apply storeDetermined_with_docs|].
      intros _. apply storeDetermined_ret. }
  destruct id as [[] | |]; try exact Hgo. apply storeDetermined_throw.
Qed.

Lemma storeDetermined_assignPk (doc : Doc) :
  storeDetermined (MongoService.assignPk doc).
Proof.
  unfold MongoService.assignPk.
  destruct (lookup "_id" doc) as [[[] | |]|];
    try apply storeDetermined_ret;
    (apply storeDetermined_bind; [apply storeDetermined_pkCount|]; intros k;
     apply storeDetermined_bind; [apply storeDetermined_with_pkCount|]; intros _;
     apply storeDetermined_ret).
Qed.

Lemma storeDetermined_insertOne (doc : Doc) :
  storeDetermined (MongoService.insertOne doc).
Proof.
  unfold MongoService.insertOne.
  apply storeDetermined_bind; [apply storeDetermined_assignPk|].
  intros p. apply storeDetermined_insertPrepared.
Qed.

Lemma storeDetermined_insertStep (doc : Doc) : storeDetermined (insertStep doc).
Proof.
  unfold insertStep. apply storeDetermined_bind.
  - apply storeDetermined_getCollection.
  - intros _. apply storeDetermined_insertOne.
Qed.

(** The answer of the create handler is the same in two worlds that
    differ only on the mail side. *)
Lemma create_mail_independent (reqBody : Val) (w w' : World) :
  sameStore w w' ->
  fst (Routes.create reqBody w) = fst (Routes.create reqBody w').
Proof.
  intros H. rewrite !create_unfold.
  assert (Hn : now w = now w') by (destruct H as (_ & _ & _ & _ & Hn); exact Hn).
  rewrite <- Hn.
  destruct (storeDetermined_insertStep (Routes.newData reqBody (now w)) w w' H)
    as [E _].
  destruct (insertStep (Routes.newData reqBody (now w)) w) as [[id | e] w1],
           (insertStep (Routes.newData reqBody (now w)) w') as [[id' | e'] w1'];
    simpl in E; try discriminate.
  - inversion E; subst. destruct (answersMessage reqBody); reflexivity.
  - reflexivity.
Qed.

(** C2, as the code has it.  When the store insertion of a create
    request succeeds, the answers of the request can be formatted and
    the new id has a text (as every generated id has), the response is
    201 with the success envelope that carries that text, whatever the
    readiness of the mail service and whatever the transport does with
    the message; and for every create request the response is the same
    in any two worlds that differ only in readiness, transport,
    environment and outbox. *)
Theorem create_response_ignores_mail :
  forall (w : World) (reqBody : Val) (insertedId : Bson) (w1 : World)
         (formatted id : string),
    insertStep (Routes.newData reqBody (now w)) w = (Return insertedId, w1) ->
    answersMessage reqBody = Return formatted ->
    Routes.bsonToString insertedId = Return id ->
    fst (Routes.create reqBody w)
    = Return (Routes.mkResponse 201
                (Routes.mkApi true
                   (Some (Routes.NewId id))
                   (Some "Data created successfully")))
    /\ (forall w', sameStore w w' ->
                   fst (Routes.create reqBody w') = fst (Routes.create reqBody w)).
Proof.
  intros w reqBody insertedId w1 formatted id Hins Hfmt Hid. split.
  - rewrite create_unfold, Hins, Hfmt, Hid. reflexivity.
  - intros w' H. symmetry. apply create_mail_independent, H.
Qed.

End StoreDetermined.

(** ** Objects as lists of bindings *)

Lemma lookup_set_same {A : Type} (k : string) (v : A) (fs : list (string * A)) :
  lookup k (set k v fs) = Some v.
Proof.
  induction fs as [|[k' v'] fs IH]; simpl.
  - now rewrite String.eqb_refl.
  - destruct (String.eqb k k') eqn:E; simpl; rewrite E; [reflexivity | exact IH].
Qed.

Lemma lookup_set_other {A : Type} (k k' : string) (v : A) (fs : list (string * A)) :
  k <> k' -> lookup k (set k' v fs) = lookup k fs.
Proof.
  intros Hne. apply String.eqb_neq in Hne.
  induction fs as [|[k0 v0] fs IH]; simpl.
  - now rewrite Hne.
  - destruct (String.eqb k' k0) eqn:E; simpl.
    + apply String.eqb_eq in E. subst k0. now rewrite Hne.
    + destruct (String.eqb k k0); [reflexivity | exact IH].
Qed.

(** ** The update handler *)

Section UpdateProperties.
Context {P : Platform}.

Lemma updateFirst_hit (oid : ObjectId) (u : Doc) (pre post : list Doc) (d : Doc) :
  (forall x, In x pre -> MongoService.matches oid x = false) ->
  MongoService.matches oid d = true ->
  MongoService.updateFirst oid u (pre ++ d :: post)
  = Some (pre ++ MongoService.applySet u d :: post)%list.
Proof.
  intros Hpre Hd. induction pre as [|x pre IH]; simpl.
  - now rewrite Hd.
  - rewrite (Hpre x) by (left; reflexivity).
    rewrite IH by (intros y Hy; apply Hpre; right; exact Hy). reflexivity.
Qed.

Lemma updateFirst_miss (oid : ObjectId) (u : Doc) (ds : list Doc) :
  (forall x, In x ds -> MongoService.matches oid x = false) ->
  MongoService.updateFirst oid u ds = None.
Proof.
  intros H. induction ds as [|x ds IH]; simpl; [reflexivity|].
  rewrite (H x) by (left; reflexivity).
  rewrite IH by (intros y Hy; apply H; right; exact Hy). reflexivity.
Qed.

(** [updateData] when [age] converts to the text [t]. *)
Lemma updateData_returns (name email age : Val) (t : string) :
  toString age = Return t ->
  Routes.updateData name email age = Return (updateDoc name email age t).
Proof.
  intros Ht. unfold Routes.updateData, Routes.parseIntOf, updateDoc.
  rewrite Ht. destruct (truthy age); reflexivity.
Qed.

(** [updateData] throws exactly when [parseInt] cannot convert its
    argument; a falsy [age] never gets there. *)
Lemma updateData_throws (name email age : Val) (e : Exn) :
  toString age = Throw e ->
  Routes.updateData name email age = Throw e.
Proof.
  intros Ht. unfold Routes.updateData, Routes.parseIntOf. rewrite Ht.
  destruct (truthy age) eqn:E; [reflexivity|].
  destruct (toString_falsy age E) as [t Ht']. congruence.
Qed.

Lemma updateData_inv (name email age : Val) (u : Doc) :
  Routes.updateData name email age = Return u ->
  exists t, toString age = Return t /\ u = updateDoc name email age t.
Proof.
  intros H. destruct (toString age) as [t | e] eqn:Ht.
  - exists t. split; [reflexivity|].
    rewrite (updateData_returns name email age t Ht) in H. now inversion H.
  - rewrite (updateData_throws name email age e Ht) in H. discriminate.
Qed.

(** The fields of a document after [$set] with [updateData]. *)
Lemma lookup_updateData (name email age : Val) (t : string) (d : Doc) (k : string) :
  lookup k (MongoService.applySet (updateDoc name email age t) d)
  = if String.eqb k "name"
    then (if truthy name then Some (BVal name) else lookup k d)
    else if String.eqb k "email"
    then (if truthy email then Some (BVal email) else lookup k d)
    else if String.eqb k "age"
    then (if truthy age
          then Some (BVal (VNum (parseInt t)))
          else lookup k d)
    else lookup k d.
Proof.
  unfold updateDoc.
  destruct (String.eqb k "name") eqn:En;
    [apply String.eqb_eq in En; subst k
    | apply String.eqb_neq in En;
      destruct (String.eqb k "email") eqn:Ee;
      [apply String.eqb_eq in Ee; subst k
      | apply String.eqb_neq in Ee;
        destruct (String.eqb k "age") eqn:Ea;
        [apply String.eqb_eq in Ea; subst k | apply String.eqb_neq in Ea]]];
    destruct (truthy name), (truthy email), (truthy age);
    cbn [set String.eqb Ascii.eqb Bool.eqb MongoService.applySet fold_left fst snd];
    repeat first
      [ reflexivity
      | rewrite lookup_set_same
      | rewrite lookup_set_other by (assumption || discriminate) ].
Qed.

(** The update document never touches the id. *)
Lemma updateData_keeps_id (name email age : Val) (u : Doc) :
  Routes.updateData name email age = Return u ->
  forall d, lookup "_id" (MongoService.applySet u d) = lookup "_id" d.
Proof.
  intros H d. destruct (updateData_inv name email age u H) as (t & _ & ->).
  rewrite lookup_updateData. reflexivity.
Qed.

(** The update handler on a connected, answering store, for a body it
    can destructure, whose age converts to text, and an id the driver
    accepts. *)
Lemma update_run (w : World) (id : string) (reqBody : Val) (oid : ObjectId)
      (t : string) :
  connected w = true -> online w = true ->
  destructurable reqBody = true ->
  toString (prop reqBody "age") = Return t ->
  oid_of_string id = Some oid ->
  Routes.update id reqBody w
  = match MongoService.updateFirst oid
            (updateDoc (prop reqBody "name") (prop reqBody "email")
               (prop reqBody "age") t) (docs w) with
    | Some ds' =>
        (Return (Routes.mkResponse 200
                   (Routes.mkApi true None (Some "Data updated successfully"))),
         with_docs ds' w)
    | None => (Return (Routes.failure 404 "Data not found"), w)
    end.
Proof.
  intros Hc Ho Hd Ht Hid.
  unfold Routes.update, try_catch, MongoService.getCollection,
    MongoService.newObjectId, MongoService.updateOne, MongoService.roundTrip.
  unfold bind, lift, gets, modify, ret.
  rewrite !(getProp_destructurable reqBody) by exact Hd.
  rewrite (updateData_returns _ _ _ t Ht).
  rewrite Hc, Hid, Ho.
  destruct (MongoService.updateFirst oid _ (docs w)); reflexivity.
Qed.

(** An age that [parseInt] cannot convert sends the request to the
    [catch] before the store is asked: nothing is applied. *)
Lemma update_unconvertible_age (w : World) (id : string) (reqBody : Val) (e : Exn) :
  destructurable reqBody = true ->
  toString (prop reqBody "age") = Throw e ->
  Routes.update id reqBody w
  = (Return (Routes.failure 500 "Failed to update data"), w).
Proof.
  intros Hd Ht. unfold Routes.update, try_catch.
  unfold bind, lift, gets, modify, ret.
  rewrite !(getProp_destructurable reqBody) by exact Hd.
  rewrite (updateData_throws _ _ _ e Ht). reflexivity.
Qed.

(** C5.  An update request with a body the handler can destructure,
    whose age [parseInt] can read (it converts to the text [t]), and an
    id the driver accepts, on a connected and answering store.  When no
    document matches the id, the response is the 404 failure envelope
    and the world is as before.  When a document matches, the response
    is the 200 success envelope, and in the first matching document each
    of name, email and age has the value of the body when that value is
    truthy (for age, what [parseInt] makes of its text) and its old
    value when the body has none or a falsy one; every other field and
    every other document is as before.  0 and the empty string are
    falsy. *)
Theorem update_applies_truthy_fields :
  forall (w : World) (id : string) (reqBody : Val) (oid : ObjectId) (t : string),
    connected w = true -> online w = true ->
    destructurable reqBody = true ->
    toString (prop reqBody "age") = Return t ->
    oid_of_string id = Some oid ->
    let name := prop reqBody "name" in
    let email := prop reqBody "email" in
    let age := prop reqBody "age" in
    ((forall x, In x (docs w) -> MongoService.matches oid x = false) ->
     Routes.update id reqBody w
     = (Return (Routes.failure 404 "Data not found"), w))
    /\ (forall pre d post,
          docs w = (pre ++ d :: post)%list ->
          (forall x, In x pre -> MongoService.matches oid x = false) ->
          MongoService.matches oid d = true ->
          exists d',
            Routes.update id reqBody w
            = (Return (Routes.mkResponse 200
                         (Routes.mkApi true None (Some "Data updated successfully"))),
               with_docs (pre ++ d' :: post) w)
            /\ lookup "name" d'
                = (if truthy name then Some (BVal name) else lookup "name" d)
            /\ lookup "email" d'
                = (if truthy email then Some (BVal email) else lookup "email" d)
            /\ lookup "age" d'
                = (if truthy age
                   then Some (BVal (VNum (parseInt t)))
                   else lookup "age" d)
            /\ (forall k, k <> "name" -> k <> "email" -> k <> "age" ->
                          lookup k d' = lookup k d))
    /\ truthy (VNum (Int 0)) = false
    /\ truthy (VStr "") = false.
Proof.
  intros w id reqBody oid t Hc Ho Hd Ht Hid name email age.
  split; [|split; [|split; reflexivity]].
  - intros Hmiss. rewrite (update_run w id reqBody oid t Hc Ho Hd Ht Hid).
    now rewrite (updateFirst_miss oid _ (docs w) Hmiss).
  - intros pre d post Hdocs Hpre Hhit.
    exists (MongoService.applySet (updateDoc name email age t) d).
    split; [|split; [|split; [|split]]].
    + rewrite (update_run w id reqBody oid t Hc Ho Hd Ht Hid), Hdocs.
      now rewrite (updateFirst_hit oid _ pre post d Hpre Hhit).
    + rewrite lookup_updateData. reflexivity.
    + rewrite lookup_updateData. reflexivity.
    + rewrite lookup_updateData. reflexivity.
    + intros k Hn He Ha. rewrite lookup_updateData.
      apply String.eqb_neq in Hn, He, Ha. now rewrite Hn, He, Ha.
Qed.

(** C6.  An update whose body is the single field name, for an existing
    Record: the response is the 200 success envelope; in the target
    Record every field other than name, so email, age, createdAt and the
    id, is as before, and name is the new one (the old one when the new
    one is the empty string); the Records before and after the target,
    and the rest of the world, are as before. *)
Theorem update_name_only :
  forall (w : World) (id : string) (oid : ObjectId) (X : string)
         (pre post : list Doc) (d : Doc),
    connected w = true -> online w = true ->
    oid_of_string id = Some oid ->
    docs w = (pre ++ d :: post)%list ->
    (forall x, In x pre -> MongoService.matches oid x = false) ->
    MongoService.matches oid d = true ->
    exists d',
      Routes.update id (VObj [("name", VStr X)]) w
      = (Return (Routes.mkResponse 200
                   (Routes.mkApi true None (Some "Data updated successfully"))),
         with_docs (pre ++ d' :: post) w)
      /\ (forall k, k <> "name" -> lookup k d' = lookup k d)
      /\ lookup "email" d' = lookup "email" d
      /\ lookup "age" d' = lookup "age" d
      /\ lookup "createdAt" d' = lookup "createdAt" d
      /\ lookup "_id" d' = lookup "_id" d
      /\ lookup "name" d'
          = (if String.eqb X "" then lookup "name" d else Some (BVal (VStr X))).
Proof.
  intros w id oid X pre post d Hc Ho Hid Hdocs Hpre Hhit.
  set (reqBody := VObj [("name", VStr X)]).
  exists (MongoService.applySet
            (updateDoc (prop reqBody "name") (prop reqBody "email")
               (prop reqBody "age") "undefined") d).
  assert (Hother : forall k, k <> "name" ->
            lookup k (MongoService.applySet
                        (updateDoc (prop reqBody "name")
                           (prop reqBody "email") (prop reqBody "age")
                           "undefined") d)
            = lookup k d).
  { intros k Hn. rewrite lookup_updateData. apply String.eqb_neq in Hn.
    rewrite Hn. cbn [reqBody prop lookup String.eqb Ascii.eqb Bool.eqb truthy].
    destruct (String.eqb k "email"); [reflexivity|].
    destruct (String.eqb k "age"); reflexivity. }
  split; [|split; [exact Hother|]].
  - rewrite (update_run w id reqBody oid "undefined" Hc Ho eq_refl eq_refl Hid), Hdocs.
    now rewrite (updateFirst_hit oid _ pre post d Hpre Hhit).
  - repeat (split; [apply Hother; discriminate|]).
    rewrite lookup_updateData.
    cbn [reqBody prop lookup String.eqb Ascii.eqb Bool.eqb truthy].
    destruct (String.eqb X ""); reflexivity.
Qed.

End UpdateProperties.

(** ** The primary-key factory only moves forward *)

Ltac preserves_step Hrefl Htrans :=
  first
    [ apply (preserves_ret _ Hrefl)
    | apply (preserves_throw _ Hrefl)
    | apply (preserves_lift _ Hrefl)
    | apply (preserves_gets _ Hrefl)
    | apply (preserves_bind _ Htrans)
    | apply (preserves_try_catch _ Htrans)
    | match goal with
      | |- forall _, _ => intro
      | |- preserves _ (if ?b then _ else _) => destruct b
      | |- preserves _ (match ?x with _ => _ end) => destruct x
      end ].

Section PkGrows.
Context {P : Platform}.

Lemma pkGrows_refl (w : World) : pkGrows w w.
Proof. unfold pkGrows. lia. Qed.

Lemma pkGrows_trans (a b c : World) : pkGrows a b -> pkGrows b c -> pkGrows a c.
Proof. unfold pkGrows. lia. Qed.

Lemma sameStore_pkGrows (w w' : World) : sameStore w w' -> pkGrows w w'.
Proof. intros (_ & _ & _ & H & _). unfold pkGrows. rewrite H. lia. Qed.

Lemma pkGrows_with_docs (ds : list Doc) : preserves pkGrows (modify (with_docs ds)).
Proof. intros w. unfold pkGrows. simpl. lia. Qed.

Lemma pkGrows_getCollection : preserves pkGrows MongoService.getCollection.
Proof.
  intros w. unfold MongoService.getCollection.
  destruct (connected w); apply pkGrows_refl.
Qed.

Lemma pkGrows_roundTrip : preserves pkGrows MongoService.roundTrip.
Proof.
  intros w. unfold MongoService.roundTrip.
  destruct (online w); apply pkGrows_refl.
Qed.

Lemma pkGrows_assignPk (doc : Doc) : preserves pkGrows (MongoService.assignPk doc).
Proof.
  intros w. unfold MongoService.assignPk.
  destruct (lookup "_id" doc) as [[[] | |]|]; unfold pkGrows; simpl; lia.
Qed.

Lemma pkGrows_sendEmail (to : Val) (type : string) (data : Val) :
  preserves pkGrows (EmailService.sendEmail to type data).
Proof.
  apply (preserves_weaken sameStore); [exact sameStore_pkGrows|].
  apply keepsStore_sendEmail.
Qed.

Ltac pk_step :=
  first
    [ apply pkGrows_with_docs
    | apply pkGrows_getCollection
    | apply pkGrows_roundTrip
    | apply pkGrows_assignPk
    | apply pkGrows_sendEmail
    | preserves_step pkGrows_refl pkGrows_trans ].

Lemma pkGrows_insertOne (doc : Doc) : preserves pkGrows (MongoService.insertOne doc).
Proof.
  unfold MongoService.insertOne, MongoService.insertPrepared. repeat pk_step.
Qed.

Lemma pkGrows_insertMany (ds : list Doc) : preserves pkGrows (MongoService.insertMany ds).
Proof.
  induction ds as [|d ds IH]; cbn [MongoService.insertMany].
  - repeat pk_step.
  - apply (preserves_bind _ pkGrows_trans); [apply pkGrows_insertOne|]. intros _.
    apply (preserves_bind _ pkGrows_trans); [exact IH|]. intros n.
    repeat pk_step.
Qed.

(** No handler takes an identifier back. *)
Lemma pkGrows_handle (req : Routes.Request) : preserves pkGrows (Routes.handle req).
Proof.
  destruct req; cbn [Routes.handle];
    unfold Routes.getAll, Routes.getById, Routes.create, Routes.update,
      Routes.delete, Routes.seed, MongoService.findAll, MongoService.findOne,
      MongoService.updateOne, MongoService.deleteOne, MongoService.newObjectId,
      EmailService.isReady;
    repeat first [ apply pkGrows_insertOne | apply pkGrows_insertMany | pk_step ].
Qed.

Lemma pkGrows_serveAll (rs : list Routes.Request) (w : World) :
  pkGrows w (Routes.serveAll rs w).
Proof.
  revert w. induction rs as [|r rs IH]; intros w; cbn [Routes.serveAll].
  - apply pkGrows_refl.
  - apply (pkGrows_trans w (snd (Routes.handle r w))); [apply pkGrows_handle | apply IH].
Qed.

End PkGrows.

(** ** Create, then get by id *)

Section CreateThenGet.
Context {P : Platform} {L : PlatformLaws P}.

Lemma oid_eqb_refl (o : ObjectId) : oid_eqb o o = true.
Proof. now apply oid_eqb_eq. Qed.

Lemma oid_to_string_inj (a b : ObjectId) :
  oid_to_string a = oid_to_string b -> a = b.
Proof.
  intros H. pose proof (oid_of_to_string a) as Ha.
  rewrite H, oid_of_to_string in Ha. now inversion Ha.
Qed.

(** In a store that is [storeOk] the next identifier is carried by no
    document. *)
Lemma next_pk_unused (w : World) (x : Doc) :
  storeOk w -> In x (docs w) ->
  lookup "_id" x <> Some (BObjectId (createPk (pkCount w))).
Proof.
  intros Hok Hin E. destruct (Hok x _ Hin E) as (k & Hlt & Hk).
  apply createPk_inj in Hk. lia.
Qed.

Lemma next_pk_no_match (w : World) (x : Doc) :
  storeOk w -> In x (docs w) ->
  MongoService.matches (createPk (pkCount w)) x = false.
Proof.
  intros Hok Hin. unfold MongoService.matches.
  destruct (lookup "_id" x) as [[v | t | o]|] eqn:E; try reflexivity.
  destruct (oid_eqb (createPk (pkCount w)) o) eqn:Eo; [|reflexivity].
  apply oid_eqb_eq in Eo. subst o.
  exfalso. exact (next_pk_unused w x Hok Hin E).
Qed.

Lemma next_pk_no_duplicate (w : World) :
  storeOk w ->
  existsb (MongoService.hasId (BObjectId (createPk (pkCount w)))) (docs w) = false.
Proof.
  intros Hok. destruct (existsb _ (docs w)) eqn:E; [|reflexivity].
  apply existsb_exists in E. destruct E as (x & Hin & Hx).
  unfold MongoService.hasId in Hx.
  pose proof (next_pk_no_match w x Hok Hin) as Hm.
  unfold MongoService.matches in Hm.
  destruct (lookup "_id" x) as [[v | t | o]|]; simpl in Hx; congruence.
Qed.

(** Inserting a document that has no [_id] into an answering store. *)
Lemma insertOne_generated (w : World) (doc : Doc) :
  online w = true -> storeOk w -> lookup "_id" doc = None ->
  MongoService.insertOne doc w
  = (Return (BObjectId (createPk (pkCount w))),
     with_docs (docs w ++ [set "_id" (BObjectId (createPk (pkCount w))) doc])
       (with_pkCount (N.succ (pkCount w)) w)).
Proof.
  intros Ho Hok Hid.
  unfold MongoService.insertOne, MongoService.assignPk,
    MongoService.insertPrepared, MongoService.roundTrip.
  rewrite Hid. unfold bind, gets, modify, ret. cbn [online with_pkCount fst snd docs].
  rewrite Ho. cbn [fst snd].
  change (docs (with_pkCount (N.succ (pkCount w)) w)) with (docs w).
  rewrite (next_pk_no_duplicate w Hok). reflexivity.
Qed.

(** The identifier a successful insertion of such a document returns. *)
Lemma insertStep_generated_id (w w1 : World) (doc : Doc) (id : Bson) :
  lookup "_id" doc = None ->
  insertStep doc w = (Return id, w1) ->
  id = BObjectId (createPk (pkCount w)).
Proof.
  intros Hid.
  unfold insertStep, MongoService.getCollection, MongoService.insertOne,
    MongoService.assignPk, MongoService.insertPrepared, MongoService.roundTrip.
  rewrite Hid. unfold bind, gets, modify, ret, throw.
  destruct (connected w); [|discriminate].
  cbn [online with_pkCount fst snd docs].
  destruct (online w); [|discriminate]. cbn [fst snd].
  match goal with
  | |- context [existsb ?f ?l] => destruct (existsb f l)
  end; [discriminate|].
  intros E. now inversion E.
Qed.

Lemma find_last {A : Type} (f : A -> bool) (l : list A) (y : A) :
  (forall x, In x l -> f x = false) -> f y = true ->
  find f (l ++ [y]) = Some y.
Proof.
  intros Hl Hy. induction l as [|x l IH]; simpl.
  - now rewrite Hy.
  - rewrite (Hl x) by (left; reflexivity).
    apply IH. intros z Hz. apply Hl. right. exact Hz.
Qed.

(** The get-by-id handler on a connected, answering store, for an id the
    driver accepts. *)
Lemma getById_run (w : World) (id : string) (oid : ObjectId) :
  connected w = true -> online w = true ->
  oid_of_string id = Some oid ->
  Routes.getById id w
  = (match find (MongoService.matches oid) (docs w) with
     | Some d => Return (Routes.mkResponse 200
                           (Routes.mkApi true (Some (Routes.OneDoc d)) None))
     | None => Return (Routes.failure 404 "Data not found")
     end, w).
Proof.
  intros Hc Ho Hid.
  unfold Routes.getById, try_catch, MongoService.getCollection,
    MongoService.newObjectId, MongoService.findOne, MongoService.roundTrip.
  unfold bind, gets, ret. rewrite Hc, Hid, Ho.
  destruct (find (MongoService.matches oid) (docs w)); reflexivity.
Qed.

(** The create handler for a Record input on a connected, answering
    store that is [storeOk]. *)
Lemma create_record_run (w : World) (name email : string) (age : Z) :
  connected w = true -> online w = true -> storeOk w ->
  let oid := createPk (pkCount w) in
  let stored :=
    set "_id" (BObjectId oid)
        (Routes.newData (recordInput name email age) (now w)) in
  let wi := with_docs (docs w ++ [stored]) (with_pkCount (N.succ (pkCount w)) w) in
  fst (Routes.create (recordInput name email age) w)
  = Return (created (oid_to_string oid))
  /\ sameStore wi (snd (Routes.create (recordInput name email age) w)).
Proof.
  intros Hc Ho Hok oid stored wi.
  rewrite create_unfold.
  assert (E : insertStep (Routes.newData (recordInput name email age) (now w)) w
              = (Return (BObjectId oid), wi)).
  { unfold insertStep, bind, MongoService.getCollection. rewrite Hc.
    apply insertOne_generated; [exact Ho | exact Hok | reflexivity]. }
  rewrite E.
  change (answersMessage (recordInput name email age))
    with (Return (A := string) (greeting ++ signoff)).
  split; [reflexivity|].
  cbn [snd]. destruct (isConfigured wi).
  - apply keepsStore_sendEmail.
  - apply sameStore_refl.
Qed.

(** C1.  On a connected, answering store that is [storeOk], creating a
    Record from a name, an email and an age answers 201 with an id; that
    id is the text of the next identifier of the driver's factory, which
    no stored document carries; getting by that id right after answers
    200 with a Record whose name, email and age are the input, whose id
    is that identifier and whose createdAt is the server's clock at the
    create; and whatever requests are served afterwards, a later create
    of a Record that answers 201 carries a different id. *)
Theorem create_then_getById :
  forall (w : World) (name email : string) (age : Z),
    connected w = true -> online w = true -> storeOk w ->
    let input := recordInput name email age in
    let oid := createPk (pkCount w) in
    let id := oid_to_string oid in
    let w1 := snd (Routes.create input w) in
    fst (Routes.create input w)
    = Return (Routes.mkResponse 201
                (Routes.mkApi true (Some (Routes.NewId id))
                   (Some "Data created successfully")))
    /\ (forall x, In x (docs w) -> lookup "_id" x <> Some (BObjectId oid))
    /\ (exists d,
          fst (Routes.getById id w1)
          = Return (Routes.mkResponse 200
                      (Routes.mkApi true (Some (Routes.OneDoc d)) None))
          /\ lookup "name" d = Some (BVal (VStr name))
          /\ lookup "email" d = Some (BVal (VStr email))
          /\ lookup "age" d = Some (BVal (VNum (Int age)))
          /\ lookup "_id" d = Some (BObjectId oid)
          /\ lookup "createdAt" d = Some (BDate (now w)))
    /\ (forall (rs : list Routes.Request) (name' email' : string) (age' : Z)
               (id' : string),
          fst (Routes.create (recordInput name' email' age') (Routes.serveAll rs w1))
          = Return (Routes.mkResponse 201
                      (Routes.mkApi true (Some (Routes.NewId id'))
                         (Some "Data created successfully"))) ->
          id' <> id).
Proof.
  intros w name email age Hc Ho Hok input oid id w1.
  destruct (create_record_run w name email age Hc Ho Hok) as [Hresp Hsame].
  fold input oid in Hresp, Hsame. fold w1 in Hsame.
  destruct Hsame as (S1 & S2 & S3 & S4 & S5). cbn in S1, S2, S3, S4, S5.
  split; [exact Hresp|]. split; [|split].
  - intros x Hin. exact (next_pk_unused w x Hok Hin).
  - eexists. split.
    + rewrite (getById_run w1 id oid);
        [| now rewrite <- S1 | now rewrite <- S2 | apply oid_of_to_string].
      cbn [fst]. rewrite <- S3.
      rewrite find_last; [reflexivity | |].
      * intros x Hin. exact (next_pk_no_match w x Hok Hin).
      * unfold MongoService.matches. cbn [lookup String.eqb Ascii.eqb Bool.eqb].
        apply oid_eqb_refl.
    + repeat split; try reflexivity.
  - intros rs name' email' age' id' Hlater Heq.
    set (w2 := Routes.serveAll rs w1) in *.
    rewrite create_unfold in Hlater.
    destruct (insertStep (Routes.newData (recordInput name' email' age') (now w2)) w2)
      as [[insertedId | e] w3] eqn:Hins; [|discriminate].
    apply insertStep_generated_id in Hins; [|reflexivity]. subst insertedId.
    change (answersMessage (recordInput name' email' age'))
      with (Return (A := string) (greeting ++ signoff)) in Hlater.
    cbn [fst] in Hlater. unfold created in Hlater. cbn [Routes.bsonToString] in Hlater.
    inversion Hlater as [Hid']. rewrite <- Hid' in Heq. unfold id, oid in Heq.
    apply oid_to_string_inj, createPk_inj in Heq.
    pose proof (pkGrows_serveAll rs w1) as Hgrow. fold w2 in Hgrow.
    unfold pkGrows in Hgrow. rewrite <- S4 in Hgrow. lia.
Qed.

End CreateThenGet.

(** ** [storeOk] holds of every world the handlers can reach *)

Section StoreInvariant.
Context {P : Platform}.

Lemma keepsOk_refl (w : World) : keepsOk w w.
Proof. intros H. exact H. Qed.

Lemma keepsOk_trans (a b c : World) : keepsOk a b -> keepsOk b c -> keepsOk a c.
Proof. unfold keepsOk. auto. Qed.

Lemma sameStore_keepsOk (w w' : World) : sameStore w w' -> keepsOk w w'.
Proof.
  intros (_ & _ & Hd & Hp & _) Hok d o Hin Hid.
  rewrite <- Hd in Hin. rewrite <- Hp. exact (Hok d o Hin Hid).
Qed.

Lemma storeOk_empty (w : World) : docs w = [] -> storeOk w.
Proof. intros H d o Hin. rewrite H in Hin. destruct Hin. Qed.

(** More identifiers handed out, same documents. *)
Lemma storeOk_more_pk (w : World) (n : N) :
  (pkCount w <= n)%N -> storeOk w -> storeOk (with_pkCount n w).
Proof.
  intros Hle Hok d o Hin Hid. destruct (Hok d o Hin Hid) as (k & Hk & ->).
  exists k. split; [cbn; lia | reflexivity].
Qed.

(** One more document, whose [ObjectId], if it has one, was handed out. *)
Lemma storeOk_add (w : World) (d : Doc) :
  storeOk w ->
  (forall o, lookup "_id" d = Some (BObjectId o) ->
             exists k, (k < pkCount w)%N /\ o = createPk k) ->
  storeOk (with_docs (docs w ++ [d]) w).
Proof.
  intros Hok Hd x o Hin Hid. cbn in Hin. apply in_app_or in Hin.
  destruct Hin as [Hin | [<- | []]].
  - exact (Hok x o Hin Hid).
  - exact (Hd o Hid).
Qed.

(** Documents whose [_id] fields all occur among the old ones. *)
Lemma storeOk_same_ids (w : World) (ds : list Doc) :
  storeOk w ->
  (forall x, In x ds -> exists y, In y (docs w) /\ lookup "_id" x = lookup "_id" y) ->
  storeOk (with_docs ds w).
Proof.
  intros Hok H x o Hin Hid. destruct (H x Hin) as (y & Hy & E).
  rewrite E in Hid. exact (Hok y o Hy Hid).
Qed.

Lemma storeOk_insertPrepared (w : World) (id : Bson) (doc : Doc) :
  storeOk w ->
  (forall o, lookup "_id" doc = Some (BObjectId o) ->
             exists k, (k < pkCount w)%N /\ o = createPk k) ->
  storeOk (snd (MongoService.insertPrepared id doc w)).
Proof.
  intros Hok Hdoc.
  unfold MongoService.insertPrepared, MongoService.roundTrip.
  unfold bind, gets, modify, ret, throw.
  destruct (online w); [|exact Hok]. cbn [fst snd].
  assert (Hadd : storeOk (with_docs (docs w ++ [doc]) w))
    by (apply storeOk_add; assumption).
  destruct id as [[] | |];
    try (destruct (existsb _ (docs w)); [exact Hok | exact Hadd]).
  exact Hok.
Qed.

Lemma keepsOk_insertOne (doc : Doc) :
  (forall o, lookup "_id" doc <> Some (BObjectId o)) ->
  preserves keepsOk (MongoService.insertOne doc).
Proof.
  intros Hdoc w Hok.
  assert (Hgen :
    storeOk
      (snd (MongoService.insertPrepared (BObjectId (createPk (pkCount w)))
              (set "_id" (BObjectId (createPk (pkCount w))) doc)
              (with_pkCount (N.succ (pkCount w)) w)))).
  { apply storeOk_insertPrepared.
    - apply storeOk_more_pk; [lia | exact Hok].
    - intros o Ho. rewrite lookup_set_same in Ho. inversion Ho; subst o.
      exists (pkCount w). split; [cbn; lia | reflexivity]. }
  assert (Hsup : forall id,
    (forall o, lookup "_id" doc <> Some (BObjectId o)) ->
    storeOk (snd (MongoService.insertPrepared id doc w))).
  { intros id H. apply storeOk_insertPrepared; [exact Hok|].
    intros o Ho. exfalso. exact (H o Ho). }
  unfold MongoService.insertOne, MongoService.assignPk.
  destruct (lookup "_id" doc) as [[[] | t | o]|] eqn:E;
    unfold bind, gets, modify, ret; cbn [fst snd];
    first [ exact Hgen | apply Hsup; intros o' Ho'; discriminate
          | exfalso; exact (Hdoc o eq_refl) ].
Qed.

Lemma keepsOk_insertMany (ds : list Doc) :
  (forall d o, In d ds -> lookup "_id" d <> Some (BObjectId o)) ->
  preserves keepsOk (MongoService.insertMany ds).
Proof.
  induction ds as [|d ds IH]; intros H; cbn [MongoService.insertMany].
  - apply (preserves_ret _ keepsOk_refl).
  - apply (preserves_bind _ keepsOk_trans).
    + apply keepsOk_insertOne. intros o. apply H. left. reflexivity.
    + intros _. apply (preserves_bind _ keepsOk_trans).
      * apply IH. intros x o Hx. apply H. right. exact Hx.
      * intros n. apply (preserves_ret _ keepsOk_refl).
Qed.

Lemma updateFirst_ids (oid : ObjectId) (u : Doc) (ds ds' : list Doc) :
  (forall d, lookup "_id" (MongoService.applySet u d) = lookup "_id" d) ->
  MongoService.updateFirst oid u ds = Some ds' ->
  forall x, In x ds' -> exists y, In y ds /\ lookup "_id" x = lookup "_id" y.
Proof.
  intros Hu. revert ds'. induction ds as [|d ds IH]; intros ds' H x Hx.
  - discriminate.
  - cbn [MongoService.updateFirst] in H.
    destruct (MongoService.matches oid d).
    + inversion H; subst ds'. destruct Hx as [<- | Hx].
      * exists d. split; [left; reflexivity | apply Hu].
      * exists x. split; [right; exact Hx | reflexivity].
    + destruct (MongoService.updateFirst oid u ds) as [rest|]; [|discriminate].
      inversion H; subst ds'. destruct Hx as [<- | Hx].
      * exists d. split; [left; reflexivity | reflexivity].
      * destruct (IH rest eq_refl x Hx) as (y & Hy & E).
        exists y. split; [right; exact Hy | exact E].
Qed.

Lemma deleteFirst_subset (oid : ObjectId) (ds ds' : list Doc) :
  MongoService.deleteFirst oid ds = Some ds' ->
  forall x, In x ds' -> In x ds.
Proof.
  revert ds'. induction ds as [|d ds IH]; intros ds' H x Hx.
  - discriminate.
  - cbn [MongoService.deleteFirst] in H.
    destruct (MongoService.matches oid d).
    + inversion H; subst ds'. right. exact Hx.
    + destruct (MongoService.deleteFirst oid ds) as [rest|]; [|discriminate].
      inversion H; subst ds'. destruct Hx as [<- | Hx].
      * left. reflexivity.
      * right. exact (IH rest eq_refl x Hx).
Qed.

Lemma keepsOk_updateOne (oid : ObjectId) (u : Doc) :
  (forall d, lookup "_id" (MongoService.applySet u d) = lookup "_id" d) ->
  preserves keepsOk (MongoService.updateOne oid u).
Proof.
  intros Hu w Hok.
  unfold MongoService.updateOne, MongoService.roundTrip, bind, gets, modify, ret.
  destruct (online w); [|exact Hok]. cbn [fst snd].
  destruct (MongoService.updateFirst oid u (docs w)) as [ds'|] eqn:E; [|exact Hok].
  cbn [snd]. apply storeOk_same_ids; [exact Hok|].
  exact (updateFirst_ids oid u (docs w) ds' Hu E).
Qed.

Lemma keepsOk_deleteOne (oid : ObjectId) :
  preserves keepsOk (MongoService.deleteOne oid).
Proof.
  intros w Hok.
  unfold MongoService.deleteOne, MongoService.roundTrip, bind, gets, modify, ret.
  destruct (online w); [|exact Hok]. cbn [fst snd].
  destruct (MongoService.deleteFirst oid (docs w)) as [ds'|] eqn:E; [|exact Hok].
  cbn [snd]. apply storeOk_same_ids; [exact Hok|].
  intros x Hx. exists x. split; [|reflexivity].
  exact (deleteFirst_subset oid (docs w) ds' E x Hx).
Qed.

Lemma lookup_map_BVal (k : string) (fs : list (string * Val)) :
  lookup k (map (fun kv => (fst kv, BVal (snd kv))) fs)
  = option_map BVal (lookup k fs).
Proof.
  induction fs as [|[k' v] fs IH]; [reflexivity|].
  cbn [map lookup fst snd]. destruct (String.eqb k k'); [reflexivity | exact IH].
Qed.

(** What the create handler stores never brings an [ObjectId] of its
    own: a body is plain data. *)
Lemma newData_no_oid (reqBody : Val) (t : Z) (o : ObjectId) :
  lookup "_id" (Routes.newData reqBody t) <> Some (BObjectId o).
Proof.
  unfold Routes.newData.
  rewrite lookup_set_other by discriminate. rewrite lookup_map_BVal.
  destruct (lookup "_id" (Routes.spread reqBody)); discriminate.
Qed.

Lemma keepsOk_of_keepsStore {A : Type} (c : M A) :
  keepsStore c -> preserves keepsOk c.
Proof. apply preserves_weaken. exact sameStore_keepsOk. Qed.

Lemma keepsStore_getCollection : keepsStore MongoService.getCollection.
Proof.
  intros w. unfold MongoService.getCollection.
  destruct (connected w); apply sameStore_refl.
Qed.

Lemma keepsStore_roundTrip : keepsStore MongoService.roundTrip.
Proof.
  intros w. unfold MongoService.roundTrip.
  destruct (online w); apply sameStore_refl.
Qed.

(** Every handler keeps [storeOk]. *)
Lemma keepsOk_handle (req : Routes.Request) : preserves keepsOk (Routes.handle req).
Proof.
  destruct req; cbn [Routes.handle];
    unfold Routes.getAll, Routes.getById, Routes.create, Routes.update,
      Routes.delete, Routes.seed, MongoService.findAll, MongoService.findOne,
      MongoService.newObjectId, EmailService.isReady;
    repeat first
      [ apply keepsOk_insertOne; intros o; apply newData_no_oid
      | apply keepsOk_insertMany; intros d o Hd;
        repeat (destruct Hd as [<- | Hd]; [discriminate|]); destruct Hd
      | apply keepsOk_updateOne; eapply updateData_keeps_id; eassumption
      | apply (preserves_bind_lift _ keepsOk_refl); intros ? ?
      | apply keepsOk_deleteOne
      | apply keepsOk_of_keepsStore, keepsStore_sendEmail
      | apply keepsOk_of_keepsStore, keepsStore_getCollection
      | apply keepsOk_of_keepsStore, keepsStore_roundTrip
      | preserves_step keepsOk_refl keepsOk_trans ].
Qed.

(** [storeOk] holds after any sequence of requests served from a world
    where it holds, in particular from an empty collection. *)
Lemma storeOk_serveAll (rs : list Routes.Request) (w : World) :
  storeOk w -> storeOk (Routes.serveAll rs w).
Proof.
  revert w. induction rs as [|r rs IH]; intros w Hok; cbn [Routes.serveAll].
  - exact Hok.
  - apply IH. exact (keepsOk_handle r w Hok).
Qed.

End StoreInvariant.

(** ** The handlers on ids the driver refuses *)

Section MalformedId.
Context {P : Platform}.

(** An id that [new ObjectId] refuses takes the update handler to its
    [catch]: the response is the 500 envelope, not 404. *)
Lemma update_malformed_id (w : World) (id : string) (reqBody : Val) :
  connected w = true -> destructurable reqBody = true ->
  oid_of_string id = None ->
  Routes.update id reqBody w
  = (Return (Routes.failure 500 "Failed to update data"), w).
Proof.
  intros Hc Hd Hid.
  unfold Routes.update, try_catch, MongoService.getCollection,
    MongoService.newObjectId.
  unfold bind, lift, gets, ret, throw.
  rewrite !(getProp_destructurable reqBody) by exact Hd.
  rewrite Hc, Hid. destruct (Routes.updateData _ _ _); reflexivity.
Qed.

(** Whatever the world, the id and the body, the update handler either
    leaves the world as it was or replaces the collection by the one
    [$set] gives on the first document that matches. *)
Lemma update_frame (w : World) (id : string) (reqBody : Val) :
  snd (Routes.update id reqBody w) = w
  \/ exists oid u ds',
       oid_of_string id = Some oid
       /\ Routes.updateData (prop reqBody "name") (prop reqBody "email")
            (prop reqBody "age") = Return u
       /\ MongoService.updateFirst oid u (docs w) = Some ds'
       /\ snd (Routes.update id reqBody w) = with_docs ds' w.
Proof.
  unfold Routes.update, try_catch, MongoService.getCollection,
    MongoService.newObjectId, MongoService.updateOne, MongoService.roundTrip.
  unfold bind, lift, gets, modify, ret, throw.
  destruct (destructurable reqBody) eqn:Hd.
  - rewrite !(getProp_destructurable reqBody) by exact Hd.
    destruct (Routes.updateData _ _ _) as [u | e] eqn:Hu; [|left; reflexivity].
    destruct (connected w); [|left; reflexivity].
    destruct (oid_of_string id) as [oid|] eqn:Hid; [|left; reflexivity].
    destruct (online w); [|left; reflexivity].
    destruct (MongoService.updateFirst oid _ (docs w)) as [ds'|] eqn:E;
      [|left; reflexivity].
    right. exists oid, u, ds'. repeat split; assumption || reflexivity.
  - destruct reqBody; try discriminate; left; reflexivity.
Qed.

(** A type that names a member of [Object.prototype] does not fall back
    to the custom template. *)
Lemma generateEmailTemplate_prototype_key :
  forall (w : World) (type : string) (data : Val) (msg name email age subj : string),
    getProp data "message" = Return (VStr msg) ->
    bagTexts data name email age subj ->
    EmailService.isPrototypeKey type = true ->
    EmailService.generateEmailTemplate type data w
    = (Return (EmailService.PrototypeMember type), w).
Proof.
  intros w type data msg name email age subj Hm (Tn & Te & Ta & Ts) Hp.
  assert (Hd : destructurable data = true).
  { destruct data; try reflexivity; discriminate. }
  assert (Hmsg : prop data "message" = VStr msg).
  { rewrite (getProp_destructurable data) in Hm by exact Hd. now inversion Hm. }
  unfold EmailService.generateEmailTemplate, EmailService.buildTemplates.
  unfold bind, lift, gets, ret.
  rewrite !(getProp_destructurable data) by exact Hd.
  rewrite Tn, Te, Ta, Ts, Hmsg. cbn [toString EmailService.messageReplace].
  unfold EmailService.selectTemplate.
  assert (Hne : forall k, EmailService.isPrototypeKey k = false ->
                          String.eqb type k = false).
  { intros k Hk. apply String.eqb_neq. intros ->. congruence. }
  rewrite !Hne by reflexivity. rewrite Hp. reflexivity.
Qed.

End MalformedId.

(** ** The demonstration platform *)

Lemma demo_laws : PlatformLaws Demo.platform.
Proof.
  constructor.
  - intros a b. apply N.eqb_eq.
  - intros o. cbn [oid_of_string oid_to_string Demo.platform]. unfold Demo.decimal.
    rewrite NilZero.usu.
    + cbn [option_map]. now rewrite DecimalN.Unsigned.of_to.
    + destruct o as [|p]; [discriminate|].
      apply DecimalPos.Unsigned.to_uint_nonnil.
  - intros i j. cbn [createPk Demo.platform]. lia.
Qed.

Lemma demo_seeded_ok : storeOk Demo.seeded.
Proof.
  intros d o [<- | [<- | []]] H; inversion H; subst o.
  - exists 0%N. split; [reflexivity | reflexivity].
  - exists 1%N. split; [reflexivity | reflexivity].
Qed.

Example parseIntText_samples :
  map Demo.parseIntText ["36abc"; "  -12.5"; "0x1F"; "abc"; ""; "1e+21"; "+7"; "true"]
  = [Int 36; Int (-12); Int 31; NaN; NaN; Int 1; Int 7; NaN].
Proof. reflexivity. Qed.

(** ** Values that have no text *)

(** An object with an own [toString] property, as a label, as an age
    and as a name: formatting the answers throws after the insertion,
    so create stores the record and answers 500 without sending; update
    answers 500 and applies nothing; a send fails and hands nothing to
    the transport. *)
Example unconvertible_label :
  let noText := VObj [("toString", VNum (Int 1))] in
  let reqBody := VObj [("name", VStr "Ada");
                       ("answers", VArr [answer noText (VStr "b")])] in
  (exists e, formatAnswers (VArr [answer noText (VStr "b")]) = Throw e)
  /\ fst (Routes.create reqBody (Demo2.ready Demo.delivering))
     = Return (Routes.failure 500 "Failed to create data")
  /\ List.length (docs (snd (Routes.create reqBody (Demo2.ready Demo.delivering)))) = 3
  /\ outbox (snd (Routes.create reqBody (Demo2.ready Demo.delivering))) = [].
Proof. cbv zeta. split; [eexists; reflexivity|]. repeat split. Qed.

Example unconvertible_age :
  let noText := VObj [("toString", VNum (Int 1))] in
  Routes.update "1000" (VObj [("name", VStr "X"); ("age", noText)]) Demo.seeded
  = (Return (Routes.failure 500 "Failed to update data"), Demo.seeded).
Proof. reflexivity. Qed.

Example unconvertible_name :
  let noText := VObj [("toString", VNum (Int 1))] in
  exists e,
    EmailService.sendEmail (VStr "ops@scb.cm") "custom"
      (VObj [("message", VStr "hi"); ("name", noText)]) (Demo2.ready Demo.delivering)
    = (Return (EmailService.mkResult false None None (Some e)),
       Demo2.ready Demo.delivering).
Proof. eexists. reflexivity. Qed.

Example unconvertible_id :
  let noText := VObj [("toString", VNum (Int 1))] in
  fst (Routes.create (VObj [("_id", noText)]) Demo.seeded)
  = Return (Routes.failure 500 "Failed to create data")
  /\ List.length (docs (snd (Routes.create (VObj [("_id", noText)]) Demo.seeded))) = 3.
Proof. split; reflexivity. Qed.

(** ** The properties at concrete inputs *)

Lemma sendEmail_not_configured_witness :
  isConfigured (Demo.world false Demo.delivering) = false
  /\ EmailService.sendEmail (VStr "ops@scb.cm") "custom" Demo.twoLines
       (Demo.world false Demo.delivering)
     = (Return (EmailService.mkResult false None None
                  (Some "Email service not configured")),
        Demo.world false Demo.delivering).
Proof.
  split; [reflexivity|].
  apply (sendEmail_not_configured (Demo.world false Demo.delivering)
           (VStr "ops@scb.cm") "custom" Demo.twoLines).
  reflexivity.
Defined.

Lemma sendEmail_without_message_witness :
  isConfigured (Demo.world true Demo.delivering) = true
  /\ lacksStringMessage Demo.subjectOnly
  /\ exists e,
       EmailService.sendEmail (VStr "ops@scb.cm") "custom" Demo.subjectOnly
         (Demo.world true Demo.delivering)
       = (Return (EmailService.mkResult false None None (Some e)),
          Demo.world true Demo.delivering).
Proof.
  split; [reflexivity|]. split; [intros s; discriminate|].
  apply (sendEmail_without_message (Demo.world true Demo.delivering)
           (VStr "ops@scb.cm") "custom" Demo.subjectOnly).
  - reflexivity.
  - intros s. discriminate.
Defined.

Lemma create_response_ignores_mail_witness :
  insertStep (Routes.newData Demo.ada (now (Demo.world true Demo.rejecting)))
    (Demo.world true Demo.rejecting)
  = (Return (BObjectId (1000%N : @ObjectId Demo.platform)),
     snd (insertStep (Routes.newData Demo.ada (now (Demo.world true Demo.rejecting)))
            (Demo.world true Demo.rejecting)))
  /\ answersMessage Demo.ada = Return (greeting ++ signoff)
  /\ fst (Routes.create Demo.ada (Demo.world true Demo.rejecting))
     = Return (Routes.mkResponse 201
                 (Routes.mkApi true (Some (Routes.NewId "1000"))
                    (Some "Data created successfully"))).
Proof.
  split; [reflexivity|]. split; [reflexivity|].
  destruct (create_response_ignores_mail (Demo.world true Demo.rejecting) Demo.ada
              (BObjectId (1000%N : @ObjectId Demo.platform))
              (snd (insertStep
                      (Routes.newData Demo.ada (now (Demo.world true Demo.rejecting)))
                      (Demo.world true Demo.rejecting)))
              (greeting ++ signoff) "1000" eq_refl eq_refl eq_refl) as [H _].
  exact H.
Defined.

(** The counterexample to C2 as the specification words it: the body
    carries an [answers] array whose entry is [null]; the insertion
    succeeds and the document is stored, then formatting the answers
    throws, and the response is the 500 failure envelope. *)
Lemma create_null_answer_fails :
  insertStep (Routes.newData Demo.adaNullAnswer (now (Demo.world false Demo.rejecting)))
    (Demo.world false Demo.rejecting)
  = (Return (BObjectId (1000%N : @ObjectId Demo.platform)),
     snd (insertStep
            (Routes.newData Demo.adaNullAnswer (now (Demo.world false Demo.rejecting)))
            (Demo.world false Demo.rejecting)))
  /\ fst (Routes.create Demo.adaNullAnswer (Demo.world false Demo.rejecting))
     = Return (Routes.failure 500 "Failed to create data")
  /\ fst (Routes.create Demo.adaNullAnswer (Demo.world false Demo.rejecting))
     <> Return (Routes.mkResponse 201
                  (Routes.mkApi true (Some (Routes.NewId "1000"))
                     (Some "Data created successfully")))
  /\ List.length (docs (snd (Routes.create Demo.adaNullAnswer
                          (Demo.world false Demo.rejecting)))) = 1.
Proof.
  split; [reflexivity|]. split; [reflexivity|]. split; [discriminate | reflexivity].
Qed.

Lemma update_applies_truthy_fields_witness :
  connected Demo.seeded = true /\ online Demo.seeded = true
  /\ destructurable (VObj [("name", VStr ""); ("email", VStr "j.doe@example.com");
                           ("age", VStr "41 years")]) = true
  /\ toString (VStr "41 years") = Return "41 years"
  /\ @oid_of_string Demo.platform "1000" = Some 1000%N
  /\ exists d',
       Routes.update "1000"
         (VObj [("name", VStr ""); ("email", VStr "j.doe@example.com");
                ("age", VStr "41 years")]) Demo.seeded
       = (Return (Routes.mkResponse 200
                    (Routes.mkApi true None (Some "Data updated successfully"))),
          with_docs [d'; Demo.jane] Demo.seeded)
       /\ lookup "name" d' = Some (BVal (VStr "John Doe"))
       /\ lookup "email" d' = Some (BVal (VStr "j.doe@example.com"))
       /\ lookup "age" d' = Some (BVal (VNum (Int 41))).
Proof.
  repeat (split; [reflexivity|]).
  destruct (update_applies_truthy_fields Demo.seeded "1000"
              (VObj [("name", VStr ""); ("email", VStr "j.doe@example.com");
                     ("age", VStr "41 years")]) 1000%N "41 years"
              eq_refl eq_refl eq_refl eq_refl eq_refl) as (_ & H & _).
  destruct (H [] Demo.john [Demo.jane] eq_refl
              (fun x F => match F with end) eq_refl)
    as (d' & E & Hn & He & Ha & _).
  exists d'. split; [exact E|]. split; [exact Hn|]. split; [exact He | exact Ha].
Defined.

Lemma update_name_only_witness :
  connected Demo.seeded = true /\ online Demo.seeded = true
  /\ @oid_of_string Demo.platform "1001" = Some 1001%N
  /\ docs Demo.seeded = ([Demo.john] ++ Demo.jane :: [])%list
  /\ (forall x, In x [Demo.john] ->
                MongoService.matches (1001%N : @ObjectId Demo.platform) x = false)
  /\ MongoService.matches (1001%N : @ObjectId Demo.platform) Demo.jane = true
  /\ exists d',
       Routes.update "1001" (VObj [("name", VStr "X")]) Demo.seeded
       = (Return (Routes.mkResponse 200
                    (Routes.mkApi true None (Some "Data updated successfully"))),
          with_docs [Demo.john; d'] Demo.seeded)
       /\ lookup "email" d' = Some (BVal (VStr "jane@example.com"))
       /\ lookup "age" d' = Some (BVal (VNum (Int 25)))
       /\ lookup "name" d' = Some (BVal (VStr "X")).
Proof.
  assert (Hpre : forall x, In x [Demo.john] ->
                   MongoService.matches (1001%N : @ObjectId Demo.platform) x = false).
  { intros x [<- | []]. reflexivity. }
  repeat (split; [reflexivity|]). split; [exact Hpre|]. split; [reflexivity|].
  destruct (update_name_only Demo.seeded "1001" 1001%N "X" [Demo.john] [] Demo.jane
              eq_refl eq_refl eq_refl eq_refl Hpre eq_refl)
    as (d' & E & _ & He & Ha & _ & _ & Hn).
  exists d'. split; [exact E|]. split; [exact He|]. split; [exact Ha | exact Hn].
Defined.

Lemma create_then_getById_witness :
  connected Demo.seeded = true /\ online Demo.seeded = true /\ storeOk Demo.seeded
  /\ fst (Routes.create Demo.ada Demo.seeded)
     = Return (Routes.mkResponse 201
                 (Routes.mkApi true (Some (Routes.NewId "1002"))
                    (Some "Data created successfully")))
  /\ exists d,
       fst (Routes.getById "1002" (snd (Routes.create Demo.ada Demo.seeded)))
       = Return (Routes.mkResponse 200
                   (Routes.mkApi true (Some (Routes.OneDoc d)) None))
       /\ lookup "name" d = Some (BVal (VStr "Ada"))
       /\ lookup "createdAt" d = Some (BDate 1700000000500%Z).
Proof.
  split; [reflexivity|]. split; [reflexivity|]. split; [exact demo_seeded_ok|].
  destruct (create_then_getById (L := demo_laws) Demo.seeded "Ada" "ada@example.com" 36
              eq_refl eq_refl demo_seeded_ok)
    as (Hc & _ & (d & Hg & Hn & _ & _ & _ & Ht) & _).
  split; [exact Hc|].
  exists d. split; [exact Hg|]. split; [exact Hn | exact Ht].
Defined.

(** C8, at a type that names a member of [Object.prototype].  With the
    type constructor and a message of two lines, [generateEmailTemplate]
    returns the inherited member, not the custom template, and the
    message [sendEmail] hands to the transport has neither an HTML nor a
    text body; with the type custom, and with the unknown type promo,
    the HTML body has the two lines around a line break and the text
    body has them around the newline. *)
Theorem generateEmailTemplate_constructor :
  fst (EmailService.generateEmailTemplate "constructor" Demo.twoLines
         (Demo.world true Demo.delivering))
  = Return (EmailService.PrototypeMember "constructor")
  /\ map Mail.html
       (outbox (snd (EmailService.sendEmail (VStr "ops@scb.cm") "constructor"
                       Demo.twoLines (Demo.world true Demo.delivering))))
     = [VUndefined]
  /\ map Mail.text
       (outbox (snd (EmailService.sendEmail (VStr "ops@scb.cm") "constructor"
                       Demo.twoLines (Demo.world true Demo.delivering))))
     = [VUndefined]
  /\ (forall type, In type ["custom"; "promo"] ->
      exists t,
        fst (EmailService.generateEmailTemplate type Demo.twoLines
               (Demo.world true Demo.delivering))
        = Return (EmailService.OwnTemplate t)
        /\ EmailService.html t
           = EmailService.customHtmlOpen ++ "a<br>b"
             ++ EmailService.customHtmlClose "1700000000000"
        /\ EmailService.text t
           = "a" ++ nl ++ "b" ++ EmailService.customTextClose "1700000000000").
Proof.
  split; [reflexivity|]. split; [reflexivity|]. split; [reflexivity|].
  intros type [<- | [<- | []]]; eexists; repeat split; reflexivity.
Qed.

(** * More properties of the handlers *)

Section ReadAndDelete.
Context {P : Platform}.

Lemma find_none_of_no_match {A : Type} (f : A -> bool) (l : list A) :
  (forall x, In x l -> f x = false) -> find f l = None.
Proof.
  intros H. induction l as [|x l IH]; [reflexivity|]. simpl.
  rewrite (H x) by (left; reflexivity).
  apply IH. intros y Hy. apply H. right. exact Hy.
Qed.

Lemma find_first {A : Type} (f : A -> bool) (pre post : list A) (y : A) :
  (forall x, In x pre -> f x = false) -> f y = true ->
  find f (pre ++ y :: post) = Some y.
Proof.
  intros Hpre Hy. induction pre as [|x pre IH]; simpl.
  - now rewrite Hy.
  - rewrite (Hpre x) by (left; reflexivity).
    apply IH. intros z Hz. apply Hpre. right. exact Hz.
Qed.

Lemma getById_lookup (w : World) (id : string) (oid : ObjectId) :
  connected w = true -> online w = true ->
  oid_of_string id = Some oid ->
  Routes.getById id w
  = (match find (MongoService.matches oid) (docs w) with
     | Some d => Return (Routes.mkResponse 200
                           (Routes.mkApi true (Some (Routes.OneDoc d)) None))
     | None => Return (Routes.failure 404 "Data not found")
     end, w).
Proof.
  intros Hc Ho Hid.
  unfold Routes.getById, try_catch, MongoService.getCollection,
    MongoService.newObjectId, MongoService.findOne, MongoService.roundTrip.
  unfold bind, gets, ret. rewrite Hc, Hid, Ho.
  destruct (find (MongoService.matches oid) (docs w)); reflexivity.
Qed.

(** X1.  Getting by a well-formed id that no document carries, on a
    connected and answering store, answers the 404 failure envelope
    with the message Data not found, and the world is as before. *)
Theorem getById_absent :
  forall (w : World) (id : string) (oid : ObjectId),
    connected w = true -> online w = true ->
    oid_of_string id = Some oid ->
    (forall x, In x (docs w) -> MongoService.matches oid x = false) ->
    Routes.getById id w = (Return (Routes.failure 404 "Data not found"), w).
Proof.
  intros w id oid Hc Ho Hid Hmiss.
  rewrite (getById_lookup w id oid Hc Ho Hid).
  now rewrite (find_none_of_no_match _ _ Hmiss).
Qed.

(** X2.  In every world and for every id, getting by id leaves the world
    as it was; and when it answers with a Record, that Record is a
    document of the collection whose [_id] is an [ObjectId] that the
    driver's comparison equates with the one made from the id, so a
    document whose [_id] is plain data is never returned. *)
Theorem getById_returns_stored :
  forall (w : World) (id : string),
    snd (Routes.getById id w) = w
    /\ (forall (code : nat) (d : Doc) (m : option string),
          fst (Routes.getById id w)
          = Return (Routes.mkResponse code (Routes.mkApi true (Some (Routes.OneDoc d)) m)) ->
          In d (docs w)
          /\ exists oid o,
               oid_of_string id = Some oid
               /\ lookup "_id" d = Some (BObjectId o)
               /\ oid_eqb oid o = true).
Proof.
  intros w id.
  unfold Routes.getById, try_catch, MongoService.getCollection,
    MongoService.newObjectId, MongoService.findOne, MongoService.roundTrip.
  unfold bind, gets, ret, throw.
  destruct (connected w); [|split; [reflexivity | intros; discriminate]].
  destruct (oid_of_string id) as [oid|] eqn:Hid;
    [|split; [reflexivity | intros; discriminate]].
  destruct (online w); [|split; [reflexivity | intros; discriminate]].
  cbn [fst snd].
  destruct (find (MongoService.matches oid) (docs w)) as [d0|] eqn:Hf;
    (split; [reflexivity|]); intros code d m H; [|discriminate].
  inversion H; subst d0. apply find_some in Hf. destruct Hf as [Hin Hm].
  split; [exact Hin|]. exists oid.
  unfold MongoService.matches in Hm.
  destruct (lookup "_id" d) as [[v | t | o]|]; try discriminate.
  exists o. repeat split. exact Hm.
Qed.

(** X3.  An id that [new ObjectId] refuses takes get-by-id, update and
    delete to their [catch]: on a connected store each answers its 500
    failure envelope, not 404 and not 400, and the world is as before. *)
Theorem malformed_id_is_500 :
  forall (w : World) (id : string) (reqBody : Val),
    connected w = true ->
    destructurable reqBody = true ->
    oid_of_string id = None ->
    Routes.getById id w = (Return (Routes.failure 500 "Failed to fetch data"), w)
    /\ Routes.update id reqBody w
       = (Return (Routes.failure 500 "Failed to update data"), w)
    /\ Routes.delete id w = (Return (Routes.failure 500 "Failed to delete data"), w).
Proof.
  intros w id reqBody Hc Hd Hid.
  unfold Routes.getById, Routes.update, Routes.delete, try_catch,
    MongoService.getCollection, MongoService.newObjectId.
  unfold bind, lift, gets, ret, throw.
  rewrite !(getProp_destructurable reqBody) by exact Hd.
  rewrite Hc, Hid. repeat split; try reflexivity.
  destruct (Routes.updateData _ _ _); reflexivity.
Qed.

Lemma deleteFirst_hit (oid : ObjectId) (pre post : list Doc) (d : Doc) :
  (forall x, In x pre -> MongoService.matches oid x = false) ->
  MongoService.matches oid d = true ->
  MongoService.deleteFirst oid (pre ++ d :: post) = Some (pre ++ post)%list.
Proof.
  intros Hpre Hd. induction pre as [|x pre IH]; simpl.
  - now rewrite Hd.
  - rewrite (Hpre x) by (left; reflexivity).
    rewrite IH by (intros y Hy; apply Hpre; right; exact Hy). reflexivity.
Qed.

Lemma deleteFirst_miss (oid : ObjectId) (ds : list Doc) :
  (forall x, In x ds -> MongoService.matches oid x = false) ->
  MongoService.deleteFirst oid ds = None.
Proof.
  intros H. induction ds as [|x ds IH]; simpl; [reflexivity|].
  rewrite (H x) by (left; reflexivity).
  rewrite IH by (intros y Hy; apply H; right; exact Hy). reflexivity.
Qed.

Lemma delete_run (w : World) (id : string) (oid : ObjectId) :
  connected w = true -> online w = true ->
  oid_of_string id = Some oid ->
  Routes.delete id w
  = match MongoService.deleteFirst oid (docs w) with
    | Some ds' =>
        (Return (Routes.mkResponse 200
                   (Routes.mkApi true None (Some "Data deleted successfully"))),
         with_docs ds' w)
    | None => (Return (Routes.failure 404 "Data not found"), w)
    end.
Proof.
  intros Hc Ho Hid.
  unfold Routes.delete, try_catch, MongoService.getCollection,
    MongoService.newObjectId, MongoService.deleteOne, MongoService.roundTrip.
  unfold bind, gets, modify, ret. rewrite Hc, Hid, Ho.
  destruct (MongoService.deleteFirst oid (docs w)); reflexivity.
Qed.

(** X4.  Deleting by the id of an existing Record, on a connected and
    answering store, answers the 200 success envelope and removes that
    Record and nothing else: the Records before and after it keep their
    order and content, and the rest of the world is as before. *)
Theorem delete_removes_target :
  forall (w : World) (id : string) (oid : ObjectId) (pre post : list Doc) (d : Doc),
    connected w = true -> online w = true ->
    oid_of_string id = Some oid ->
    docs w = (pre ++ d :: post)%list ->
    (forall x, In x pre -> MongoService.matches oid x = false) ->
    MongoService.matches oid d = true ->
    Routes.delete id w
    = (Return (Routes.mkResponse 200
                 (Routes.mkApi true None (Some "Data deleted successfully"))),
       with_docs (pre ++ post) w).
Proof.
  intros w id oid pre post d Hc Ho Hid Hdocs Hpre Hd.
  rewrite (delete_run w id oid Hc Ho Hid), Hdocs.
  now rewrite (deleteFirst_hit oid pre post d Hpre Hd).
Qed.

(** X5.  Deleting the same id twice: when exactly one Record carries the
    id, the first delete answers 200 and the second, on the world the
    first one left, answers the 404 failure envelope and changes
    nothing. *)
Theorem delete_twice :
  forall (w : World) (id : string) (oid : ObjectId) (pre post : list Doc) (d : Doc),
    connected w = true -> online w = true ->
    oid_of_string id = Some oid ->
    docs w = (pre ++ d :: post)%list ->
    (forall x, In x (pre ++ post) -> MongoService.matches oid x = false) ->
    MongoService.matches oid d = true ->
    let w1 := snd (Routes.delete id w) in
    fst (Routes.delete id w)
    = Return (Routes.mkResponse 200
                (Routes.mkApi true None (Some "Data deleted successfully")))
    /\ Routes.delete id w1 = (Return (Routes.failure 404 "Data not found"), w1).
Proof.
  intros w id oid pre post d Hc Ho Hid Hdocs Hothers Hd w1.
  assert (Hpre : forall x, In x pre -> MongoService.matches oid x = false).
  { intros x Hx. apply Hothers. apply in_or_app. left. exact Hx. }
  assert (E : Routes.delete id w
              = (Return (Routes.mkResponse 200
                           (Routes.mkApi true None (Some "Data deleted successfully"))),
                 with_docs (pre ++ post) w)).
  { rewrite (delete_run w id oid Hc Ho Hid), Hdocs.
    now rewrite (deleteFirst_hit oid pre post d Hpre Hd). }
  unfold w1. rewrite E. cbn [fst snd]. split; [reflexivity|].
  rewrite (delete_run (with_docs (pre ++ post) w) id oid Hc Ho Hid).
  cbn [docs with_docs]. now rewrite (deleteFirst_miss oid (pre ++ post) Hothers).
Qed.

End ReadAndDelete.

Section Unavailable.
Context {P : Platform}.

Lemma sameMail_refl (w : World) : sameMail w w.
Proof. unfold sameMail. repeat split. Qed.

Lemma sameMail_trans (a b c : World) : sameMail a b -> sameMail b c -> sameMail a c.
Proof.
  unfold sameMail. intros (H1 & H2 & H3 & H4 & H5) (K1 & K2 & K3 & K4 & K5).
  repeat split; congruence.
Qed.

Lemma sameMail_with_docs (ds : list Doc) : preserves sameMail (modify (with_docs ds)).
Proof. intros w. unfold sameMail. simpl. repeat split. Qed.

Lemma sameMail_with_pkCount (n : N) : preserves sameMail (modify (with_pkCount n)).
Proof. intros w. unfold sameMail. simpl. repeat split. Qed.

Lemma sameMail_getCollection : preserves sameMail MongoService.getCollection.
Proof.
  intros w. unfold MongoService.getCollection.
  destruct (connected w); apply sameMail_refl.
Qed.

Lemma sameMail_roundTrip : preserves sameMail MongoService.roundTrip.
Proof.
  intros w. unfold MongoService.roundTrip.
  destruct (online w); apply sameMail_refl.
Qed.

Ltac mail_step :=
  first
    [ apply sameMail_with_docs
    | apply sameMail_with_pkCount
    | apply sameMail_getCollection
    | apply sameMail_roundTrip
    | preserves_step sameMail_refl sameMail_trans ].

Lemma sameMail_insertOne (doc : Doc) : preserves sameMail (MongoService.insertOne doc).
Proof.
  unfold MongoService.insertOne, MongoService.insertPrepared, MongoService.assignPk.
  repeat mail_step.
Qed.

Lemma sameMail_insertMany (ds : list Doc) : preserves sameMail (MongoService.insertMany ds).
Proof.
  induction ds as [|d ds IH]; cbn [MongoService.insertMany].
  - repeat mail_step.
  - apply (preserves_bind _ sameMail_trans); [apply sameMail_insertOne|]. intros _.
    apply (preserves_bind _ sameMail_trans); [exact IH|]. intros n.
    repeat mail_step.
Qed.

Lemma sameMail_insertStep (doc : Doc) : preserves sameMail (insertStep doc).
Proof.
  unfold insertStep. apply (preserves_bind _ sameMail_trans).
  - apply sameMail_getCollection.
  - intros _. apply sameMail_insertOne.
Qed.

(** X6.  No handler but create ever touches the mail side: for list,
    get-by-id, update, delete and seed, in every world and for every
    input, the outbox and the readiness of the mail service are after
    the request what they were before it. *)
Theorem only_create_sends_mail :
  forall (req : Routes.Request) (w : World),
    (forall reqBody, req <> Routes.Create reqBody) ->
    outbox (snd (Routes.handle req w)) = outbox w
    /\ isConfigured (snd (Routes.handle req w)) = isConfigured w.
Proof.
  intros req w Hreq.
  assert (H : preserves sameMail (Routes.handle req)).
  { destruct req as [| id | reqBody | id reqBody | id |];
      [| | exfalso; exact (Hreq reqBody eq_refl) | | |];
      cbn [Routes.handle];
      unfold Routes.getAll, Routes.getById, Routes.update, Routes.delete,
        Routes.seed, MongoService.findAll, MongoService.findOne,
        MongoService.updateOne, MongoService.deleteOne, MongoService.newObjectId;
      repeat first [ apply sameMail_insertMany | mail_step ]. }
  destruct (H w) as (H1 & H2 & _). split; congruence.
Qed.

(** X7.  While the collection is not bound or the database does not
    answer, every handler answers the 500 failure envelope with its own
    message, the collection is as before and nothing is handed to the
    mail transport. *)
Theorem unavailable_store_is_500 :
  forall (req : Routes.Request) (w : World),
    connected w = false \/ online w = false ->
    fst (Routes.handle req w) = Return (Routes.failure 500 (failureMessage req))
    /\ docs (snd (Routes.handle req w)) = docs w
    /\ outbox (snd (Routes.handle req w)) = outbox w.
Proof.
  intros req w Hdown.
  destruct req as [| id | reqBody | id reqBody | id |];
    cbn [Routes.handle failureMessage];
    unfold Routes.getAll, Routes.getById, Routes.create, Routes.update,
      Routes.delete, Routes.seed, try_catch, MongoService.getCollection,
      MongoService.findAll, MongoService.findOne, MongoService.updateOne,
      MongoService.deleteOne, MongoService.newObjectId,
      MongoService.insertOne, MongoService.insertPrepared,
      MongoService.assignPk, MongoService.roundTrip;
    unfold bind, lift, gets, modify, ret, throw.
  - destruct Hdown as [-> | Hoff]; [repeat split|].
    destruct (connected w); rewrite ?Hoff; repeat split.
  - destruct Hdown as [-> | Hoff]; [repeat split|].
    destruct (connected w); [|repeat split].
    destruct (oid_of_string id); rewrite ?Hoff; repeat split.
  - destruct Hdown as [-> | Hoff]; [repeat split|].
    destruct (connected w); [|repeat split].
    destruct (lookup "_id" (Routes.newData reqBody (now w))) as [[[] | |]|];
      cbn [fst snd online with_pkCount docs outbox]; rewrite ?Hoff; repeat split.
  - destruct (getProp reqBody "name"); [|repeat split].
    destruct (getProp reqBody "email"); [|repeat split].
    destruct (getProp reqBody "age"); [|repeat split].
    destruct (Routes.updateData a a0 a1); [|repeat split].
    destruct Hdown as [-> | Hoff]; [repeat split|].
    destruct (connected w); [|repeat split].
    destruct (oid_of_string id); rewrite ?Hoff; repeat split.
  - destruct Hdown as [-> | Hoff]; [repeat split|].
    destruct (connected w); [|repeat split].
    destruct (oid_of_string id); rewrite ?Hoff; repeat split.
  - destruct Hdown as [-> | Hoff]; [repeat split|].
    destruct (connected w); [|repeat split].
    cbn [Routes.sampleData MongoService.insertMany].
    unfold MongoService.insertOne, MongoService.insertPrepared,
      MongoService.assignPk, MongoService.roundTrip.
    unfold bind, gets, modify, ret, throw.
    cbn [lookup String.eqb Ascii.eqb Bool.eqb fst snd online with_pkCount docs outbox].
    rewrite Hoff. repeat split.
Qed.

End Unavailable.

Section UniqueIds.
Context {P : Platform} {L : PlatformLaws P}.

Lemma keepsUnique_refl (w : World) : keepsUnique w w.
Proof. intros H. exact H. Qed.

Lemma keepsUnique_trans (a b c : World) :
  keepsUnique a b -> keepsUnique b c -> keepsUnique a c.
Proof. unfold keepsUnique. auto. Qed.

Lemma sameStore_keepsUnique (w w' : World) : sameStore w w' -> keepsUnique w w'.
Proof.
  intros (_ & _ & Hd & _) H. unfold uniqueIds in *. now rewrite <- Hd.
Qed.

Lemma oidsOf_app (l r : list Doc) : oidsOf (l ++ r) = (oidsOf l ++ oidsOf r)%list.
Proof. unfold oidsOf. apply flat_map_app. Qed.

Lemma in_oidsOf (o : ObjectId) (ds : list Doc) :
  In o (oidsOf ds) ->
  exists d, In d ds /\ lookup "_id" d = Some (BObjectId o).
Proof.
  unfold oidsOf. intros H. apply in_flat_map in H. destruct H as (d & Hd & Ho).
  exists d. split; [exact Hd|].
  destruct (lookup "_id" d) as [[v | t | o']|]; try destruct Ho.
  - now subst o'.
  - destruct H.
Qed.

(** The duplicate check of the [_id] index, on [ObjectId]s. *)
Lemma no_duplicate_not_in (o : ObjectId) (ds : list Doc) :
  existsb (MongoService.hasId (BObjectId o)) ds = false -> ~ In o (oidsOf ds).
Proof.
  intros H Hin. apply in_oidsOf in Hin. destruct Hin as (d & Hd & Hid).
  assert (E : existsb (MongoService.hasId (BObjectId o)) ds = true).
  { apply existsb_exists. exists d. split; [exact Hd|].
    unfold MongoService.hasId. rewrite Hid. cbn. now apply oid_eqb_eq. }
  congruence.
Qed.

Lemma uniqueIds_insertPrepared (w : World) (id : Bson) (doc : Doc) :
  lookup "_id" doc = Some id ->
  uniqueIds w -> uniqueIds (snd (MongoService.insertPrepared id doc w)).
Proof.
  intros Hid Hu.
  unfold MongoService.insertPrepared, MongoService.roundTrip.
  unfold bind, gets, modify, ret, throw.
  destruct (online w); [|exact Hu]. cbn [fst snd].
  assert (Hadd : existsb (MongoService.hasId id) (docs w) = false ->
                 uniqueIds (with_docs (docs w ++ [doc]) w)).
  { intros Hno. unfold uniqueIds. cbn [docs with_docs].
    rewrite oidsOf_app. unfold oidsOf at 2. cbn [flat_map]. rewrite Hid.
    destruct id as [v | t | o]; rewrite ?app_nil_r; try exact Hu.
    cbn [app]. apply NoDup_app; [exact Hu | repeat constructor; intros [] |].
    intros a Ha [E | []]. subst a. exact (no_duplicate_not_in o (docs w) Hno Ha). }
  destruct id as [[] | |];
    try (destruct (existsb _ (docs w)) eqn:E; [exact Hu | exact (Hadd eq_refl)]).
  exact Hu.
Qed.

Lemma keepsUnique_insertOne (doc : Doc) :
  preserves keepsUnique (MongoService.insertOne doc).
Proof.
  intros w Hu.
  assert (Hpk : forall n, uniqueIds (with_pkCount n w)) by (intros n; exact Hu).
  unfold MongoService.insertOne, MongoService.assignPk.
  destruct (lookup "_id" doc) as [[[] | t | o]|] eqn:E;
    unfold bind, gets, modify, ret; cbn [fst snd];
    apply uniqueIds_insertPrepared;
    first [ exact E | apply lookup_set_same | idtac ];
    first [ exact Hu | apply Hpk ].
Qed.

Lemma keepsUnique_insertMany (ds : list Doc) :
  preserves keepsUnique (MongoService.insertMany ds).
Proof.
  induction ds as [|d ds IH]; cbn [MongoService.insertMany].
  - apply (preserves_ret _ keepsUnique_refl).
  - apply (preserves_bind _ keepsUnique_trans); [apply keepsUnique_insertOne|].
    intros _. apply (preserves_bind _ keepsUnique_trans); [exact IH|].
    intros n. apply (preserves_ret _ keepsUnique_refl).
Qed.

Lemma updateFirst_oidsOf (oid : ObjectId) (u : Doc) (ds ds' : list Doc) :
  (forall d, lookup "_id" (MongoService.applySet u d) = lookup "_id" d) ->
  MongoService.updateFirst oid u ds = Some ds' ->
  oidsOf ds' = oidsOf ds.
Proof.
  intros Hu. revert ds'. induction ds as [|d ds IH]; intros ds' H.
  - discriminate.
  - cbn [MongoService.updateFirst] in H.
    destruct (MongoService.matches oid d).
    + inversion H; subst ds'. unfold oidsOf. cbn [flat_map]. now rewrite Hu.
    + destruct (MongoService.updateFirst oid u ds) as [rest|]; [|discriminate].
      inversion H; subst ds'. unfold oidsOf in *. cbn [flat_map].
      now rewrite (IH rest eq_refl).
Qed.

Lemma deleteFirst_split (oid : ObjectId) (ds ds' : list Doc) :
  MongoService.deleteFirst oid ds = Some ds' ->
  exists pre d post, ds = (pre ++ d :: post)%list /\ ds' = (pre ++ post)%list.
Proof.
  revert ds'. induction ds as [|x ds IH]; intros ds' H.
  - discriminate.
  - cbn [MongoService.deleteFirst] in H.
    destruct (MongoService.matches oid x).
    + inversion H; subst ds'. exists [], x, ds. split; reflexivity.
    + destruct (MongoService.deleteFirst oid ds) as [rest|]; [|discriminate].
      inversion H; subst ds'.
      destruct (IH rest eq_refl) as (pre & d & post & -> & ->).
      exists (x :: pre), d, post. split; reflexivity.
Qed.

Lemma keepsUnique_updateOne (oid : ObjectId) (u : Doc) :
  (forall d, lookup "_id" (MongoService.applySet u d) = lookup "_id" d) ->
  preserves keepsUnique (MongoService.updateOne oid u).
Proof.
  intros Hu w Hok.
  unfold MongoService.updateOne, MongoService.roundTrip, bind, gets, modify, ret.
  destruct (online w); [|exact Hok]. cbn [fst snd].
  destruct (MongoService.updateFirst oid u (docs w)) as [ds'|] eqn:E; [|exact Hok].
  cbn [snd]. unfold uniqueIds. cbn [docs with_docs].
  rewrite (updateFirst_oidsOf oid u (docs w) ds' Hu E). exact Hok.
Qed.

Lemma keepsUnique_deleteOne (oid : ObjectId) :
  preserves keepsUnique (MongoService.deleteOne oid).
Proof.
  intros w Hok.
  unfold MongoService.deleteOne, MongoService.roundTrip, bind, gets, modify, ret.
  destruct (online w); [|exact Hok]. cbn [fst snd].
  destruct (MongoService.deleteFirst oid (docs w)) as [ds'|] eqn:E; [|exact Hok].
  cbn [snd]. unfold uniqueIds in *. cbn [docs with_docs].
  destruct (deleteFirst_split oid (docs w) ds' E) as (pre & d & post & Hds & ->).
  rewrite Hds in Hok. rewrite oidsOf_app in *.
  change (d :: post) with ([d] ++ post)%list in Hok. rewrite oidsOf_app in Hok.
  unfold oidsOf at 2 in Hok. cbn [flat_map] in Hok.
  destruct (lookup "_id" d) as [[v | t | o]|]; rewrite ?app_nil_r in Hok;
    cbn [app] in Hok; try exact Hok.
  exact (NoDup_remove_1 _ _ _ Hok).
Qed.

Lemma keepsUnique_handle (req : Routes.Request) :
  preserves keepsUnique (Routes.handle req).
Proof.
  destruct req; cbn [Routes.handle];
    unfold Routes.getAll, Routes.getById, Routes.create, Routes.update,
      Routes.delete, Routes.seed, MongoService.findAll, MongoService.findOne,
      MongoService.newObjectId, EmailService.isReady;
    repeat first
      [ apply keepsUnique_insertOne
      | apply keepsUnique_insertMany
      | apply keepsUnique_updateOne; eapply updateData_keeps_id; eassumption
      | apply (preserves_bind_lift _ keepsUnique_refl); intros ? ?
      | apply keepsUnique_deleteOne
      | apply (preserves_weaken sameStore _ _ sameStore_keepsUnique),
          keepsStore_sendEmail
      | apply (preserves_weaken sameStore _ _ sameStore_keepsUnique),
          keepsStore_getCollection
      | apply (preserves_weaken sameStore _ _ sameStore_keepsUnique),
          keepsStore_roundTrip
      | preserves_step keepsUnique_refl keepsUnique_trans ].
Qed.

(** X8.  No sequence of requests, whatever the ids and bodies, ever
    leaves two documents with the same [ObjectId] in the collection:
    when the [ObjectId]s of the collection are pairwise distinct before,
    they are after, in particular from the empty collection on. *)
Theorem handlers_keep_ids_unique :
  forall (rs : list Routes.Request) (w : World),
    uniqueIds w -> uniqueIds (Routes.serveAll rs w).
Proof.
  intros rs. induction rs as [|r rs IH]; intros w Hu; cbn [Routes.serveAll].
  - exact Hu.
  - apply IH. exact (keepsUnique_handle r w Hu).
Qed.

End UniqueIds.

Section SeedAndCompose.
Context {P : Platform} {L : PlatformLaws P}.

(** With pairwise distinct [ObjectId]s, the document found first for an
    id is the only one that matches it. *)
Lemma unique_no_other_match (oid : ObjectId) (pre post : list Doc) (d : Doc) :
  NoDup (oidsOf (pre ++ d :: post)) ->
  MongoService.matches oid d = true ->
  forall x, In x (pre ++ post) -> MongoService.matches oid x = false.
Proof.
  intros Hu Hd x Hx.
  destruct (MongoService.matches oid x) eqn:Hm; [|reflexivity]. exfalso.
  unfold MongoService.matches in Hd, Hm.
  destruct (lookup "_id" d) as [[v | t | o]|] eqn:Ed; try discriminate.
  destruct (lookup "_id" x) as [[v | t | o']|] eqn:Ex; try discriminate.
  apply oid_eqb_eq in Hd, Hm. subst o o'.
  rewrite oidsOf_app in Hu. change (d :: post) with ([d] ++ post)%list in Hu.
  rewrite oidsOf_app in Hu. unfold oidsOf at 2 in Hu. cbn [flat_map] in Hu.
  rewrite Ed in Hu. cbn [app] in Hu.
  apply NoDup_remove_2 in Hu. apply Hu. rewrite <- oidsOf_app.
  unfold oidsOf. apply in_flat_map. exists x. split; [exact Hx|].
  rewrite Ex. left. reflexivity.
Qed.

Lemma insertMany_generated (ds : list Doc) :
  (forall d, In d ds -> lookup "_id" d = None) ->
  forall w, online w = true -> storeOk w ->
    fst (MongoService.insertMany ds w) = Return (List.length ds)
    /\ docs (snd (MongoService.insertMany ds w))
       = (docs w ++ assignIds (pkCount w) ds)%list
    /\ pkCount (snd (MongoService.insertMany ds w))
       = (pkCount w + N.of_nat (List.length ds))%N
    /\ sameMail w (snd (MongoService.insertMany ds w)).
Proof.
  induction ds as [|d ds IH]; intros Hds w Ho Hok.
  - cbn. rewrite app_nil_r, N.add_0_r. repeat split.
  - assert (Hd0 : lookup "_id" d = None) by (apply Hds; left; reflexivity).
    assert (Hok1 : storeOk (snd (MongoService.insertOne d w))).
    { apply keepsOk_insertOne; [|exact Hok]. intros o E. congruence. }
    rewrite (insertOne_generated w d Ho Hok Hd0) in Hok1. cbn [snd] in Hok1.
    assert (E : MongoService.insertMany (d :: ds) w
                = match MongoService.insertMany ds
                          (with_docs
                             (docs w ++ [set "_id" (BObjectId (createPk (pkCount w))) d])
                             (with_pkCount (N.succ (pkCount w)) w)) with
                  | (Return n, w2) => (Return (S n), w2)
                  | (Throw e, w2) => (Throw e, w2)
                  end).
    { cbn [MongoService.insertMany]. unfold bind, ret.
      rewrite (insertOne_generated w d Ho Hok Hd0). reflexivity. }
    rewrite E. clear E.
    set (w1 := with_docs _ (with_pkCount _ w)) in *.
    destruct (IH (fun x Hx => Hds x (or_intror Hx)) w1 Ho Hok1)
      as (Hf & Hd & Hp & Hm).
    destruct (MongoService.insertMany ds w1) as [[n | e] w2];
      cbn [fst snd] in *; [|discriminate].
    inversion Hf; subst n. split; [reflexivity|].
    split; [|split].
    + rewrite Hd. unfold w1. cbn [docs with_docs pkCount with_pkCount assignIds].
      now rewrite <- app_assoc.
    + rewrite Hp. unfold w1. cbn [pkCount with_docs with_pkCount List.length]. lia.
    + apply (sameMail_trans w w1 w2); [|exact Hm].
      unfold w1, sameMail. cbn. repeat split.
Qed.

(** X9.  Seeding, on a connected and answering store that is [storeOk]:
    the response is 201 with an inserted count of 3 whatever the
    collection held, the three sample Records are appended after the
    documents that were there, each with an identifier of its own from
    the factory and with the server's clock as createdAt, and the mail
    side is untouched. *)
Theorem seed_inserts_three :
  forall (w : World),
    connected w = true -> online w = true -> storeOk w ->
    fst (Routes.seed w)
    = Return (Routes.mkResponse 201
                (Routes.mkApi true (Some (Routes.InsertedCount 3))
                   (Some "Sample data seeded successfully")))
    /\ docs (snd (Routes.seed w))
       = (docs w ++ assignIds (pkCount w) (Routes.sampleData (now w)))%list
    /\ List.length (docs (snd (Routes.seed w))) = List.length (docs w) + 3
    /\ outbox (snd (Routes.seed w)) = outbox w.
Proof.
  intros w Hc Ho Hok.
  assert (Hnone : forall d, In d (Routes.sampleData (now w)) -> lookup "_id" d = None).
  { intros d [<- | [<- | [<- | []]]]; reflexivity. }
  destruct (insertMany_generated (Routes.sampleData (now w)) Hnone w Ho Hok)
    as (Hf & Hd & _ & Hm).
  assert (E : Routes.seed w
              = match MongoService.insertMany (Routes.sampleData (now w)) w with
                | (Return n, w2) =>
                    (Return (Routes.mkResponse 201
                               (Routes.mkApi true (Some (Routes.InsertedCount n))
                                  (Some "Sample data seeded successfully"))), w2)
                | (Throw _, w2) =>
                    (Return (Routes.failure 500 "Failed to seed data"), w2)
                end).
  { unfold Routes.seed, try_catch, MongoService.getCollection.
    unfold bind, gets, ret. rewrite Hc.
    destruct (MongoService.insertMany (Routes.sampleData (now w)) w) as [[n | e] w2];
      reflexivity. }
  rewrite E. clear E.
  destruct (MongoService.insertMany (Routes.sampleData (now w)) w) as [[n | e] w2];
    cbn [fst snd] in *; [|discriminate].
  inversion Hf; subst n. split; [reflexivity|]. split; [exact Hd|]. split.
  - rewrite Hd, length_app. reflexivity.
  - destruct Hm as (_ & Hout & _). now rewrite Hout.
Qed.

End SeedAndCompose.

Section ComposeHandlers.
Context {P : Platform} {L : PlatformLaws P}.

(** X10.  Update, then get by the same id, on a connected and answering
    store where some document matches the id, for a body whose age
    [parseInt] can read (it converts to the text [t]): the update
    answers 200 and the get answers 200 with the updated Record, in
    which a truthy name of the body has replaced the old one, a truthy
    age has been replaced by what [parseInt] makes of its text, and the
    [_id] and the creation date are the old ones. *)
Theorem update_then_getById :
  forall (w : World) (id : string) (oid : ObjectId) (reqBody : Val) (t : string)
         (pre post : list Doc) (d : Doc),
    connected w = true -> online w = true ->
    destructurable reqBody = true ->
    toString (prop reqBody "age") = Return t ->
    oid_of_string id = Some oid ->
    docs w = (pre ++ d :: post)%list ->
    (forall x, In x pre -> MongoService.matches oid x = false) ->
    MongoService.matches oid d = true ->
    let w1 := snd (Routes.update id reqBody w) in
    fst (Routes.update id reqBody w)
    = Return (Routes.mkResponse 200
                (Routes.mkApi true None (Some "Data updated successfully")))
    /\ exists d',
      fst (Routes.getById id w1)
      = Return (Routes.mkResponse 200
                  (Routes.mkApi true (Some (Routes.OneDoc d')) None))
      /\ lookup "_id" d' = lookup "_id" d
      /\ lookup "createdAt" d' = lookup "createdAt" d
      /\ (truthy (prop reqBody "name") = true ->
          lookup "name" d' = Some (BVal (prop reqBody "name")))
      /\ (truthy (prop reqBody "age") = true ->
          lookup "age" d' = Some (BVal (VNum (parseInt t)))).
Proof.
  intros w id oid reqBody t pre post d Hc Ho Hd Ht Hid Hdocs Hpre Hhit w1.
  set (u := updateDoc (prop reqBody "name") (prop reqBody "email")
              (prop reqBody "age") t).
  assert (Hrun : Routes.update id reqBody w
                 = (Return (Routes.mkResponse 200
                              (Routes.mkApi true None
                                 (Some "Data updated successfully"))),
                    with_docs (pre ++ MongoService.applySet u d :: post) w)).
  { rewrite (update_run w id reqBody oid t Hc Ho Hd Ht Hid), Hdocs.
    fold u. now rewrite (updateFirst_hit oid u pre post d Hpre Hhit). }
  assert (Hw1 : w1 = with_docs (pre ++ MongoService.applySet u d :: post) w).
  { unfold w1. now rewrite Hrun. }
  assert (Hsame : forall k, k <> "name" -> k <> "email" -> k <> "age" ->
                            lookup k (MongoService.applySet u d) = lookup k d).
  { intros k Hn He Ha. unfold u. rewrite lookup_updateData.
    apply String.eqb_neq in Hn, He, Ha. now rewrite Hn, He, Ha. }
  split; [now rewrite Hrun|].
  exists (MongoService.applySet u d). rewrite Hw1.
  split; [|split; [|split; [|split]]].
  - rewrite (getById_lookup (with_docs (pre ++ MongoService.applySet u d :: post) w)
               id oid Hc Ho Hid).
    cbn [fst docs with_docs].
    rewrite (find_first (MongoService.matches oid) pre post
               (MongoService.applySet u d) Hpre); [reflexivity|].
    unfold MongoService.matches in *.
    rewrite Hsame by discriminate. exact Hhit.
  - apply Hsame; discriminate.
  - apply Hsame; discriminate.
  - intros Hn. unfold u. rewrite lookup_updateData.
    cbn [String.eqb Ascii.eqb Bool.eqb]. now rewrite Hn.
  - intros Ha. unfold u. rewrite lookup_updateData.
    cbn [String.eqb Ascii.eqb Bool.eqb]. now rewrite Ha.
Qed.

Lemma getAll_run (w : World) :
  connected w = true -> online w = true ->
  Routes.getAll w
  = (Return (Routes.mkResponse 200
               (Routes.mkApi true (Some (Routes.DocList (docs w))) None)), w).
Proof.
  intros Hc Ho.
  unfold Routes.getAll, try_catch, MongoService.getCollection,
    MongoService.findAll, MongoService.roundTrip.
  unfold bind, gets, ret. now rewrite Hc, Ho.
Qed.

(** The create handler for an object body without [_id] whose answers
    can be formatted. *)
Lemma create_object_run (w : World) (fields : list (string * Val)) (formatted : string) :
  connected w = true -> online w = true -> storeOk w ->
  lookup "_id" fields = None ->
  answersMessage (VObj fields) = Return formatted ->
  let oid := createPk (pkCount w) in
  let stored := set "_id" (BObjectId oid) (Routes.newData (VObj fields) (now w)) in
  let wi := with_docs (docs w ++ [stored]) (with_pkCount (N.succ (pkCount w)) w) in
  fst (Routes.create (VObj fields) w) = Return (created (oid_to_string oid))
  /\ sameStore wi (snd (Routes.create (VObj fields) w)).
Proof.
  intros Hc Ho Hok Hid Hfmt oid stored wi.
  rewrite create_unfold.
  assert (Hnone : lookup "_id" (Routes.newData (VObj fields) (now w)) = None).
  { unfold Routes.newData. rewrite lookup_set_other by discriminate.
    rewrite lookup_map_BVal. cbn [Routes.spread]. now rewrite Hid. }
  assert (E : insertStep (Routes.newData (VObj fields) (now w)) w
              = (Return (BObjectId oid), wi)).
  { unfold insertStep, bind, MongoService.getCollection. rewrite Hc.
    apply insertOne_generated; assumption. }
  rewrite E, Hfmt. split; [reflexivity|].
  cbn [snd]. destruct (isConfigured wi).
  - apply keepsStore_sendEmail.
  - apply sameStore_refl.
Qed.

(** X11.  Create stores the whole body, not only name, email and age:
    for an object body without [_id] whose answers can be formatted, on
    a connected, answering store that is [storeOk], the new document is
    appended last; every field of the body other than createdAt is in it
    as sent, the answers included; its createdAt is the server's clock
    even when the body carries a createdAt of its own; and its [_id] is
    the factory's next identifier. *)
Theorem create_stores_whole_body :
  forall (w : World) (fields : list (string * Val)) (formatted : string),
    connected w = true -> online w = true -> storeOk w ->
    lookup "_id" fields = None ->
    answersMessage (VObj fields) = Return formatted ->
    exists stored,
      docs (snd (Routes.create (VObj fields) w)) = (docs w ++ [stored])%list
      /\ (forall k, k <> "createdAt" -> k <> "_id" ->
                    lookup k stored = option_map BVal (lookup k fields))
      /\ lookup "createdAt" stored = Some (BDate (now w))
      /\ lookup "_id" stored = Some (BObjectId (createPk (pkCount w))).
Proof.
  intros w fields formatted Hc Ho Hok Hid Hfmt.
  destruct (create_object_run w fields formatted Hc Ho Hok Hid Hfmt) as [_ Hsame].
  destruct Hsame as (_ & _ & Hd & _). cbn [docs with_docs] in Hd.
  eexists. split; [symmetry; exact Hd|]. split; [|split].
  - intros k Hc' Hi. rewrite lookup_set_other by exact Hi.
    unfold Routes.newData. rewrite lookup_set_other by exact Hc'.
    rewrite lookup_map_BVal. reflexivity.
  - rewrite lookup_set_other by discriminate.
    unfold Routes.newData. apply lookup_set_same.
  - apply lookup_set_same.
Qed.

(** X12.  Create, then list, on a connected, answering store that is
    [storeOk]: the list answers 200 with every document that was there,
    in the same order, followed by one new document that carries the
    name of the body. *)
Theorem create_then_getAll :
  forall (w : World) (fields : list (string * Val)) (formatted : string),
    connected w = true -> online w = true -> storeOk w ->
    lookup "_id" fields = None ->
    answersMessage (VObj fields) = Return formatted ->
    exists stored,
      fst (Routes.getAll (snd (Routes.create (VObj fields) w)))
      = Return (Routes.mkResponse 200
                  (Routes.mkApi true
                     (Some (Routes.DocList (docs w ++ [stored]))) None))
      /\ lookup "name" stored = option_map BVal (lookup "name" fields).
Proof.
  intros w fields formatted Hc Ho Hok Hid Hfmt.
  destruct (create_object_run w fields formatted Hc Ho Hok Hid Hfmt) as [_ Hsame].
  destruct Hsame as (S1 & S2 & Hd & _). cbn in S1, S2. cbn [docs with_docs] in Hd.
  eexists. split.
  - rewrite getAll_run; [| now rewrite <- S1 | now rewrite <- S2].
    cbn [fst]. rewrite <- Hd. reflexivity.
  - rewrite lookup_set_other by discriminate.
    unfold Routes.newData. rewrite lookup_set_other by discriminate.
    rewrite lookup_map_BVal. reflexivity.
Qed.

End ComposeHandlers.

Section ClientId.
Context {P : Platform}.

Lemma updateFirst_keeps (oid : ObjectId) (u : Doc) (ds ds' : list Doc) (x : Doc) :
  MongoService.updateFirst oid u ds = Some ds' ->
  MongoService.matches oid x = false ->
  In x ds -> In x ds'.
Proof.
  revert ds'. induction ds as [|d ds IH]; intros ds' H Hx Hin; [destruct Hin|].
  cbn [MongoService.updateFirst] in H.
  destruct (MongoService.matches oid d) eqn:M.
  - inversion H; subst ds'. destruct Hin as [-> | Hin]; [congruence|].
    right. exact Hin.
  - destruct (MongoService.updateFirst oid u ds) as [rest|]; [|discriminate].
    inversion H; subst ds'. destruct Hin as [-> | Hin].
    + left. reflexivity.
    + right. exact (IH rest eq_refl Hx Hin).
Qed.

Lemma deleteFirst_keeps (oid : ObjectId) (ds ds' : list Doc) (x : Doc) :
  MongoService.deleteFirst oid ds = Some ds' ->
  MongoService.matches oid x = false ->
  In x ds -> In x ds'.
Proof.
  revert ds'. induction ds as [|d ds IH]; intros ds' H Hx Hin; [destruct Hin|].
  cbn [MongoService.deleteFirst] in H.
  destruct (MongoService.matches oid d) eqn:M.
  - inversion H; subst ds'. destruct Hin as [-> | Hin]; [congruence | exact Hin].
  - destruct (MongoService.deleteFirst oid ds) as [rest|]; [|discriminate].
    inversion H; subst ds'. destruct Hin as [-> | Hin].
    + left. reflexivity.
    + right. exact (IH rest eq_refl Hx Hin).
Qed.

(** A document that no id filter matches stays in the collection
    through an update and through a delete. *)
Lemma unmatched_survives_update (w : World) (id : string) (reqBody : Val) (x : Doc) :
  (forall oid, MongoService.matches oid x = false) ->
  In x (docs w) -> In x (docs (snd (Routes.update id reqBody w))).
Proof.
  intros Hx Hin.
  destruct (update_frame w id reqBody) as [-> | (oid & u & ds' & _ & _ & Hu & ->)];
    [exact Hin|].
  cbn [docs with_docs]. exact (updateFirst_keeps oid u (docs w) ds' x Hu (Hx oid) Hin).
Qed.

Lemma unmatched_survives_delete (w : World) (id : string) (x : Doc) :
  (forall oid, MongoService.matches oid x = false) ->
  In x (docs w) -> In x (docs (snd (Routes.delete id w))).
Proof.
  intros Hx Hin.
  unfold Routes.delete, try_catch, MongoService.getCollection,
    MongoService.newObjectId, MongoService.deleteOne, MongoService.roundTrip.
  unfold bind, gets, modify, ret, throw.
  destruct (connected w); [|exact Hin].
  destruct (oid_of_string id) as [oid|]; [|exact Hin].
  destruct (online w); [|exact Hin].
  destruct (MongoService.deleteFirst oid (docs w)) as [ds'|] eqn:E; [|exact Hin].
  cbn [fst snd docs with_docs].
  exact (deleteFirst_keeps oid (docs w) ds' x E (Hx oid) Hin).
Qed.

Lemma unmatched_never_found (w : World) (id : string) (x : Doc) (code : nat)
      (m : option string) :
  (forall oid, MongoService.matches oid x = false) ->
  fst (Routes.getById id w)
  <> Return (Routes.mkResponse code (Routes.mkApi true (Some (Routes.OneDoc x)) m)).
Proof.
  intros Hx.
  unfold Routes.getById, try_catch, MongoService.getCollection,
    MongoService.newObjectId, MongoService.findOne, MongoService.roundTrip.
  unfold bind, gets, ret, throw.
  destruct (connected w); [|discriminate].
  destruct (oid_of_string id) as [oid|]; [|discriminate].
  destruct (online w); [|discriminate].
  destruct (find (MongoService.matches oid) (docs w)) as [d|] eqn:F; [|discriminate].
  cbn [fst]. intros H. inversion H; subst d.
  apply find_some in F. destruct F as [_ F]. rewrite (Hx oid) in F. discriminate.
Qed.

(** X13.  A body that carries a string [_id] of its own decides the id:
    on a connected and answering store where no document has that
    [_id], and with answers that can be formatted, create answers 201
    with that very string as id, stores the document under it as plain
    data, and draws no identifier from the factory.  The id filter of
    get-by-id, update and delete compares [ObjectId]s, so it matches
    that document for no id: get-by-id never answers with it, and it
    stays in the collection through every update and every delete. *)
Theorem create_keeps_client_id :
  forall (w : World) (fields : list (string * Val)) (s formatted : string),
    connected w = true -> online w = true ->
    lookup "_id" fields = Some (VStr s) ->
    existsb (MongoService.hasId (BVal (VStr s))) (docs w) = false ->
    answersMessage (VObj fields) = Return formatted ->
    let w1 := snd (Routes.create (VObj fields) w) in
    let stored := Routes.newData (VObj fields) (now w) in
    fst (Routes.create (VObj fields) w)
    = Return (Routes.mkResponse 201
                (Routes.mkApi true (Some (Routes.NewId s))
                   (Some "Data created successfully")))
    /\ docs w1 = (docs w ++ [stored])%list
    /\ lookup "_id" stored = Some (BVal (VStr s))
    /\ pkCount w1 = pkCount w
    /\ (forall oid, MongoService.matches oid stored = false)
    /\ (forall id code m,
          fst (Routes.getById id w1)
          <> Return (Routes.mkResponse code
                       (Routes.mkApi true (Some (Routes.OneDoc stored)) m)))
    /\ (forall id reqBody, In stored (docs (snd (Routes.update id reqBody w1))))
    /\ (forall id, In stored (docs (snd (Routes.delete id w1)))).
Proof.
  intros w fields s formatted Hc Ho Hid Hdup Hfmt w1 stored.
  assert (Hl : lookup "_id" stored = Some (BVal (VStr s))).
  { unfold stored, Routes.newData. rewrite lookup_set_other by discriminate.
    rewrite lookup_map_BVal. cbn [Routes.spread]. now rewrite Hid. }
  assert (E : insertStep stored w
              = (Return (BVal (VStr s)), with_docs (docs w ++ [stored]) w)).
  { unfold insertStep, MongoService.getCollection, MongoService.insertOne,
      MongoService.assignPk, MongoService.insertPrepared, MongoService.roundTrip.
    rewrite Hl. unfold bind, gets, modify, ret. rewrite Hc. cbn [fst snd].
    rewrite Ho. cbn [fst snd]. rewrite Hdup. reflexivity. }
  assert (Hsame : sameStore (with_docs (docs w ++ [stored]) w) w1).
  { unfold w1. rewrite create_unfold. fold stored. rewrite E, Hfmt. cbn [snd].
    destruct (isConfigured _).
    - apply keepsStore_sendEmail.
    - apply sameStore_refl. }
  assert (Hdocs : docs w1 = (docs w ++ [stored])%list).
  { destruct Hsame as (_ & _ & Hd & _). now rewrite <- Hd. }
  assert (Hno : forall oid, MongoService.matches oid stored = false).
  { intros oid. unfold MongoService.matches. now rewrite Hl. }
  assert (Hin : In stored (docs w1)).
  { rewrite Hdocs. apply in_or_app. right. left. reflexivity. }
  split; [|split; [|split; [|split; [|split; [|split; [|split]]]]]].
  - rewrite create_unfold. fold stored. rewrite E, Hfmt. reflexivity.
  - exact Hdocs.
  - exact Hl.
  - destruct Hsame as (_ & _ & _ & Hp & _). now rewrite <- Hp.
  - exact Hno.
  - intros id code m. apply unmatched_never_found, Hno.
  - intros id reqBody. apply unmatched_survives_update; assumption.
  - intros id. apply unmatched_survives_delete; assumption.
Qed.

End ClientId.

(** * More properties of the e-mail service *)

Section SendingMail.
Context {P : Platform}.

Lemma customType_select (templates : EmailService.Templates) (type : string) :
  customType type = true ->
  EmailService.selectTemplate templates type
  = EmailService.OwnTemplate (EmailService.custom templates).
Proof.
  unfold customType, EmailService.selectTemplate. intros H.
  apply andb_prop in H. destruct H as [H Hp].
  apply andb_prop in H. destruct H as [Hw Hn].
  apply negb_true_iff in Hw, Hn, Hp. rewrite Hw, Hn, Hp.
  destruct (String.eqb type "custom"); reflexivity.
Qed.

(** The [from] header is built from strings of the environment: its
    two conversions never throw. *)
Lemma fromHeader_texts (e : string -> option string) :
  toString (or_else (EmailService.envVal e "SMTP_FROM_NAME") (VStr "Your Service"))
  = Return (envOr e "SMTP_FROM_NAME" "Your Service")
  /\ toString (or_else (EmailService.envVal e "SMTP_FROM_EMAIL")
                (EmailService.envVal e "SMTP_USER"))
     = Return (envOr e "SMTP_FROM_EMAIL"
                 (match e "SMTP_USER" with
                  | Some s => s
                  | None => "undefined"
                  end)).
Proof.
  unfold or_else, EmailService.envVal, envOr. split.
  - destruct (e "SMTP_FROM_NAME") as [s|]; cbn [truthy]; [|reflexivity].
    destruct (String.eqb s ""); reflexivity.
  - destruct (e "SMTP_FROM_EMAIL") as [s|]; cbn [truthy].
    + destruct (String.eqb s ""); cbn [negb]; [|reflexivity].
      destruct (e "SMTP_USER"); reflexivity.
    + destruct (e "SMTP_USER"); reflexivity.
Qed.

(** A value of the environment converts to text. *)
Lemma toString_envVal (e : string -> option string) (k : string) :
  exists t, toString (EmailService.envVal e k) = Return t.
Proof. unfold EmailService.envVal. destruct (e k); eexists; reflexivity. Qed.

(** The texts of the bag of the create handler. *)
Lemma bagTexts_mailContent (formatted : string) :
  bagTexts (mailContent formatted) "undefined" "undefined" "undefined"
    "Data Retrieved From Simulator".
Proof. repeat split. Qed.

(** A send with the custom template, step by step. *)
Lemma sendEmail_custom_run (w : World) (to : Val) (type : string) (data : Val)
      (msg recipient name email age subj : string) :
  isConfigured w = true ->
  getProp data "message" = Return (VStr msg) ->
  bagTexts data name email age subj ->
  toString to = Return recipient ->
  customType type = true ->
  EmailService.sendEmail to type data w
  = (Return (resultOf (env w)
               (transport w (customMail w to (prop data "subject") msg))),
     with_outbox (outbox w ++ [customMail w to (prop data "subject") msg]) w).
Proof.
  intros Hc Hm (Tn & Te & Ta & Ts) Hto Ht.
  assert (Hd : destructurable data = true).
  { destruct data; try reflexivity; discriminate. }
  assert (Hmsg : prop data "message" = VStr msg).
  { rewrite (getProp_destructurable data) in Hm by exact Hd. now inversion Hm. }
  destruct (fromHeader_texts (env w)) as [F1 F2].
  unfold EmailService.sendEmail, EmailService.generateEmailTemplate,
    EmailService.buildTemplates, EmailService.sendMail, try_catch.
  unfold bind, lift, gets, ret.
  rewrite Hc. cbn [negb].
  rewrite !(getProp_destructurable data) by exact Hd.
  rewrite Tn, Te, Ta, Ts, Hmsg. cbn [toString EmailService.messageReplace].
  rewrite (customType_select _ type Ht).
  cbn [EmailService.templateSubject EmailService.templateText
         EmailService.templateHtml EmailService.custom EmailService.subject
         EmailService.text EmailService.html].
  rewrite F1, F2, Hto.
  fold (fromHeader (env w)).
  change (Mail.mkMailOptions (fromHeader (env w)) to
            (or_else (prop data "subject") (VStr "Message from Our Service"))
            (VStr (EmailService.customText msg (toLocaleString (now w))))
            (VStr (EmailService.customHtml (EmailService.replaceNewlines msg)
                     (toLocaleString (now w)))))
    with (customMail w to (prop data "subject") msg).
  destruct (transport w (customMail w to (prop data "subject") msg)) as [mid url | m];
    [|reflexivity].
  cbn [fst snd resultOf].
  destruct (env w "NODE_ENV") as [v|]; [|destruct url as [[|c u]|]; reflexivity].
  destruct (String.eqb v "production") eqn:E.
  - apply String.eqb_eq in E. subst v. reflexivity.
  - assert (Hv : v <> "production") by (now apply String.eqb_neq).
    assert (Hgo : forall (A : Type) (a b : A),
               match v with
               | "production" => a
               | _ => b
               end = b).
    { intros A a b.
      repeat (match goal with
              | |- context [match ?x with EmptyString => _ | String _ _ => _ end] =>
                  destruct x; try reflexivity
              | |- context [match ?x with Ascii _ _ _ _ _ _ _ _ => _ end] =>
                  destruct x
              | |- context [if ?b then _ else _] => destruct b; try reflexivity
              end).
      exfalso. apply Hv. reflexivity. }
    destruct url as [[|c u]|]; rewrite Hgo; reflexivity.
Qed.

(** X14.  A send on a ready service, with a string message, a type that
    selects the custom template, and a recipient and a data bag whose
    name, e-mail, age and subject the template literals can convert,
    hands exactly one message to the transport, with the recipient, the
    subject of the data bag or the default one, the message as text and
    the message with line breaks as HTML; it never throws, and its
    result mirrors the transport: a delivery gives success with the
    provider's message id, a rejection gives a failure with the
    provider's error, and nothing is sent a second time. *)
Theorem sendEmail_mirrors_transport :
  forall (w : World) (to : Val) (type : string) (data : Val)
         (msg recipient name email age subj : string),
    isConfigured w = true ->
    getProp data "message" = Return (VStr msg) ->
    bagTexts data name email age subj ->
    toString to = Return recipient ->
    customType type = true ->
    let m := customMail w to (prop data "subject") msg in
    outbox (snd (EmailService.sendEmail to type data w)) = (outbox w ++ [m])%list
    /\ Mail.to m = to
    /\ Mail.subject m = or_else (prop data "subject") (VStr "Message from Our Service")
    /\ Mail.text m = VStr (msg ++ nl ++ nl ++ "Sent on " ++ toLocaleString (now w))
    /\ (exists opening closing,
          Mail.html m = VStr (opening ++ EmailService.replaceNewlines msg ++ closing))
    /\ (forall id url,
          transport w m = Mail.Sent id url ->
          exists preview,
            fst (EmailService.sendEmail to type data w)
            = Return (EmailService.mkResult true (Some id) preview None)
            /\ (env w "NODE_ENV" = Some "production" -> preview = None))
    /\ (forall e,
          transport w m = Mail.Rejected e ->
          fst (EmailService.sendEmail to type data w)
          = Return (EmailService.mkResult false None None (Some e))).
Proof.
  intros w to type data msg recipient name email age subj Hc Hm Hb Hto Ht m.
  rewrite (sendEmail_custom_run w to type data msg recipient name email age subj
             Hc Hm Hb Hto Ht).
  fold m. cbn [fst snd outbox with_outbox].
  split; [reflexivity|]. split; [reflexivity|]. split; [reflexivity|].
  split; [reflexivity|]. split; [do 2 eexists; reflexivity|]. split.
  - intros id url E. rewrite E. cbn [resultOf]. eexists. split; [reflexivity|].
    intros Hprod. rewrite Hprod. reflexivity.
  - intros e E. rewrite E. reflexivity.
Qed.

(** X15.  The notification of a create whose insertion succeeded and
    whose answers were formatted: when the mail service is ready exactly
    one message is handed to the transport, addressed to RECIPIENT_EMAIL,
    with the subject Data Retrieved From Simulator and the formatted
    answers as body; when it is not ready the outbox is as before. *)
Theorem create_notification :
  forall (w : World) (reqBody : Val) (insertedId : Bson) (w1 : World)
         (formatted : string),
    insertStep (Routes.newData reqBody (now w)) w = (Return insertedId, w1) ->
    answersMessage reqBody = Return formatted ->
    outbox (snd (Routes.create reqBody w))
    = if isConfigured w
      then (outbox w
            ++ [customMail w (EmailService.envVal (env w) "RECIPIENT_EMAIL")
                  (VStr "Data Retrieved From Simulator") formatted])%list
      else outbox w.
Proof.
  intros w reqBody insertedId w1 formatted Hins Hfmt.
  pose proof (sameMail_insertStep (Routes.newData reqBody (now w)) w) as Hm.
  rewrite Hins in Hm. cbn [snd] in Hm.
  destruct Hm as (Hconf & Hout & Henv & Htr & Hnow).
  rewrite create_unfold, Hins, Hfmt. cbn [snd].
  rewrite <- Hconf. destruct (isConfigured w) eqn:Hc.
  - destruct (toString_envVal (env w1) "RECIPIENT_EMAIL") as [recipient Hto].
    rewrite (sendEmail_custom_run w1 _ "custom" (mailContent formatted) formatted
               recipient "undefined" "undefined" "undefined"
               "Data Retrieved From Simulator");
      [| now rewrite <- Hconf | reflexivity | apply bagTexts_mailContent
       | exact Hto | reflexivity].
    cbn [snd outbox with_outbox prop mailContent lookup String.eqb Ascii.eqb Bool.eqb].
    unfold customMail. now rewrite <- Hout, <- Henv, <- Hnow.
  - symmetry. exact Hout.
Qed.

End SendingMail.

Section Templates.
Context {P : Platform}.

(** X16.  The welcome and the notification templates, for a data bag
    that has a string message and whose name, e-mail, age and subject
    convert to the texts [name], [email], [age] and [subj].  Type
    welcome gives the subject Welcome and the name; its HTML body
    greets the name in bold and lists the name, the e-mail, the age and
    the day; its text body is the same in plain lines.  Type
    notification gives the subject Notification and the subject of the
    bag, Update when the bag has none; both bodies embed the message as
    it is, newlines included, and the time: only the custom template
    turns newlines into line breaks. *)
Theorem generateEmailTemplate_own_types :
  forall (w : World) (data : Val) (msg name email age subj : string),
    getProp data "message" = Return (VStr msg) ->
    bagTexts data name email age subj ->
    (exists t,
       EmailService.generateEmailTemplate "welcome" data w
       = (Return (EmailService.OwnTemplate t), w)
       /\ EmailService.subject t = VStr ("Welcome " ++ name ++ "!")
       /\ contains (EmailService.html t) ("<p>Hi <strong>" ++ name ++ "</strong>,</p>")
       /\ contains (EmailService.html t) ("<li>Name: " ++ name ++ "</li>")
       /\ contains (EmailService.html t) ("<li>Email: " ++ email ++ "</li>")
       /\ contains (EmailService.html t) ("<li>Age: " ++ age ++ "</li>")
       /\ contains (EmailService.html t)
            ("<li>Joined: " ++ toLocaleDateString (now w) ++ "</li>")
       /\ EmailService.text t
          = "Welcome " ++ name ++ "!" ++ nl ++ nl
            ++ "Thank you for joining our service. We're excited to have you on board!"
            ++ nl ++ nl ++ "Your Details:" ++ nl
            ++ "- Name: " ++ name ++ nl
            ++ "- Email: " ++ email ++ nl
            ++ "- Age: " ++ age ++ nl
            ++ "- Joined: " ++ toLocaleDateString (now w) ++ nl ++ nl
            ++ "If you have any questions, feel free to contact our support team."
            ++ nl ++ nl ++ "Best regards," ++ nl ++ "The Team")
    /\ (exists t,
          EmailService.generateEmailTemplate "notification" data w
          = (Return (EmailService.OwnTemplate t), w)
          /\ EmailService.subject t = VStr ("Notification: " ++ subj)
          /\ contains (EmailService.html t) ("<p>" ++ msg ++ "</p>")
          /\ contains (EmailService.html t)
               ("<p>This notification was sent on " ++ toLocaleString (now w) ++ "</p>")
          /\ EmailService.text t
             = "Notification" ++ nl ++ nl ++ "Hi there," ++ nl ++ nl
               ++ msg ++ nl ++ nl
               ++ "This notification was sent on " ++ toLocaleString (now w)
               ++ nl ++ nl ++ "Best regards," ++ nl ++ "The Team")
    /\ (truthy (prop data "subject") = false -> subj = "Update")
    /\ (forall s, prop data "subject" = VStr s -> s <> "" -> subj = s).
Proof.
  intros w data msg name email age subj Hm (Tn & Te & Ta & Ts).
  assert (Hd : destructurable data = true).
  { destruct data; try reflexivity; discriminate. }
  assert (Hmsg : prop data "message" = VStr msg).
  { rewrite (getProp_destructurable data) in Hm by exact Hd. now inversion Hm. }
  unfold EmailService.generateEmailTemplate, EmailService.buildTemplates.
  unfold bind, lift, gets, ret.
  rewrite !(getProp_destructurable data) by exact Hd.
  rewrite Tn, Te, Ta, Ts, Hmsg. cbn [EmailService.messageReplace toString].
  split; [|split; [|split]].
  - eexists. split; [reflexivity|].
    cbn [EmailService.selectTemplate String.eqb Ascii.eqb Bool.eqb
           EmailService.welcome EmailService.subject EmailService.html
           EmailService.text].
    split; [reflexivity|].
    unfold EmailService.welcomeHtml, EmailService.welcomeText.
    repeat split.
    + apply contains_append_l. apply contains_around; reflexivity.
    + do 7 apply contains_append_l. apply contains_around; reflexivity.
    + do 9 apply contains_append_l. apply contains_around; reflexivity.
    + do 11 apply contains_append_l. apply contains_around; reflexivity.
    + do 13 apply contains_append_l. apply contains_around_end; reflexivity.
  - eexists. split; [reflexivity|].
    cbn [EmailService.selectTemplate String.eqb Ascii.eqb Bool.eqb
           EmailService.notification EmailService.subject EmailService.html
           EmailService.text].
    split; [reflexivity|].
    unfold EmailService.notificationHtml, EmailService.notificationText.
    repeat split.
    + apply contains_append_l. apply contains_around; reflexivity.
    + do 3 apply contains_append_l. apply contains_around_end; reflexivity.
  - intros Hf. unfold or_else in Ts. rewrite Hf in Ts. now inversion Ts.
  - intros s0 Hs Hne. unfold or_else in Ts. rewrite Hs in Ts.
    cbn [truthy] in Ts. apply String.eqb_neq in Hne. rewrite Hne in Ts.
    now inversion Ts.
Qed.

Lemma joinStrings_cons2 (sep x y : string) (l : list string) :
  joinStrings sep (x :: y :: l) = x ++ sep ++ joinStrings sep (y :: l).
Proof. reflexivity. Qed.

(** X17.  Replacing newlines works line by line: for lines that hold no
    newline themselves, the text made of them with a newline between
    each two becomes the same lines with a line break between each two,
    and no newline is left in it. *)
Theorem replaceNewlines_lines :
  forall lines : list string,
    Forall (fun l => hasNewline l = false) lines ->
    EmailService.replaceNewlines (joinStrings nl lines) = joinStrings "<br>" lines
    /\ hasNewline (EmailService.replaceNewlines (joinStrings nl lines)) = false.
Proof.
  intros lines H. split; [|apply replaceNewlines_no_newline].
  induction H as [|x l Hx Hl IH]; [reflexivity|].
  destruct l as [|y l].
  - cbn [joinStrings]. apply replaceNewlines_id, Hx.
  - rewrite !joinStrings_cons2, !replaceNewlines_app, IH.
    rewrite (replaceNewlines_id x Hx). reflexivity.
Qed.

End Templates.

(** * More properties of [formatAnswers] *)

Lemma formatLoop_extends (answers : list Val) :
  forall message out,
    formatLoop answers message = Return out ->
    exists lines, out = message ++ lines.
Proof.
  induction answers as [|a rest IH]; intros message out H.
  - cbn in H. inversion H. exists "". now rewrite append_nil_r.
  - cbn [formatLoop] in H.
    destruct (getProp a "label") as [label|]; [|discriminate].
    destruct (getProp a "value") as [value|]; [|discriminate].
    destruct (negb (truthy label) || negb (truthy value)).
    + exact (IH message out H).
    + destruct (joined value) as [val|]; [|discriminate].
      destruct (renderLine label val) as [line|]; [|discriminate].
      destruct (IH _ out H) as [lines ->].
      eexists. rewrite append_assoc. reflexivity.
Qed.

(** X18.  Whatever [formatAnswers] is given, when it returns, the
    message starts with the greeting and ends with the sign-off; a
    string has no entries, so it gives the greeting and the sign-off
    alone; and for a number, a boolean or an object, which cannot be
    iterated, it throws. *)
Theorem formatAnswers_wrapper :
  forall (answers : Val) (out : string),
    formatAnswers answers = Return out ->
    (exists lines, out = greeting ++ lines ++ signoff)
    /\ (forall s, formatAnswers (VStr s) = Return (greeting ++ signoff))
    /\ (forall n, exists e, formatAnswers (VNum n) = Throw e)
    /\ (forall b, exists e, formatAnswers (VBool b) = Throw e)
    /\ (forall fields, exists e, formatAnswers (VObj fields) = Throw e).
Proof.
  intros answers out H. split; [|split; [|split; [|split]]].
  - unfold formatAnswers in H.
    destruct (iterate answers) as [items|]; [|discriminate].
    destruct (formatLoop items greeting) as [message|] eqn:E; [|discriminate].
    inversion H. destruct (formatLoop_extends items greeting message E) as [lines ->].
    exists lines. now rewrite append_assoc.
  - intros s. unfold formatAnswers, iterate.
    assert (E : forall m, formatLoop
                  (map (fun c => VStr (String c EmptyString)) (list_ascii_of_string s)) m
                = Return m).
    { induction s as [|c s IH]; intros m; [reflexivity|]. cbn. apply IH. }
    now rewrite E.
  - intros n. eexists. reflexivity.
  - intros b. eexists. reflexivity.
  - intros fields. eexists. reflexivity.
Qed.

(** * [MongoService] *)

Section Connecting.
Context {P : Platform}.

(** X19.  Before a successful connect the collection accessor throws
    Database not connected; a connect that reaches the database binds
    the collection, so the accessor returns from then on, and leaves the
    documents as they were; a connect that does not reach it throws the
    driver's error again and leaves the service unbound. *)
Theorem connect_binds_collection :
  forall (w : World),
    connected w = false ->
    MongoService.getCollection w = (Throw "Database not connected", w)
    /\ (online w = true ->
        fst (MongoService.connect w) = Return tt
        /\ MongoService.getCollection (snd (MongoService.connect w))
           = (Return tt, snd (MongoService.connect w))
        /\ docs (snd (MongoService.connect w)) = docs w)
    /\ (online w = false ->
        (exists e, fst (MongoService.connect w) = Throw e)
        /\ snd (MongoService.connect w) = w
        /\ forall req, fst (Routes.handle req (snd (MongoService.connect w)))
                       = Return (Routes.failure 500 (failureMessage req))).
Proof.
  intros w Hc. split; [|split].
  - unfold MongoService.getCollection. now rewrite Hc.
  - intros Ho. unfold MongoService.connect, try_catch, MongoService.roundTrip,
      MongoService.getCollection, bind, modify. rewrite Ho. cbn.
    repeat split.
  - intros Ho.
    assert (E : MongoService.connect w = (Throw "MongoNetworkError", w)).
    { unfold MongoService.connect, try_catch, MongoService.roundTrip, bind, throw.
      now rewrite Ho. }
    rewrite E. cbn [fst snd]. split; [eexists; reflexivity|]. split; [reflexivity|].
    intros req.
    destruct req as [| id | reqBody | id reqBody | id |];
      cbn [Routes.handle failureMessage];
      unfold Routes.getAll, Routes.getById, Routes.create, Routes.update,
        Routes.delete, Routes.seed, try_catch, MongoService.getCollection;
      unfold bind, lift, gets, ret, throw; rewrite ?Hc; try reflexivity.
    destruct (getProp reqBody "name"); [|reflexivity].
    destruct (getProp reqBody "email"); [|reflexivity].
    destruct (getProp reqBody "age"); [|reflexivity].
    destruct (Routes.updateData a a0 a1); [|reflexivity].
    rewrite ?Hc. reflexivity.
Qed.

End Connecting.

(** * The CORS origin check *)

Lemma split_nonempty (sep : ascii) (s : string) : App.split sep s <> [].
Proof.
  destruct s as [|c s]; cbn [App.split]; [discriminate|].
  destruct (Ascii.eqb c sep); [discriminate|].
  destruct (App.split sep s); discriminate.
Qed.

(** The pieces of a split, joined by the separator, are the string. *)
Lemma split_join (sep : ascii) (s : string) :
  joinStrings (String sep EmptyString) (App.split sep s) = s.
Proof.
  induction s as [|c s IH]; [reflexivity|].
  cbn [App.split]. destruct (Ascii.eqb c sep) eqn:E.
  - apply Ascii.eqb_eq in E. subst c.
    pose proof (split_nonempty sep s) as Hne.
    destruct (App.split sep s) as [|x l]; [contradiction|].
    rewrite joinStrings_cons2, IH. reflexivity.
  - pose proof (split_nonempty sep s) as Hne.
    destruct (App.split sep s) as [|x l]; [contradiction|].
    destruct l as [|y l].
    + cbn [joinStrings] in *. now rewrite IH.
    + rewrite joinStrings_cons2 in *. cbn [append] in *. now rewrite IH.
Qed.

(** No piece of a split holds the separator. *)
Lemma split_pieces (sep : ascii) (s : string) :
  Forall (fun piece => existsb (Ascii.eqb sep) (list_ascii_of_string piece) = false)
         (App.split sep s).
Proof.
  induction s as [|c s IH]; [repeat constructor|].
  cbn [App.split]. destruct (Ascii.eqb c sep) eqn:E.
  - constructor; [reflexivity | exact IH].
  - destruct (App.split sep s) as [|x l]; [repeat constructor; cbn|].
    + rewrite Ascii.eqb_sym, E. reflexivity.
    + inversion IH as [|? ? Hx Hl]; subst. constructor; [|exact Hl].
      cbn [list_ascii_of_string existsb]. rewrite Ascii.eqb_sym, E. exact Hx.
Qed.

(** X20.  The CORS origin check.  A request without an origin, or with
    an empty one, is always allowed.  Any other origin is allowed exactly
    when it equals, character for character, one of the allowed origins,
    and is otherwise refused with Not allowed by CORS.  The allowed
    origins are http://localhost alone when ALLOWED_ORIGINS is not set,
    and otherwise the pieces of its value between the commas, untrimmed:
    joined by commas they give the value back, and none holds a comma. *)
Theorem corsOrigin_allows_listed :
  forall (e : string -> option string) (o : string),
    App.corsOrigin e None = App.Allowed
    /\ App.corsOrigin e (Some "") = App.Allowed
    /\ (o <> "" ->
        (App.corsOrigin e (Some o) = App.Allowed <-> In o (App.allowedOrigins e)))
    /\ (App.corsOrigin e (Some o) = App.Allowed
        \/ App.corsOrigin e (Some o) = App.Refused "Not allowed by CORS")
    /\ (e "ALLOWED_ORIGINS" = None -> App.allowedOrigins e = ["http://localhost"])
    /\ (forall v, e "ALLOWED_ORIGINS" = Some v ->
          joinStrings "," (App.allowedOrigins e) = v
          /\ Forall (fun piece =>
                       existsb (Ascii.eqb ",") (list_ascii_of_string piece) = false)
                    (App.allowedOrigins e)).
Proof.
  intros e o. split; [reflexivity|]. split; [reflexivity|].
  split; [|split; [|split]].
  - intros Ho. unfold App.corsOrigin. cbn [truthy].
    apply String.eqb_neq in Ho. rewrite Ho. cbn [negb].
    destruct (existsb (String.eqb o) (App.allowedOrigins e)) eqn:E.
    + split; [intros _|reflexivity].
      apply existsb_exists in E. destruct E as (x & Hx & Heq).
      apply String.eqb_eq in Heq. now subst x.
    + split; [discriminate|]. intros Hin.
      assert (E' : existsb (String.eqb o) (App.allowedOrigins e) = true).
      { apply existsb_exists. exists o. split; [exact Hin | apply String.eqb_refl]. }
      congruence.
  - unfold App.corsOrigin.
    destruct (negb (truthy (VStr o))); [left; reflexivity|].
    destruct (existsb (String.eqb o) (App.allowedOrigins e));
      [left | right]; reflexivity.
  - intros H. unfold App.allowedOrigins. now rewrite H.
  - intros v H. unfold App.allowedOrigins. rewrite H. split.
    + apply (split_join "," v).
    + apply (split_pieces "," v).
Qed.

(** * Setting up the mail transport *)

Section SettingUp.
Context {P : Platform}.

(** X21.  Setting up the mail service when it is not ready.  It is
    ready when [setupTransporter] returns exactly when SMTP_HOST,
    SMTP_USER and SMTP_PASS are all set and not empty, and then its
    transport is the one built from the configuration of the
    environment; the store and the outbox are untouched.  Otherwise it
    stays not ready, and the connection check answers false without
    throwing, until the test account arrives: with an account the
    service becomes ready, with an error it stays as it was and nothing
    is thrown. *)
Theorem setupTransporter_readiness :
  forall (createTransport : EmailService.EmailConfig -> Mail.MailOptions -> Mail.SendOutcome)
         (w : World),
    isConfigured w = false ->
    let w' := snd (EmailService.setupTransporter createTransport w) in
    let complete :=
      truthy (EmailService.envVal (env w) "SMTP_HOST")
      && truthy (EmailService.envVal (env w) "SMTP_USER")
      && truthy (EmailService.envVal (env w) "SMTP_PASS") in
    isConfigured w' = complete
    /\ (complete = true ->
        transport w' = createTransport (EmailService.emailConfig (env w)))
    /\ sameStore w w' /\ outbox w' = outbox w
    /\ (complete = false ->
        w' = w
        /\ (forall verify,
              EmailService.verifyConnection verify w' = (Return false, w'))
        /\ (forall account,
              fst (EmailService.createTestTransporter createTransport
                     (Return account) w') = Return tt
              /\ isConfigured (snd (EmailService.createTestTransporter createTransport
                                      (Return account) w')) = true)
        /\ (forall e,
              EmailService.createTestTransporter createTransport (Throw e) w'
              = (Return tt, w'))).
Proof.
  intros ct w Hc w' complete.
  unfold w', EmailService.setupTransporter, bind, gets, modify, ret.
  cbn [EmailService.emailConfig EmailService.host EmailService.user EmailService.pass].
  fold complete. destruct complete eqn:E; cbn [fst snd].
  - repeat split; discriminate.
  - split; [exact Hc|]. split; [discriminate|]. split; [apply sameStore_refl|].
    split; [reflexivity|]. intros _. split; [reflexivity|]. split; [|split].
    + intros verify. unfold EmailService.verifyConnection, bind, gets, ret.
      now rewrite Hc.
    + intros account. split; reflexivity.
    + intros e. reflexivity.
Qed.

End SettingUp.

(** * The further properties at concrete inputs *)

#[local] Existing Instance demo_laws.

Lemma no_match_in_nil {P : Platform} (oid : ObjectId) :
  forall x : Doc, In x [] -> MongoService.matches oid x = false.
Proof. intros x []. Qed.

Lemma getById_absent_witness :
  connected Demo.seeded = true /\ online Demo.seeded = true
  /\ @oid_of_string Demo.platform "1007" = Some 1007%N
  /\ Routes.getById "1007" Demo.seeded
     = (Return (Routes.failure 404 "Data not found"), Demo.seeded).
Proof.
  repeat (split; [reflexivity|]).
  apply (getById_absent Demo.seeded "1007" 1007%N); try reflexivity.
  intros x [<- | [<- | []]]; reflexivity.
Defined.

Lemma malformed_id_is_500_witness :
  connected Demo.seeded = true
  /\ @oid_of_string Demo.platform "not-an-id" = None
  /\ Routes.delete "not-an-id" Demo.seeded
     = (Return (Routes.failure 500 "Failed to delete data"), Demo.seeded).
Proof.
  repeat (split; [reflexivity|]).
  apply (malformed_id_is_500 Demo.seeded "not-an-id" (VObj [])); reflexivity.
Defined.

Lemma delete_removes_target_witness :
  docs Demo.seeded = ([Demo.john] ++ Demo.jane :: [])%list
  /\ MongoService.matches (1001%N : @ObjectId Demo.platform) Demo.jane = true
  /\ Routes.delete "1001" Demo.seeded
     = (Return (Routes.mkResponse 200
                  (Routes.mkApi true None (Some "Data deleted successfully"))),
        with_docs [Demo.john] Demo.seeded).
Proof.
  repeat (split; [reflexivity|]).
  apply (delete_removes_target Demo.seeded "1001" 1001%N [Demo.john] [] Demo.jane);
    try reflexivity.
  intros x [<- | []]. reflexivity.
Defined.

Lemma delete_twice_witness :
  docs Demo.seeded = ([] ++ Demo.john :: [Demo.jane])%list
  /\ MongoService.matches (1000%N : @ObjectId Demo.platform) Demo.john = true
  /\ Routes.delete "1000" (snd (Routes.delete "1000" Demo.seeded))
     = (Return (Routes.failure 404 "Data not found"),
        snd (Routes.delete "1000" Demo.seeded)).
Proof.
  repeat (split; [reflexivity|]).
  apply (delete_twice Demo.seeded "1000" 1000%N [] [Demo.jane] Demo.john);
    try reflexivity.
  intros x [<- | []]. reflexivity.
Defined.

Lemma only_create_sends_mail_witness :
  (forall reqBody, Routes.Seed <> Routes.Create reqBody)
  /\ outbox (snd (Routes.handle Routes.Seed (Demo2.ready Demo.delivering)))
     = outbox (Demo2.ready Demo.delivering).
Proof.
  split; [intros reqBody; discriminate|].
  apply (only_create_sends_mail Routes.Seed (Demo2.ready Demo.delivering)).
  intros reqBody. discriminate.
Defined.

Lemma unavailable_store_is_500_witness :
  (connected Demo2.unbound = false \/ online Demo2.unbound = false)
  /\ fst (Routes.handle (Routes.Create Demo.ada) Demo2.unbound)
     = Return (Routes.failure 500 "Failed to create data").
Proof.
  split; [left; reflexivity|].
  apply (unavailable_store_is_500 (Routes.Create Demo.ada) Demo2.unbound).
  left. reflexivity.
Defined.

Lemma handlers_keep_ids_unique_witness :
  uniqueIds (Demo.world false Demo.rejecting)
  /\ uniqueIds (Routes.serveAll [Routes.Seed; Routes.Create Demo.ada]
                  (Demo.world false Demo.rejecting)).
Proof.
  assert (H : uniqueIds (Demo.world false Demo.rejecting)) by constructor.
  split; [exact H|].
  apply (handlers_keep_ids_unique [Routes.Seed; Routes.Create Demo.ada]
           (Demo.world false Demo.rejecting)).
  exact H.
Defined.

Lemma seed_inserts_three_witness :
  connected Demo.seeded = true /\ online Demo.seeded = true /\ storeOk Demo.seeded
  /\ List.length (docs (snd (Routes.seed Demo.seeded))) = 5.
Proof.
  split; [reflexivity|]. split; [reflexivity|]. split; [exact demo_seeded_ok|].
  destruct (seed_inserts_three Demo.seeded eq_refl eq_refl demo_seeded_ok)
    as (_ & _ & H & _).
  exact H.
Defined.

Lemma update_then_getById_witness :
  docs Demo.seeded = ([] ++ Demo.john :: [Demo.jane])%list
  /\ toString (VNum (Int 31)) = Return "31"
  /\ MongoService.matches (1000%N : @ObjectId Demo.platform) Demo.john = true
  /\ exists d',
       fst (Routes.getById "1000"
              (snd (Routes.update "1000"
                      (VObj [("name", VStr "Johnny"); ("age", VNum (Int 31))])
                      Demo.seeded)))
       = Return (Routes.mkResponse 200
                   (Routes.mkApi true (Some (Routes.OneDoc d')) None))
       /\ lookup "name" d' = Some (BVal (VStr "Johnny"))
       /\ lookup "age" d' = Some (BVal (VNum (Int 31))).
Proof.
  repeat (split; [reflexivity|]).
  destruct (update_then_getById Demo.seeded "1000" 1000%N
              (VObj [("name", VStr "Johnny"); ("age", VNum (Int 31))]) "31"
              [] [Demo.jane] Demo.john
              eq_refl eq_refl eq_refl eq_refl eq_refl eq_refl
              (no_match_in_nil _) eq_refl)
    as (_ & d' & Hg & _ & _ & Hn & Ha).
  exists d'. split; [exact Hg|]. split; [exact (Hn eq_refl) | exact (Ha eq_refl)].
Defined.

Lemma create_stores_whole_body_witness :
  connected Demo.seeded = true /\ online Demo.seeded = true /\ storeOk Demo.seeded
  /\ lookup "_id" [("name", VStr "Ada"); ("answers", VArr [answer (VStr "A") (VStr "b")]);
                   ("createdAt", VStr "1999")] = None
  /\ exists stored,
       docs (snd (Routes.create
                    (VObj [("name", VStr "Ada");
                           ("answers", VArr [answer (VStr "A") (VStr "b")]);
                           ("createdAt", VStr "1999")]) Demo.seeded))
       = (docs Demo.seeded ++ [stored])%list
       /\ lookup "createdAt" stored = Some (BDate 1700000000500%Z).
Proof.
  split; [reflexivity|]. split; [reflexivity|]. split; [exact demo_seeded_ok|].
  split; [reflexivity|].
  destruct (create_stores_whole_body Demo.seeded
              [("name", VStr "Ada"); ("answers", VArr [answer (VStr "A") (VStr "b")]);
               ("createdAt", VStr "1999")]
              (greeting ++ answerLine "A" "b" ++ signoff)
              eq_refl eq_refl demo_seeded_ok eq_refl eq_refl)
    as (stored & Hd & _ & Hc & _).
  exists stored. split; [exact Hd | exact Hc].
Defined.

Lemma create_then_getAll_witness :
  connected Demo.seeded = true /\ online Demo.seeded = true /\ storeOk Demo.seeded
  /\ exists stored,
       fst (Routes.getAll (snd (Routes.create (VObj [("name", VStr "Ada")]) Demo.seeded)))
       = Return (Routes.mkResponse 200
                   (Routes.mkApi true
                      (Some (Routes.DocList [Demo.john; Demo.jane; stored])) None))
       /\ lookup "name" stored = Some (BVal (VStr "Ada")).
Proof.
  split; [reflexivity|]. split; [reflexivity|]. split; [exact demo_seeded_ok|].
  destruct (create_then_getAll Demo.seeded [("name", VStr "Ada")] (greeting ++ signoff)
              eq_refl eq_refl demo_seeded_ok eq_refl eq_refl)
    as (stored & Hg & Hn).
  exists stored. split; [exact Hg | exact Hn].
Defined.

Lemma create_keeps_client_id_witness :
  lookup "_id" [("_id", VStr "my-id"); ("name", VStr "Ada")] = Some (VStr "my-id")
  /\ existsb (MongoService.hasId (BVal (VStr "my-id"))) (docs Demo.seeded) = false
  /\ fst (Routes.create (VObj [("_id", VStr "my-id"); ("name", VStr "Ada")]) Demo.seeded)
     = Return (Routes.mkResponse 201
                 (Routes.mkApi true (Some (Routes.NewId "my-id"))
                    (Some "Data created successfully"))).
Proof.
  repeat (split; [reflexivity|]).
  destruct (create_keeps_client_id Demo.seeded
              [("_id", VStr "my-id"); ("name", VStr "Ada")] "my-id"
              (greeting ++ signoff) eq_refl eq_refl eq_refl eq_refl eq_refl)
    as (H & _).
  exact H.
Defined.

Lemma sendEmail_mirrors_transport_witness :
  isConfigured (Demo2.ready Demo.rejecting) = true
  /\ getProp Demo.twoLines "message" = Return (VStr ("a" ++ nl ++ "b"))
  /\ bagTexts Demo.twoLines "undefined" "undefined" "undefined" "Update"
  /\ toString (VStr "ops@scb.cm") = Return "ops@scb.cm"
  /\ customType "custom" = true
  /\ fst (EmailService.sendEmail (VStr "ops@scb.cm") "custom" Demo.twoLines
            (Demo2.ready Demo.rejecting))
     = Return (EmailService.mkResult false None None (Some "connect ECONNREFUSED")).
Proof.
  split; [reflexivity|]. split; [reflexivity|]. split; [repeat split|].
  split; [reflexivity|]. split; [reflexivity|].
  destruct (sendEmail_mirrors_transport (Demo2.ready Demo.rejecting)
              (VStr "ops@scb.cm") "custom" Demo.twoLines ("a" ++ nl ++ "b")
              "ops@scb.cm" "undefined" "undefined" "undefined" "Update"
              eq_refl eq_refl
              (conj eq_refl (conj eq_refl (conj eq_refl eq_refl)))
              eq_refl eq_refl) as (_ & _ & _ & _ & _ & _ & H).
  exact (H "connect ECONNREFUSED" eq_refl).
Defined.

Lemma create_notification_witness :
  insertStep (Routes.newData Demo.ada (now (Demo2.ready Demo.delivering)))
    (Demo2.ready Demo.delivering)
  = (Return (BObjectId (1002%N : @ObjectId Demo.platform)),
     snd (insertStep (Routes.newData Demo.ada (now (Demo2.ready Demo.delivering)))
            (Demo2.ready Demo.delivering)))
  /\ answersMessage Demo.ada = Return (greeting ++ signoff)
  /\ map Mail.to (outbox (snd (Routes.create Demo.ada (Demo2.ready Demo.delivering))))
     = [VStr "ops@scb.cm"].
Proof.
  split; [reflexivity|]. split; [reflexivity|].
  rewrite (create_notification (Demo2.ready Demo.delivering) Demo.ada
             (BObjectId (1002%N : @ObjectId Demo.platform))
             (snd (insertStep
                     (Routes.newData Demo.ada (now (Demo2.ready Demo.delivering)))
                     (Demo2.ready Demo.delivering)))
             (greeting ++ signoff) eq_refl eq_refl).
  reflexivity.
Defined.

Lemma generateEmailTemplate_own_types_witness :
  getProp (VObj [("name", VStr "Ada"); ("age", VNum (Int 36)); ("message", VStr "hi")])
    "message"
  = Return (VStr "hi")
  /\ bagTexts (VObj [("name", VStr "Ada"); ("age", VNum (Int 36)); ("message", VStr "hi")])
       "Ada" "undefined" "36" "Update"
  /\ exists t,
       EmailService.generateEmailTemplate "welcome"
         (VObj [("name", VStr "Ada"); ("age", VNum (Int 36)); ("message", VStr "hi")])
         (Demo.world true Demo.delivering)
       = (Return (EmailService.OwnTemplate t), Demo.world true Demo.delivering)
       /\ EmailService.subject t = VStr "Welcome Ada!"
       /\ contains (EmailService.html t) "<li>Age: 36</li>".
Proof.
  split; [reflexivity|]. split; [repeat split|].
  destruct (generateEmailTemplate_own_types (Demo.world true Demo.delivering)
              (VObj [("name", VStr "Ada"); ("age", VNum (Int 36));
                     ("message", VStr "hi")])
              "hi" "Ada" "undefined" "36" "Update" eq_refl
              (conj eq_refl (conj eq_refl (conj eq_refl eq_refl))))
    as ((t & Hg & Hs & _ & _ & _ & Ha & _) & _).
  exists t. split; [exact Hg|]. split; [exact Hs | exact Ha].
Defined.

Lemma replaceNewlines_lines_witness :
  Forall (fun l => hasNewline l = false) ["a"; ""; "b"]
  /\ EmailService.replaceNewlines (joinStrings nl ["a"; ""; "b"])
     = joinStrings "<br>" ["a"; ""; "b"].
Proof.
  split; [repeat constructor|].
  apply (replaceNewlines_lines ["a"; ""; "b"]). repeat constructor.
Defined.

Lemma formatAnswers_wrapper_witness :
  formatAnswers (VArr sampleAnswers)
  = Return (greeting ++ answerLine "A" "b" ++ answerLine "D" "e, f" ++ signoff)
  /\ exists lines,
       greeting ++ answerLine "A" "b" ++ answerLine "D" "e, f" ++ signoff
       = greeting ++ lines ++ signoff.
Proof.
  split; [reflexivity|].
  apply (formatAnswers_wrapper (VArr sampleAnswers)
           (greeting ++ answerLine "A" "b" ++ answerLine "D" "e, f" ++ signoff)).
  reflexivity.
Defined.

Lemma connect_binds_collection_witness :
  connected Demo2.unbound = false
  /\ MongoService.getCollection Demo2.unbound
     = (Throw "Database not connected", Demo2.unbound).
Proof.
  split; [reflexivity|].
  apply (connect_binds_collection Demo2.unbound). reflexivity.
Defined.

Lemma setupTransporter_readiness_witness :
  isConfigured (Demo.world false Demo.rejecting) = false
  /\ isConfigured (snd (EmailService.setupTransporter Demo2.anyTransport
                          (Demo.world false Demo.rejecting))) = false.
Proof.
  split; [reflexivity|].
  destruct (setupTransporter_readiness Demo2.anyTransport
              (Demo.world false Demo.rejecting) eq_refl) as (H & _).
  exact H.
Defined.
